(** * mock_lab_analyzer: MLLP framing, HL7 order extraction, result
      composition and the pending-order store

    A shallow embedding of [src/lab_analyzer/analyzer.py] and
    [src/shared/state.py].

    Conventions.
    - Python [bytes] are [list byte].
    - Python [str] is a Rocq [string] holding the text in its UTF-8 form, so
      [s.encode('utf-8')] is the list of its bytes and every operation on
      ASCII delimiters ([split('^')], ['\r'.join], f-strings) acts on the
      bytes as it does on the code points.
    - A Python function that can raise returns [option]; [None] is the
      raised exception.
    - Wall-clock time, [uuid.uuid4()] and [random.randint] are inputs of the
      operation that reads them.
    - Python objects that are shared by reference (the records of the message
      queue and its dictionaries) live in an explicit heap. *)

From Stdlib Require Import ZArith NArith List DecimalString.
From Stdlib Require Import Strings.Ascii Strings.String Strings.Byte.
From Stdlib Require Import Floats.SpecFloat.
From stdpp Require Import base option list gmap strings.

Local Open Scope string_scope.
Local Open Scope list_scope.

(** ** Python sequence primitives *)

Module Py.

(** [l[start:stop]] with Python's clamping of negative and oversized
    indices. *)
Definition norm_index (len i : Z) : Z :=
  if (i <? 0)%Z then Z.max 0 (len + i) else Z.min i len.

Definition slice {A} (l : list A) (start stop : Z) : list A :=
  let n := Z.of_nat (length l) in
  let s := norm_index n start in
  let e := norm_index n stop in
  take (Z.to_nat (e - s)) (drop (Z.to_nat s) l).

#[global] Instance byte_eq_dec : EqDecision byte := Byte.byte_eq_dec.

Definition bytes_eqb (a b : list byte) : bool :=
  bool_decide (a = b).

(** [data.startswith(p)] and [data.endswith(p)] on bytes. *)
Definition startswith (data p : list byte) : bool :=
  bytes_eqb (take (length p) data) p.

Definition endswith (data p : list byte) : bool :=
  (length p <=? length data)%nat
  && bytes_eqb (drop (length data - length p) data) p.

(** [s.encode('utf-8')]: a [str] is kept in its UTF-8 form. *)
Definition encode_utf8 (s : string) : list byte := list_byte_of_string s.

End Py.

(** ** MLLP codec ([analyzer.py], lines 14-16, 122-126, 166-176)

    [wrap_mllp] is defined with the same body in [LabAnalyzerService] and
    in [DummyLabAnalyzer]. *)

Definition MLLP_START : list byte := [x0b].
Definition MLLP_END : list byte := [x1c; x0d].

(** The argument of [wrap_mllp] is annotated [str] but the body accepts
    [bytes] as well ([isinstance(message, str)]). *)
Inductive message_arg :=
| MsgStr (s : string)
| MsgBytes (b : list byte).

Definition wrap_mllp (message : message_arg) : list byte :=
  let message :=
    match message with
    | MsgStr s => Py.encode_utf8 s
    | MsgBytes b => b
    end in
  MLLP_START ++ message ++ MLLP_END.

Definition unwrap_mllp (data : list byte) : list byte :=
  if Py.startswith data MLLP_START && Py.endswith data MLLP_END
  then Py.slice data 1 (-2)
  else data.

(** ** Python string primitives *)

Module PyStr.

Definition CR : string := String "013"%char EmptyString.

(** [s.split(sep)] for a one-character separator: every occurrence
    splits, empty pieces are kept, [''.split(sep) == ['']]. *)
Fixpoint split (sep : ascii) (s : string) : list string :=
  match s with
  | EmptyString => [EmptyString]
  | String c rest =>
      if Ascii.eqb c sep then EmptyString :: split sep rest
      else match split sep rest with
           | [] => [String c EmptyString]
           | h :: t => String c h :: t
           end
  end.

(** [sep.join(l)]. *)
Definition join (sep : string) (l : list string) : string :=
  String.concat sep l.

(** Truthiness of a [str]. *)
Definition nonempty (s : string) : bool :=
  match s with EmptyString => false | _ => true end.

(** The characters [str.isspace] accepts, as UTF-8 byte sequences:
    U+0009..U+000D, U+001C..U+0020, U+0085, U+00A0, U+1680,
    U+2000..U+200A, U+2028, U+2029, U+202F, U+205F, U+3000. *)
Definition whitespace : list (list ascii) :=
  map (map ascii_of_nat)
    ([[9]; [10]; [11]; [12]; [13]; [28]; [29]; [30]; [31]; [32];
      [194; 133]; [194; 160]; [225; 154; 128]]
     ++ map (fun k => [226; 128; 128 + k]) (seq 0 11)
     ++ [[226; 128; 168]; [226; 128; 169]; [226; 128; 175];
         [226; 129; 159]; [227; 128; 128]])%nat.

Definition ascii_list_eqb (a b : list ascii) : bool :=
  bool_decide (a = b).

Definition starts_with (p l : list ascii) : bool :=
  ascii_list_eqb (take (length p) l) p.

Fixpoint lstrip_with (ws : list (list ascii)) (fuel : nat) (l : list ascii)
  : list ascii :=
  match fuel with
  | O => l
  | S fuel' =>
      match List.find (fun w => starts_with w l) ws with
      | Some w => lstrip_with ws fuel' (drop (length w) l)
      | None => l
      end
  end.

(** [s.strip()]: whitespace is removed at both ends. *)
Definition strip (s : string) : string :=
  let l := list_ascii_of_string s in
  let l1 := lstrip_with whitespace (length l) l in
  let r := rev l1 in
  let r1 := lstrip_with (map (@rev ascii) whitespace) (length r) r in
  string_of_list_ascii (rev r1).

Definition lower_ascii (c : ascii) : ascii :=
  let n := nat_of_ascii c in
  if ((65 <=? n) && (n <=? 90))%nat then ascii_of_nat (n + 32) else c.

(** [s.lower()]. ASCII capitals are lowered, and so is U+212A KELVIN SIGN,
    the one character outside ASCII whose lower case is an ASCII letter.
    The other entries of Unicode's case table send characters outside ASCII
    to characters outside ASCII and are left in place here: comparisons
    of the lowered text with ASCII literals are not affected. *)
Fixpoint lower (s : string) : string :=
  match s with
  | EmptyString => EmptyString
  | String c rest =>
      match rest with
      | String c2 (String c3 rest') =>
          if (Ascii.eqb c "226" && Ascii.eqb c2 "132" && Ascii.eqb c3 "170")%char
          then String "k" (lower rest')
          else String (lower_ascii c) (lower rest)
      | _ => String (lower_ascii c) (lower rest)
      end
  end.

(** [c in s] for a one-character [c]. *)
Fixpoint contains (c : ascii) (s : string) : bool :=
  match s with
  | EmptyString => false
  | String c' rest => Ascii.eqb c' c || contains c rest
  end.

(** [x in [a, b, ...]] for strings. *)
Definition mem (x : string) (l : list string) : bool :=
  existsb (String.eqb x) l.

(** [str(n)] for an [int]. *)
Definition of_Z (n : Z) : string := NilZero.string_of_int (Z.to_int n).
Definition of_N (n : N) : string := NilZero.string_of_uint (N.to_uint n).

End PyStr.

(** ** Python floats and the [.2f] format

    A [float] is an IEEE 754 binary64 datum, given by its specification
    [spec_float]: a signed zero, a signed infinity, a NaN, or
    [(-1)^s * m * 2^e]. *)

Module PyFloat.

Definition zero : spec_float := S754_zero false.

(** The magnitude [m * 2^e] in hundredths, rounded to the nearest integer,
    ties to even: the correctly rounded conversion that [format] performs. *)
Definition hundredths (m : positive) (e : Z) : N :=
  if (0 <=? e)%Z then (Npos m * 2 ^ Z.to_N e * 100)%N
  else
    let num := (Npos m * 100)%N in
    let den := (2 ^ Z.to_N (- e))%N in
    let q := (num / den)%N in
    let r := (num mod den)%N in
    match (2 * r ?= den)%N with
    | Lt => q
    | Gt => (q + 1)%N
    | Eq => if N.even q then q else (q + 1)%N
    end.

Definition digit (n : N) : ascii := ascii_of_N (48 + n).

Definition fixed2 (h : N) : string :=
  PyStr.of_N (h / 100)
  +:+ "." +:+ String (digit ((h mod 100) / 10)) (String (digit (h mod 10)) "").

Definition sign (s : bool) : string := if s then "-" else "".

(** [f"{x:.2f}"]. *)
Definition format_2f (x : spec_float) : string :=
  match x with
  | S754_nan => "nan"
  | S754_infinity s => sign s +:+ "inf"
  | S754_zero s => sign s +:+ "0.00"
  | S754_finite s m e => sign s +:+ fixed2 (hundredths m e)
  end.

Definition is_finite (x : spec_float) : bool :=
  match x with
  | S754_zero _ | S754_finite _ _ _ => true
  | _ => false
  end.

End PyFloat.

(** ** Extracted order data: the dictionary [parse_order_message] returns *)

Record ParsedData := mkParsedData {
  sending_application : string;
  sending_facility : string;
  message_control_id : string;
  patient_id : string;
  patient_name : string;
  patient_dob : string;
  patient_sex : string;
  patient_address : string;
  patient_phone : string;
  encounter_id : string;
  placer_order : string;
  filler_order : string;
  ordering_provider : string;
  test_id : string;
  test_name : string;
  test_system : string;
}.

(** ** Result composition ([LabAnalyzerService], [analyzer.py] lines 25-120) *)

Record ObsField := mkObsField {
  fld_id : string;
  fld_name : string;
  fld_unit : string;
  fld_reference : string;
  fld_value : string;
  fld_interpretation : string;
}.

(** The dictionary literal [test_fields], in source order. *)
Definition test_fields : list (string * list ObsField) :=
  [ ("LP99237-7",
      [ mkObsField "717-9" "Hemoglobin [Presence] in Blood" "g/dL"
          "12.0-16.0 (F) / 13.0-17.0 (M)" "13.2" "Normal";
        mkObsField "LP15101-6" "Hematocrit" "%" "36-46 (F) / 40-52 (M)"
          "39.5" "Normal";
        mkObsField "LP393833-1"
          "Leukocyte phosphatase | White blood cells | Hematology and Cell counts"
          "10*9/L" "4.0-10.0" "11.8" "Abnormal";
        mkObsField "LP7536-8" "RBC" "10*12/L" "4.2-5.4" "4.8" "Normal" ]);
    ("BMP",
      [ mkObsField "2345-7" "Glucose" "mg/dL" "70-100" "92" "Normal";
        mkObsField "3094-0" "Blood Urea Nitrogen" "mg/dL" "7-20" "15" "Normal";
        mkObsField "2160-0" "Creatinine" "mg/dL" "0.6-1.2" "0.9" "Normal";
        mkObsField "2951-2" "Sodium" "mmol/L" "136-145" "140" "Normal";
        mkObsField "2823-3" "Potassium" "mmol/L" "3.5-5.0" "4.2" "Normal" ]);
    ("GLUCOSE",
      [ mkObsField "1554-5" "Glucose" "mg/dL" "70-105" "88" "Normal" ]);
    ("1554-5",
      [ mkObsField "1554-5" "Glucose" "mg/dL" "70-105" "88" "Normal" ]);
    ("26604007",
      [ mkObsField "LP32067-8" "Hemoglobin" "g/dL" "12.0-17.0" "13.2" "Normal";
        mkObsField "LP15101-6" "Hematocrit" "%" "36.0-50.0" "39.5" "Normal";
        mkObsField "LA12896-9" "Erythrocytes" "10*6/uL" "4.0-10.0" "11.8"
          "Abnormal";
        mkObsField "LP7631-7" "Platelets" "10*3/uL" "150-400" "250" "Normal" ])
  ].

(** [d.get(k)] on a dictionary literal with distinct keys. *)
Fixpoint dict_get {V} (d : list (string * V)) (k : string) : option V :=
  match d with
  | [] => None
  | (k', v) :: rest => if String.eqb k' k then Some v else dict_get rest k
  end.

(** [test_fields.get(test_id.strip(), [])]. *)
Definition get_observation_fields (test_id : string) : list ObsField :=
  let test_id_clean := PyStr.strip test_id in
  default [] (dict_get test_fields test_id_clean).

(** The [if]/[elif] chain of lines 100-113. *)
Definition abnormal_flag (interpretation : string) : string :=
  let _interpretation := PyStr.lower interpretation in
  if PyStr.mem _interpretation ["normal"; "n"] then "N"
  else if PyStr.mem _interpretation ["abnormal"; "a"] then "A"
  else if PyStr.mem _interpretation ["high"; "h"] then "H"
  else if PyStr.mem _interpretation ["low"; "l"] then "L"
  else if PyStr.mem _interpretation ["critical"; "critical high"; "hh"] then "HH"
  else if PyStr.mem _interpretation ["critical low"; "ll"] then "LL"
  else "N".

(** Line 115, the OBX f-string. *)
Definition obx_segment (idx : nat) (field : ObsField) (value : spec_float)
    (abnormal : string) (timestamp : string) : string :=
  "OBX|" +:+ PyStr.of_N (N.of_nat idx) +:+ "|NM|" +:+ fld_id field +:+ "^"
  +:+ fld_name field +:+ "^http://loinc.org||" +:+ PyFloat.format_2f value +:+ "|"
  +:+ fld_unit field +:+ "|" +:+ fld_reference field +:+ "|" +:+ abnormal
  +:+ "|||F|||" +:+ timestamp +:+ "||||||".

(** The body of the loop of lines 95-116 for one [(idx, field)]. *)
Definition observation_segment (observation_values : gmap string spec_float)
    (observation_interpretations : gmap string string) (timestamp : string)
    (idx : nat) (field : ObsField) : string :=
  let value := default PyFloat.zero (observation_values !! fld_id field) in
  let interpretation :=
    default "Normal" (observation_interpretations !! fld_id field) in
  obx_segment idx field value (abnormal_flag interpretation) timestamp.

(** [for idx, field in enumerate(obs_fields, 1)]. *)
Fixpoint observation_segments_from (observation_values : gmap string spec_float)
    (observation_interpretations : gmap string string) (timestamp : string)
    (idx : nat) (obs_fields : list ObsField) : list string :=
  match obs_fields with
  | [] => []
  | field :: rest =>
      observation_segment observation_values observation_interpretations
        timestamp idx field
      :: observation_segments_from observation_values
           observation_interpretations timestamp (S idx) rest
  end.

(** Lines 68-91: MSH, PID, optional PV1, ORC and OBR. *)
Definition order_segments (parsed_data : ParsedData) (timestamp : string)
  : list string :=
  let msh :=
    "MSH|^~\&|LAB_ANALYZER|DUMMY_LAB|" +:+ sending_application parsed_data +:+ "|"
    +:+ sending_facility parsed_data +:+ "|" +:+ timestamp +:+ "||ORU^R01|"
    +:+ message_control_id parsed_data +:+ "_RESULT|P|2.5" in
  let pid :=
    "PID|1||" +:+ patient_id parsed_data +:+ "||" +:+ patient_name parsed_data
    +:+ "||" +:+ patient_dob parsed_data +:+ "|" +:+ patient_sex parsed_data
    +:+ "|||" +:+ patient_address parsed_data +:+ "||"
    +:+ patient_phone parsed_data +:+ "|||||||" in
  let pv1 :=
    if PyStr.nonempty (encounter_id parsed_data)
    then ["PV1|1|||||||||||||||||" +:+ encounter_id parsed_data
          +:+ "|||||||||||||||||||||||||||||||||"]
    else [] in
  let orc :=
    "ORC|RE|" +:+ placer_order parsed_data +:+ "|" +:+ filler_order parsed_data
    +:+ "||CM||||" +:+ timestamp +:+ "|||" +:+ ordering_provider parsed_data in
  let obr_head :=
    "OBR|1|" +:+ placer_order parsed_data +:+ "|" +:+ filler_order parsed_data
    +:+ "|" +:+ test_id parsed_data +:+ "^" +:+ test_name parsed_data in
  let obr_tail :=
    "|||" +:+ timestamp +:+ "|||||||" +:+ timestamp +:+ "|||"
    +:+ ordering_provider parsed_data +:+ "||||||||F" in
  let obr :=
    if PyStr.nonempty (test_system parsed_data)
    then obr_head +:+ "^" +:+ test_system parsed_data +:+ obr_tail
    else obr_head +:+ obr_tail in
  [msh; pid] ++ pv1 ++ [orc; obr].

(** The list [segments] at line 118. [observation_interpretations] is the
    optional third argument ([None] when omitted). *)
Definition result_segments (parsed_data : ParsedData)
    (observation_values : gmap string spec_float)
    (observation_interpretations : option (gmap string string))
    (timestamp : string) : list string :=
  let observation_interpretations := default ∅ observation_interpretations in
  let obs_fields := get_observation_fields (test_id parsed_data) in
  order_segments parsed_data timestamp
  ++ observation_segments_from observation_values observation_interpretations
       timestamp 1 obs_fields.

(** [create_result_message]; [timestamp] is
    [datetime.now().strftime('%Y%m%d%H%M%S')]. The function has no raising
    statement: it returns a text for every argument. *)
Definition create_result_message (parsed_data : ParsedData)
    (observation_values : gmap string spec_float)
    (observation_interpretations : option (gmap string string))
    (timestamp : string) : string :=
  PyStr.join PyStr.CR
    (result_segments parsed_data observation_values
       observation_interpretations timestamp).

(** ** UTF-8 decoding with [errors='ignore'] *)

Module Utf8.

Definition between (lo hi : N) (b : byte) : bool :=
  ((lo <=? Byte.to_N b) && (Byte.to_N b <=? hi))%N.

Definition cont (b : byte) : bool := between 128 191 b.

Definition lead3 (b1 b2 : byte) : bool :=
  (between 224 224 b1 && between 160 191 b2)
  || (between 225 236 b1 && cont b2)
  || (between 237 237 b1 && between 128 159 b2)
  || (between 238 239 b1 && cont b2).

Definition lead4 (b1 b2 : byte) : bool :=
  (between 240 240 b1 && between 144 191 b2)
  || (between 241 243 b1 && cont b2)
  || (between 244 244 b1 && between 128 143 b2).

(** Length of the well-formed UTF-8 sequence at the head of [l]; [0] when
    the first byte starts none. *)
Definition seq_length (l : list byte) : nat :=
  match l with
  | b1 :: b2 :: b3 :: b4 :: _ =>
      if between 0 127 b1 then 1
      else if between 194 223 b1 && cont b2 then 2
      else if lead3 b1 b2 && cont b3 then 3
      else if lead4 b1 b2 && cont b3 && cont b4 then 4
      else 0
  | [b1; b2; b3] =>
      if between 0 127 b1 then 1
      else if between 194 223 b1 && cont b2 then 2
      else if lead3 b1 b2 && cont b3 then 3
      else 0
  | [b1; b2] =>
      if between 0 127 b1 then 1
      else if between 194 223 b1 && cont b2 then 2
      else 0
  | [b1] => if between 0 127 b1 then 1 else 0
  | [] => 0
  end%nat.

Fixpoint keep_valid (fuel : nat) (l : list byte) : list byte :=
  match fuel, l with
  | O, _ | _, [] => []
  | S fuel', b :: rest =>
      match seq_length l with
      | O => keep_valid fuel' rest
      | n => take n l ++ keep_valid fuel' (drop n l)
      end
  end.

(** [data.decode('utf-8', errors='ignore')]: well-formed sequences are
    kept, every other byte is dropped. *)
Definition decode_ignore (data : list byte) : string :=
  string_of_list_byte (keep_valid (length data) data).

End Utf8.

(** ** The containers of the [hl7] library

    [hl7.parse] yields a [Message], a list of [Segment]s, each a list of
    [Field]s; a field holds plain strings or nested containers (repetitions,
    components). Every container is a Python list with a separator:
    [str(c)] joins the children, [bool(c)] is [len(c) > 0]. *)

Module HL7.

Local Unset Elimination Schemes.
Inductive node :=
| Text (s : string)
| Container (sep : string) (items : list node).
Local Set Elimination Schemes.

Fixpoint node_str (n : node) : string :=
  match n with
  | Text s => s
  | Container sep items => PyStr.join sep (List.map node_str items)
  end.

Record Field := mkField { field_sep : string; field_items : list node }.

Abbreviation Segment := (list Field).
Abbreviation Message := (list Segment).

(** [str(f)] and [bool(f)]. *)
Definition field_str (f : Field) : string :=
  PyStr.join (field_sep f) (List.map node_str (field_items f)).

Definition field_truthy (f : Field) : bool :=
  match field_items f with [] => false | _ => true end.

(** [seg[0][0]]; [None] is the [IndexError]. *)
Definition segment_name (seg : Segment) : option node :=
  f ← head seg; head (field_items f).

(** [x == name] for a string literal [name]: a container is a list and
    never equals a [str]. *)
Definition is_name (name : string) (x : node) : bool :=
  match x with
  | Text s => String.eqb s name
  | Container _ _ => false
  end.

(** [[seg[0][0] for seg in parsed]]. *)
Definition segment_names (parsed : Message) : option (list node) :=
  mapM segment_name parsed.

Definition named (name : string) (seg : Segment) : bool :=
  match segment_name seg with
  | Some x => is_name name x
  | None => false
  end.

(** [parsed.segment(name)]: the first segment whose [seg[0][0]] equals
    [name]; [KeyError] when there is none. The library evaluates
    [seg[0][0]] on every segment first. *)
Definition segment (parsed : Message) (name : string) : option Segment :=
  _ ← segment_names parsed; List.find (named name) parsed.

(** [parsed.segment(name) if name in [seg[0][0] for seg in parsed] else None]:
    the outer [option] is the exception, the inner one Python's [None]. *)
Definition segment_or_none (parsed : Message) (name : string)
  : option (option Segment) :=
  names ← segment_names parsed;
  if existsb (is_name name) names
  then seg ← segment parsed name; Some (Some seg)
  else Some None.

(** Truthiness of a segment variable that may be [None]. *)
Definition seg_truthy (seg : option Segment) : bool :=
  match seg with
  | Some (_ :: _) => true
  | _ => false
  end.

Definition seg_len (seg : option Segment) : nat :=
  match seg with Some s => length s | None => 0 end.

(** [seg and len(seg) > i]. *)
Definition has_field (seg : option Segment) (i : nat) : bool :=
  seg_truthy seg && (i <? seg_len seg)%nat.

(** [str(seg[i])], read under the guard [has_field seg i]. *)
Definition field_text (seg : option Segment) (i : nat) : string :=
  match seg with
  | Some s => from_option field_str "" (s !! i)
  | None => ""
  end.

(** [seg and len(seg) > i and str(seg[i])]. *)
Definition has_text (seg : option Segment) (i : nat) : bool :=
  has_field seg i && PyStr.nonempty (field_text seg i).

End HL7.

(** ** The message queue ([shared/state.py])

    The queue holds [self._messages], a dictionary from message ids to
    record dictionaries. Both are Python objects handed around by reference,
    so they live in a heap: [dicts] for dictionaries whose values are
    references to records, [records] for the record dictionaries themselves.
    [self._lock] serialises the methods; each method below is one critical
    section. The nested ['parsed_data'] dictionary is kept by value. *)

Record StoredMessage := mkStoredMessage {
  msg_id : string;
  msg_raw_message : string;
  msg_parsed_data : ParsedData;
  msg_status : string;
  msg_received_at : string;
  msg_processed_at : option string;
  msg_result_message : option string;
}.

Definition set_status (v : string) (r : StoredMessage) : StoredMessage :=
  mkStoredMessage (msg_id r) (msg_raw_message r) (msg_parsed_data r) v
    (msg_received_at r) (msg_processed_at r) (msg_result_message r).

Definition set_processed_at (v : option string) (r : StoredMessage)
  : StoredMessage :=
  mkStoredMessage (msg_id r) (msg_raw_message r) (msg_parsed_data r)
    (msg_status r) (msg_received_at r) v (msg_result_message r).

Definition set_result_message (v : option string) (r : StoredMessage)
  : StoredMessage :=
  mkStoredMessage (msg_id r) (msg_raw_message r) (msg_parsed_data r)
    (msg_status r) (msg_received_at r) (msg_processed_at r) v.

Abbreviation loc := positive.

Record Heap := mkHeap {
  records : gmap loc StoredMessage;
  dicts : gmap loc (gmap string loc);
}.

Definition with_records (f : gmap loc StoredMessage → gmap loc StoredMessage)
    (h : Heap) : Heap :=
  mkHeap (f (records h)) (dicts h).

Definition with_dicts
    (f : gmap loc (gmap string loc) → gmap loc (gmap string loc))
    (h : Heap) : Heap :=
  mkHeap (records h) (f (dicts h)).

(** A method run: from a heap to a result and a heap, or an exception. *)
Definition Run (A : Type) : Type := Heap → option (A * Heap).

Record MessageQueue := mkMessageQueue { _messages : loc }.

Module MessageQueue.

(** [__init__]: [self._messages = {}]. *)
Definition init : Run MessageQueue := λ h,
  let l := fresh (dom (dicts h)) in
  Some (mkMessageQueue l, with_dicts <[l := ∅]> h).

(** [add_message]; [message_id] is [str(uuid.uuid4())] and [now] is
    [datetime.now().isoformat()]. *)
Definition add_message (self : MessageQueue) (message_data : string)
    (parsed_data : ParsedData) (message_id now : string) : Run string := λ h,
  d ← dicts h !! _messages self;
  let l := fresh (dom (records h)) in
  let r := mkStoredMessage message_id message_data parsed_data "pending"
             now None None in
  Some (message_id,
        with_dicts <[_messages self := <[message_id := l]> d]>
          (with_records <[l := r]> h)).

(** [get_message]: [self._messages.get(message_id)], the reference held
    by the dictionary or [None]. *)
Definition get_message (self : MessageQueue) (message_id : string)
  : Run (option loc) := λ h,
  d ← dicts h !! _messages self;
  Some (d !! message_id, h).

(** [get_all_messages]: [dict(self._messages)], a new dictionary with the
    same keys and the same references. *)
Definition get_all_messages (self : MessageQueue) : Run loc := λ h,
  d ← dicts h !! _messages self;
  let l := fresh (dom (dicts h)) in
  Some (l, with_dicts <[l := d]> h).

Definition is_pending (h : Heap) (l : loc) : bool :=
  match records h !! l with
  | Some r => String.eqb (msg_status r) "pending"
  | None => false
  end.

(** [get_pending_messages]: a new dictionary of the entries whose record
    has [status == 'pending']. *)
Definition get_pending_messages (self : MessageQueue) : Run loc := λ h,
  d ← dicts h !! _messages self;
  let l := fresh (dom (dicts h)) in
  Some (l, with_dicts
             <[l := filter (λ kv, is_pending h kv.2 = true) d]> h).

(** Lines 70-74: the three assignments to the record. *)
Definition updated (status : string) (result_message : option string)
    (now : string) (r : StoredMessage) : StoredMessage :=
  let r := set_status status r in
  let r :=
    if PyStr.mem status ["processed"; "discarded"]
    then set_processed_at (Some now) r else r in
  match result_message with
  | Some m => if PyStr.nonempty m then set_result_message (Some m) r else r
  | None => r
  end.

(** [update_status]; [result_message] is [None] when the argument is
    omitted, [now] is [datetime.now().isoformat()]. *)
Definition update_status (self : MessageQueue) (message_id status : string)
    (result_message : option string) (now : string) : Run bool := λ h,
  d ← dicts h !! _messages self;
  match d !! message_id with
  | Some l =>
      r ← records h !! l;
      Some (true,
            with_records <[l := updated status result_message now r]> h)
  | None => Some (false, h)
  end.

(** One [update_status] call on a fixed id, and a sequence of them. *)
Record call := mkCall {
  call_status : string;
  call_result : option string;
  call_now : string;
}.

Fixpoint update_all (self : MessageQueue) (message_id : string)
    (calls : list call) (h : Heap) : option (list bool * Heap) :=
  match calls with
  | [] => Some ([], h)
  | c :: rest =>
      '(b, h1) ← update_status self message_id (call_status c)
                   (call_result c) (call_now c) h;
      '(bs, h2) ← update_all self message_id rest h1;
      Some (b :: bs, h2)
  end.

(** [remove_message]. *)
Definition remove_message (self : MessageQueue) (message_id : string)
  : Run bool := λ h,
  d ← dicts h !! _messages self;
  match d !! message_id with
  | Some _ =>
      Some (true, with_dicts <[_messages self := delete message_id d]> h)
  | None => Some (false, h)
  end.

(** What the queue holds under [message_id]. *)
Definition stored (self : MessageQueue) (h : Heap) (message_id : string)
  : option StoredMessage :=
  d ← dicts h !! _messages self;
  l ← d !! message_id;
  records h !! l.

(** The queue's dictionary exists and every entry refers to a record. *)
Definition wf (self : MessageQueue) (h : Heap) : Prop :=
  ∃ d, dicts h !! _messages self = Some d
       ∧ ∀ k l, d !! k = Some l → is_Some (records h !! l).

Definition has_terminal_status (h : Heap) (l : loc) : bool :=
  match records h !! l with
  | Some r => PyStr.mem (msg_status r) ["processed"; "discarded"]
  | None => false
  end.

(** [clear_processed]: the keys whose record has a status in
    [['processed', 'discarded']] are collected, each is deleted from
    [self._messages], and their number is returned. *)
Definition clear_processed (self : MessageQueue) : Run nat := λ h,
  d ← dicts h !! _messages self;
  let to_remove := filter (λ kv, has_terminal_status h kv.2 = true) d in
  Some (size to_remove, with_dicts <[_messages self := d ∖ to_remove]> h).

(** No two ids share a record: [add_message] builds a new dictionary for
    each id. *)
Definition separate (self : MessageQueue) (h : Heap) : Prop :=
  ∀ d k1 k2 l,
    dicts h !! _messages self = Some d →
    d !! k1 = Some l → d !! k2 = Some l → k1 = k2.

(** The ids the queue holds. *)
Definition ids (self : MessageQueue) (h : Heap) : gset string :=
  from_option dom ∅ (dicts h !! _messages self).

End MessageQueue.

(** What a holder of a reference can do to the object behind it. *)
Module Caller.

(** [m[field] = v] on a record, here through its setter. *)
Definition record_assign (l : loc) (f : StoredMessage → StoredMessage)
    (h : Heap) : Heap :=
  with_records (alter f l) h.

(** [d[k] = v] and [del d[k]] on a dictionary of references. *)
Definition dict_setitem (l : loc) (k : string) (v : loc) (h : Heap) : Heap :=
  with_dicts (alter <[k := v]> l) h.

Definition dict_delitem (l : loc) (k : string) (h : Heap) : Heap :=
  with_dicts (alter (delete k) l) h.

End Caller.

(** ** Order extraction and the inbound listener ([DummyLabAnalyzer]) *)

Section Analyzer.

(** [hl7.parse], the parser of the third-party [hl7] package: from the
    decoded text to a [Message], or an exception. *)
Variable hl7_parse : string → option HL7.Message.

Import HL7.

(** Lines 207-226: ORC first, OBR second, then the default. *)
Definition first_text (a : option Segment) (i : nat)
    (b : option Segment) (j : nat) (dflt : string) : string :=
  if has_text a i then field_text a i
  else if has_text b j then field_text b j
  else dflt.

(** Lines 229-230: [obr[4]], or the [ValueError] raised when
    [not obr or len(obr) <= 4 or not obr[4]]. *)
Definition test_field (obr : option Segment) : option Field :=
  if seg_truthy obr && (4 <? seg_len obr)%nat
  then s ← obr; f ← s !! 4%nat; if field_truthy f then Some f else None
  else None.

(** Lines 235 and 239-240: [field_components[0]], or the [ValueError]
    raised when it is empty. *)
Definition required_test_id (field_components : list string)
  : option string :=
  c ← field_components !! 0%nat;
  if PyStr.nonempty c then Some c else None.

(** Lines 184-259 of [parse_order_message], after [hl7.parse]. [None] is
    an exception raised in the [try] block. [rnd_msg] and [rnd_filler] are
    [random.randint(10000, 99999)] and [random.randint(1000, 9999)]. *)
Definition extract_order (parsed : Message) (rnd_msg rnd_filler : Z)
  : option ParsedData :=
  msh ← segment_or_none parsed "MSH";
  pid ← segment_or_none parsed "PID";
  pv1 ← segment_or_none parsed "PV1";
  orc ← segment_or_none parsed "ORC";
  obr ← segment_or_none parsed "OBR";
  let sending_application :=
    if has_field msh 3 then field_text msh 3 else "ORDER_SYSTEM" in
  let sending_facility :=
    if has_field msh 4 then field_text msh 4 else "HOSPITAL" in
  let message_control_id :=
    if has_field msh 10 then field_text msh 10
    else "MSG" +:+ PyStr.of_Z rnd_msg in
  let patient_id :=
    if has_text pid 3 then field_text pid 3 else "UNKNOWN" in
  let patient_name :=
    if has_text pid 5 then field_text pid 5 else "DOE^JOHN" in
  let patient_dob := if has_text pid 7 then field_text pid 7 else "" in
  let patient_sex := if has_text pid 8 then field_text pid 8 else "U" in
  let patient_address :=
    if has_text pid 11 then field_text pid 11 else "" in
  let patient_phone :=
    if has_text pid 13 then field_text pid 13 else "" in
  let encounter_id :=
    if has_text pv1 19 then field_text pv1 19 else "" in
  let placer_order := first_text orc 2 obr 2 "ORDER123" in
  let filler_order :=
    first_text orc 3 obr 3 ("FILLER" +:+ PyStr.of_Z rnd_filler) in
  let ordering_provider := first_text orc 12 obr 16 "" in
  obr4 ← test_field obr;
  let obr_field_4 := field_str obr4 in
  let field_components := PyStr.split "^" obr_field_4 in
  test_id ← required_test_id field_components;
  let test_name := default "" (field_components !! 1%nat) in
  let test_system := default "" (field_components !! 2%nat) in
  Some {|
    sending_application := sending_application;
    sending_facility := sending_facility;
    message_control_id := message_control_id;
    patient_id := patient_id;
    patient_name := patient_name;
    patient_dob := patient_dob;
    patient_sex := patient_sex;
    patient_address := patient_address;
    patient_phone := patient_phone;
    encounter_id := encounter_id;
    placer_order := placer_order;
    filler_order := filler_order;
    ordering_provider := ordering_provider;
    test_id := test_id;
    test_name := test_name;
    test_system := test_system;
  |}.

(** [parse_order_message]: the dictionary, or [None] on any exception. *)
Definition parse_order_message (message : list byte)
    (rnd_msg rnd_filler : Z) : option ParsedData :=
  parsed ← hl7_parse (Utf8.decode_ignore message);
  extract_order parsed rnd_msg rnd_filler.

(** What [handle_client] reads from its surroundings, in program order. *)
Record ClientEnv := mkClientEnv {
  env_data : option (list byte);  (* reader.read(4096); None: it raised *)
  env_rnd_control : Z;            (* randint, line 306 or 309 *)
  env_ack_stamp : string;         (* datetime.now().strftime, line 312 *)
  env_rnd_ack : Z;                (* randint, line 312 *)
  env_drained : bool;             (* await writer.drain() returns *)
  env_rnd_msg : Z;                (* randint, line 193 *)
  env_rnd_filler : Z;             (* randint, line 219 *)
  env_uuid : string;              (* uuid.uuid4(), add_message *)
  env_now : string;               (* datetime.now().isoformat() *)
}.

(** Lines 298-309: message type and control id for the ACK. *)
Definition ack_fields (decoded : string) (rnd_control : Z)
  : string * string :=
  let attempt :=
    parsed ← hl7_parse decoded;
    seg ← segment parsed "MSH";
    let msh := Some seg in
    let msg_type := if has_field msh 9 then field_text msh 9 else "ACK" in
    let parts := PyStr.split "^" msg_type in
    base_type ← (if PyStr.contains "^" msg_type
                 then (if (1 <? length parts)%nat
                       then parts !! 1%nat else parts !! 0%nat)
                 else Some "O01");
    let msg_control_id :=
      if has_field msh 10 then field_text msh 10
      else PyStr.of_Z rnd_control in
    Some (base_type, msg_control_id) in
  default ("O01", PyStr.of_Z rnd_control) attempt.

(** Line 312. *)
Definition ack_message (base_type msg_control_id stamp : string)
    (rnd_ack : Z) : string :=
  "MSH|^~\&|LAB_ANALYZER|DUMMY_LAB|ORDER_SYSTEM|HOSPITAL|" +:+ stamp
  +:+ "||ACK^" +:+ base_type +:+ "|ACK" +:+ PyStr.of_Z rnd_ack
  +:+ "|P|2.5" +:+ PyStr.CR +:+ "MSA|AA|" +:+ msg_control_id.

(** [handle_client]: the frames passed to [writer.write] and the heap
    after the call. Every exception is caught by the outer [except]; the
    connection is closed on all paths. *)
Definition handle_client (queue : MessageQueue) (env : ClientEnv)
    (h : Heap) : list (list byte) * Heap :=
  match env_data env with
  | None => ([], h)
  | Some [] => ([], h)
  | Some data =>
      let message := unwrap_mllp data in
      let decoded := Utf8.decode_ignore message in
      let '(base_type, msg_control_id) :=
        ack_fields decoded (env_rnd_control env) in
      let ack :=
        wrap_mllp (MsgStr (ack_message base_type msg_control_id
                             (env_ack_stamp env) (env_rnd_ack env))) in
      if env_drained env then
        match parse_order_message message (env_rnd_msg env)
                (env_rnd_filler env) with
        | Some parsed_data =>
            match MessageQueue.add_message queue decoded parsed_data
                    (env_uuid env) (env_now env) h with
            | Some (_, h') => ([ack], h')
            | None => ([ack], h)
            end
        | None => ([ack], h)
        end
      else ([ack], h)
  end.

End Analyzer.

(** ** The outbound sender ([LabAnalyzerService.send_result]) *)

Inductive outcome (A : Type) :=
| Returned (a : A)
| RaisedTimeout
| RaisedError.
Arguments Returned {A} a.
Arguments RaisedTimeout {A}.
Arguments RaisedError {A}.

(** How the downstream receiver answers each awaited call.
    [read_ack] is [asyncio.wait_for(reader.read(1024), timeout=5.0)]: the
    bytes read ([b''] when the peer closes the stream without sending), or
    [TimeoutError] when 5 seconds pass, or another exception. *)
Record Downstream := mkDownstream {
  open_connection : outcome unit;
  drain : outcome unit;
  read_ack : outcome (list byte);
  wait_closed : outcome unit;
}.

Inductive io_event :=
| Connect
| Write (frame : list byte)
| ReadAck
| Close.

(** [send_result]: the value returned and the calls made, in order. Both
    [except] clauses return [False]. *)
Definition send_result (peer : Downstream) (message : message_arg)
  : bool * list io_event :=
  match open_connection peer with
  | Returned _ =>
      let mllp_message := wrap_mllp message in
      match drain peer with
      | Returned _ =>
          match read_ack peer with
          | Returned ack =>
              match wait_closed peer with
              | Returned _ =>
                  (true, [Connect; Write mllp_message; ReadAck; Close])
              | _ => (false, [Connect; Write mllp_message; ReadAck; Close])
              end
          | _ => (false, [Connect; Write mllp_message; ReadAck])
          end
      | _ => (false, [Connect; Write mllp_message])
      end
  | _ => (false, [Connect])
  end.

Definition is_connect (e : io_event) : bool :=
  match e with Connect => true | _ => false end.

(** Number of connection attempts in a trace. *)
Definition connects (trace : list io_event) : nat :=
  length (List.filter is_connect trace).

(** ** Specification vocabulary

    Predicates in which the statements below are phrased. *)

Module Spec.

Definition is_digit (c : ascii) : bool :=
  let n := nat_of_ascii c in ((48 <=? n) && (n <=? 57))%nat.

Fixpoint all_digits (s : string) : bool :=
  match s with
  | EmptyString => true
  | String c rest => is_digit c && all_digits rest
  end.

(** A point followed by exactly two digits. *)
Definition point_two (s : string) : bool :=
  match s with
  | String p (String d1 (String d2 EmptyString)) =>
      Ascii.eqb p "." && is_digit d1 && is_digit d2
  | _ => false
  end.

(** One or more digits, a point, exactly two digits. *)
Fixpoint digits_point_two (s : string) : bool :=
  match s with
  | EmptyString => false
  | String c rest => is_digit c && (point_two rest || digits_point_two rest)
  end.

(** A decimal numeral with exactly two decimal places, signed or not. *)
Definition two_decimals (s : string) : bool :=
  match s with
  | EmptyString => false
  | String c rest =>
      if Ascii.eqb c "-" then digits_point_two rest else digits_point_two s
  end.

Definition terminal (status : string) : Prop :=
  status = "processed" ∨ status = "discarded".

#[global] Instance terminal_dec status : Decision (terminal status).
Proof. unfold terminal. apply _. Defined.

(** The status and the stamp a record ends with after a sequence of
    [update_status] calls. *)
Definition final_status (calls : list MessageQueue.call) (s0 : string)
  : string :=
  from_option MessageQueue.call_status s0 (last calls).

Definition final_stamp (calls : list MessageQueue.call)
    (p0 : option string) : option string :=
  foldl (λ p c, if decide (terminal (MessageQueue.call_status c))
                then Some (MessageQueue.call_now c) else p) p0 calls.

(** The text of field [i] of the first segment called [name]; [None] when
    the segment or the field is absent. *)
Definition field_at (parsed : HL7.Message) (name : string) (i : nat)
  : option string :=
  s ← List.find (HL7.named name) parsed;
  HL7.field_str <$> (s !! i).

(** Fallback when the source is absent. *)
Definition or_if_absent (dflt : string) (src : option string) : string :=
  default dflt src.

(** Fallback when the source is absent or empty. *)
Definition or_if_empty (dflt : string) (src : option string) : string :=
  match src with
  | Some s => if PyStr.nonempty s then s else dflt
  | None => dflt
  end.

(** The first [^] component of a field text. *)
Definition first_component (s : string) : string :=
  default "" (head (PyStr.split "^" s)).

(** The order-detail segment is absent, or its field 4 is absent or
    empty, or the first component of that field is empty. *)
Definition lacks_test_code (parsed : HL7.Message) : Prop :=
  List.find (HL7.named "OBR") parsed = None
  ∨ (∃ obr, List.find (HL7.named "OBR") parsed = Some obr
            ∧ obr !! 4%nat = None)
  ∨ (∃ s, field_at parsed "OBR" 4 = Some s
          ∧ (s = "" ∨ first_component s = "")).

(** The text typed for observation [k] on the process form: the form has
    the key [obs_k] with a non-empty value. *)
Definition entered (form : gmap string string) (k : string)
  : option string :=
  v ← form !! ("obs_" +:+ k);
  if PyStr.nonempty v then Some v else None.

(** Every byte of the text is below 128. *)
Definition is_ascii (s : string) : bool :=
  forallb (Utf8.between 0 127) (list_byte_of_string s).

(** A segment of a message is an observation segment. *)
Definition is_observation (segment : string) : bool :=
  String.prefix "OBX|" segment.

(** The most [reader.read(4096)] returns. *)
Definition read_limit : nat := 4096.

(** No record of the queue holds a result text. *)
Definition no_result (q : MessageQueue) (h : Heap) : Prop :=
  ∀ id r, MessageQueue.stored q h id = Some r → msg_result_message r = None.

(** The texts of an extracted order. *)
Definition order_texts (pd : ParsedData) : list string :=
  [ sending_application pd; sending_facility pd; message_control_id pd;
    patient_id pd; patient_name pd; patient_dob pd; patient_sex pd;
    patient_address pd; patient_phone pd; encounter_id pd; placer_order pd;
    filler_order pd; ordering_provider pd; test_id pd; test_name pd;
    test_system pd ].

(** Field 4 of the order-detail segment that [create_result_message]
    writes: the test id and name, and the coding system when it is not
    empty. *)
Definition test_code_text (pd : ParsedData) : string :=
  test_id pd +:+ "^" +:+ test_name pd
  +:+ (if PyStr.nonempty (test_system pd)
       then "^" +:+ test_system pd else "").

End Spec.

(** ** Sample data for the worked examples *)

Module Sample.

Import HL7.

Definition order (test : string) : ParsedData :=
  mkParsedData "APP" "FAC" "MC1" "P1" "DOE^JANE" "19800101" "F" "" "" ""
    "PL1" "FL1" "" test "Panel" "".

(** A queue after [MessageQueue()] and one [add_message]. *)
Definition queue : MessageQueue := mkMessageQueue 1.

Definition record : StoredMessage :=
  mkStoredMessage "id-1" "raw" (order "BMP") "pending" "2025-01-01T00:00:00"
    None None.

Definition heap : Heap :=
  mkHeap {[ 1%positive := record ]}
    {[ 1%positive := {[ "id-1" := 1%positive ]} ]}.

Definition fld (s : string) : Field := mkField "~" [Text s].
Definition seg (l : list string) : Segment := List.map fld l.

(** A stand-in for [hl7.parse] to run the examples with: one segment per
    carriage-return separated line, fields cut at [|], each held as one
    string; in the header segment the field separator itself is field 1,
    as in the library. The statements below hold for every parser. *)
Definition fields_of (line : string) : list string :=
  match PyStr.split "|" line with
  | "MSH" :: rest => "MSH" :: "|" :: rest
  | l => l
  end.

Definition simple_parse (text : string) : option Message :=
  Some (List.map (λ line, seg (fields_of line)) (PyStr.split "013" text)).

Definition header : string :=
  "MSH|^~\&|APP|FAC|LAB|L|20250101||OML^O21|CTRL-7|P|2.5".

(** An order whose header has fields 3, 4 and 10 present and empty. *)
Definition order_empty_header : string :=
  "MSH|^~\&|||LAB|L|20250101||OML^O21||P|2.5" +:+ PyStr.CR
  +:+ "PID|1||PAT1||Doe^J" +:+ PyStr.CR +:+ "OBR|1|PL||BMP^Basic".

(** The same order as [hl7.parse] returns it: an empty field is a field
    holding one empty string. *)
Definition parsed_empty_header : Message :=
  [ seg ["MSH"; "|"; "^~\&"; ""; ""; "LAB"; "L"; "20250101"; ""; "OML^O21";
         ""; "P"; "2.5"];
    seg ["PID"; "1"; ""; "PAT1"; ""; "Doe^J"];
    seg ["OBR"; "1"; "PL"; ""; "BMP^Basic"] ].

Definition extracted_empty_header : ParsedData :=
  Eval vm_compute in
    default (order "") (extract_order parsed_empty_header 12345 6789).

(** An order without field 4 in its OBR segment. *)
Definition order_no_test : string :=
  header +:+ PyStr.CR +:+ "PID|1||PAT1||Doe^J" +:+ PyStr.CR +:+ "OBR|1|PL".

Definition parsed_no_test : Message :=
  [ seg ["MSH"; "|"; "^~\&"; "APP"; "FAC"; "LAB"; "L"; "20250101"; "";
         "OML^O21"; "CTRL-7"; "P"; "2.5"];
    seg ["PID"; "1"; ""; "PAT1"; ""; "Doe^J"];
    seg ["OBR"; "1"; "PL"] ].

Definition frame (text : string) : list byte := wrap_mllp (MsgStr text).

Definition env (data : list byte) : ClientEnv :=
  mkClientEnv (Some data) 11111 "20250101120000" 22222 true 33333 4444
    "id-2" "2025-01-01T12:00:00".

(** A receiver that accepts the connection and the frame, then closes the
    stream without sending anything. *)
Definition silent_peer : Downstream :=
  mkDownstream (Returned ()) (Returned ()) (Returned []) (Returned ()).

(** Status and stamp of record [id-1] after a sequence of
    [update_status] calls on [heap]. *)
Definition after (calls : list MessageQueue.call)
  : option (string * option string) :=
  x ← MessageQueue.update_all queue "id-1" calls heap;
  r ← MessageQueue.stored queue x.2 "id-1";
  Some (msg_status r, msg_processed_at r).

Definition stamp : string := "20250101120000".

(** Values entered on the process form: 92.5 for glucose, read as high. *)
Definition values : gmap string spec_float :=
  {[ "2345-7" := S754_finite false 185 (-1) ]}.

Definition texts : gmap string string := {[ "2345-7" := "High" ]}.

Definition replying_peer : Downstream :=
  mkDownstream (Returned ()) (Returned ()) (Returned [x0b; x1c; x0d])
    (Returned ()).

(** A queue with a pending, a processed and an ['archived'] record. *)
Definition heap3 : Heap :=
  mkHeap
    {[ 1%positive := record;
       2%positive := mkStoredMessage "id-2" "raw2" (order "1554-5") "processed"
                       "2025-01-01T00:00:01" (Some "2025-01-01T00:05:00") None;
       3%positive := mkStoredMessage "id-3" "raw3" (order "GLUCOSE") "archived"
                       "2025-01-01T00:00:02" None None ]}
    {[ 1%positive := {[ "id-1" := 1%positive; "id-2" := 2%positive;
                        "id-3" := 3%positive ]} ]}.

(** The process form filled in for the basic metabolic panel. *)
Definition form : gmap string string :=
  {[ "obs_2345-7" := "92.5"; "obs_3094-0" := ""; "csrf" := "x" ]}.

(** The same form with a text that is no number. *)
Definition bad_form : gmap string string :=
  {[ "obs_2345-7" := "92.5"; "obs_3094-0" := "high" ]}.

(** A stand-in for the built-in [float]: the two texts of the examples. *)
Definition simple_float (text : string) : option spec_float :=
  if String.eqb text "92.5" then Some (S754_finite false 185 (-1))
  else if String.eqb text "nan" then Some S754_nan
  else None.

Definition timed_out_peer : Downstream :=
  mkDownstream (Returned ()) (Returned ()) RaisedTimeout (Returned ()).

(** A complete order for the basic metabolic panel, and what is extracted
    from it. *)
Definition order_bmp : string :=
  header +:+ PyStr.CR +:+ "OBR|1|PL||BMP^Basic^LN".

Definition extracted_bmp : ParsedData :=
  Eval vm_compute in
    default (order "")
      (parse_order_message simple_parse (Py.encode_utf8 order_bmp)
         33333 4444).

End Sample.

(** ** Configuration ([config/settings.py]) *)

Module Config.

(** [Config.get_mllp_host_port]: [host, port = address.split(':')] raises
    unless the split has two parts; [py_int] is the built-in [int] on
    strings, [None] when it raises. The address is
    [os.getenv('MLLP_SERVER_ADDRESS', 'localhost:2577')]. *)
Definition get_mllp_host_port (py_int : string → option Z)
    (MLLP_SERVER_ADDRESS : string) : option (string * Z) :=
  match PyStr.split ":" MLLP_SERVER_ADDRESS with
  | [host; port] => p ← py_int port; Some (host, p)
  | _ => None
  end.

End Config.

(** ** The review routes ([web/routes.py])

    A route ends in [flash(message, category)] and a redirect, or renders
    the process form. [message_queue] is the global queue, [lab_service] the
    composer and sender above. *)

Inductive page :=
| Index
| ProcessForm (message_id : string).

Record redirect := mkRedirect {
  flash_message : string;
  flash_category : string;
  target : page;
}.

Inductive form_reply :=
| FormRedirect (r : redirect)
| FormPage (message : loc) (obs_fields : list ObsField) (shown_test_id : string).

Section Routes.

(** The built-in [float] on the text of a form field; [None] is the
    [ValueError]. *)
Variable py_float : string → option spec_float.

(** [discard_message]; [now] is the clock read by [update_status]. *)
Definition discard_message (queue : MessageQueue) (message_id now : string)
  : Run redirect := λ h,
  '(found, h') ← MessageQueue.update_status queue message_id "discarded"
                   None now h;
  Some (if found : bool
        then mkRedirect "Message discarded successfully" "success" Index
        else mkRedirect "Message not found" "error" Index, h').

(** [process_message_form] (GET). *)
Definition process_message_form (queue : MessageQueue) (message_id : string)
  : Run form_reply := λ h,
  '(message, h) ← MessageQueue.get_message queue message_id h;
  match message with
  | None => Some (FormRedirect (mkRedirect "Message not found" "error" Index), h)
  | Some l =>
      record ← records h !! l;
      if negb (String.eqb (msg_status record) "pending")
      then Some (FormRedirect
                   (mkRedirect
                      "Message has already been processed or discarded"
                      "warning" Index), h)
      else
        let parsed_data := msg_parsed_data record in
        let test_id := test_id parsed_data in
        let obs_fields := get_observation_fields test_id in
        Some (FormPage l obs_fields test_id, h)
  end.

(** Lines 101-110: the values of the form, field by field; [inr field] is
    the early return at the first value [float] rejects. *)
Fixpoint collect_values (form : gmap string string)
    (obs_fields : list ObsField)
    (observation_values : gmap string spec_float)
  : gmap string spec_float + ObsField :=
  match obs_fields with
  | [] => inl observation_values
  | field :: rest =>
      match form !! ("obs_" +:+ fld_id field) with
      | Some value =>
          if PyStr.nonempty value
          then match py_float value with
               | Some x =>
                   collect_values form rest
                     (<[fld_id field := x]> observation_values)
               | None => inr field
               end
          else collect_values form rest observation_values
      | None => collect_values form rest observation_values
      end
  end.

(** [process_message_submit] (POST): the redirect, the calls made to the
    downstream receiver and the heap. [form] is [request.form], [timestamp]
    the clock read by [create_result_message], [now] the one read by
    [update_status]. The statements of the [try] block raise nothing here:
    the record has all its keys and [send_result] catches its own
    exceptions. *)
Definition process_message_submit (queue : MessageQueue)
    (message_id : string) (form : gmap string string) (timestamp : string)
    (peer : Downstream) (now : string)
  : Heap → option (redirect * list io_event * Heap) := λ h,
  '(message, h) ← MessageQueue.get_message queue message_id h;
  match message with
  | None => Some (mkRedirect "Message not found" "error" Index, [], h)
  | Some l =>
      record ← records h !! l;
      if negb (String.eqb (msg_status record) "pending")
      then Some (mkRedirect "Message has already been processed or discarded"
                   "warning" Index, [], h)
      else
        let parsed_data := msg_parsed_data record in
        let test_id := test_id parsed_data in
        let obs_fields := get_observation_fields test_id in
        match collect_values form obs_fields ∅ with
        | inr field =>
            Some (mkRedirect ("Invalid value for " +:+ fld_name field) "error"
                    (ProcessForm message_id), [], h)
        | inl observation_values =>
            let result_message :=
              create_result_message parsed_data observation_values None
                timestamp in
            let '(success, trace) := send_result peer (MsgStr result_message) in
            if success
            then
              '(_, h') ← MessageQueue.update_status queue message_id
                           "processed" None now h;
              Some (mkRedirect "Message processed and sent successfully!"
                      "success" Index, trace, h')
            else
              Some (mkRedirect "Failed to send message to MLLP server" "error"
                      Index, trace, h)
        end
  end.

(** The [clear_processed] route. *)
Definition clear_processed_route (queue : MessageQueue) : Run redirect := λ h,
  '(count, h') ← MessageQueue.clear_processed queue h;
  Some (mkRedirect ("Cleared " +:+ PyStr.of_N (N.of_nat count)
                    +:+ " processed/discarded messages") "success" Index, h').

End Routes.

(** * Theorems *)

(** ** MLLP codec *)

Section MLLP_facts.

Lemma slice_strip_frame (p : list byte) :
  Py.slice (MLLP_START ++ p ++ MLLP_END) 1 (-2) = p.
Proof.
  unfold Py.slice, Py.norm_index, MLLP_START, MLLP_END.
  rewrite !length_app, !length_cons. simpl length.
  replace (Z.of_nat (1 + (length p + 2))) with (Z.of_nat (length p) + 3)%Z by lia.
  destruct (1 <? 0)%Z eqn:E1; [lia|].
  destruct (-2 <? 0)%Z eqn:E2; [|lia].
  rewrite Z.min_l by lia. rewrite Z.max_r by lia.
  replace (Z.to_nat (Z.of_nat (length p) + 3 + -2 - 1)) with (length p) by lia.
  change (Z.to_nat 1) with 1%nat. simpl.
  rewrite drop_0. by rewrite take_app_length.
Qed.

Lemma wrap_startswith (m : list byte) :
  Py.startswith (MLLP_START ++ m ++ MLLP_END) MLLP_START = true.
Proof. unfold Py.startswith, Py.bytes_eqb. by apply bool_decide_eq_true. Qed.

Lemma wrap_endswith (m : list byte) :
  Py.endswith (MLLP_START ++ m ++ MLLP_END) MLLP_END = true.
Proof.
  unfold Py.endswith, Py.bytes_eqb, MLLP_START, MLLP_END.
  rewrite !length_app. simpl length.
  apply andb_true_iff; split.
  - apply Nat.leb_le. lia.
  - apply bool_decide_eq_true.
    replace (1 + (length m + 2) - 2)%nat with (length ([x0b] ++ m)) by (rewrite length_app; simpl; lia).
    rewrite (app_assoc [x0b] m). by rewrite drop_app_length.
Qed.

(** C5. Unwrapping the frame built around a byte payload gives the payload
    back: [unwrap_mllp (wrap_mllp p) = p]. *)
Theorem unwrap_wrap_bytes (p : list byte) :
  unwrap_mllp (wrap_mllp (MsgBytes p)) = p.
Proof.
  unfold unwrap_mllp, wrap_mllp.
  rewrite wrap_startswith, wrap_endswith. simpl andb. cbv iota.
  apply slice_strip_frame.
Qed.

(** The same holds for a text payload, up to its UTF-8 encoding. *)
Lemma unwrap_wrap_str (s : string) :
  unwrap_mllp (wrap_mllp (MsgStr s)) = Py.encode_utf8 s.
Proof.
  unfold unwrap_mllp, wrap_mllp.
  rewrite wrap_startswith, wrap_endswith. simpl andb. cbv iota.
  apply slice_strip_frame.
Qed.

(** Input that is not framed comes back as it is. *)
Example unwrap_unframed :
  unwrap_mllp [x4d; x53; x48] = [x4d; x53; x48]
  ∧ unwrap_mllp [x0b; x4d; x53; x48] = [x0b; x4d; x53; x48]
  ∧ unwrap_mllp [x0b; x4d; x1c; x0d] = [x4d].
Proof. repeat split; reflexivity. Qed.

End MLLP_facts.

(** ** The message queue *)

Section Store_facts.

Import MessageQueue.
Implicit Types (q : MessageQueue) (h : Heap) (r : StoredMessage).
Implicit Types (d : gmap string loc) (l : loc).

(** [Sample.queue] and [Sample.heap] are what [MessageQueue()] followed by
    one [add_message] builds from the empty heap. *)
Example sample_heap_built :
  (init (mkHeap ∅ ∅)
   ≫= λ '(q, h), add_message q "raw" (Sample.order "BMP") "id-1"
                   "2025-01-01T00:00:00" h
   ≫= λ '(_, h), Some (q, h))
  = Some (Sample.queue, Sample.heap).
Proof. vm_compute. reflexivity. Qed.

Lemma stored_inv q h id r :
  stored q h id = Some r →
  ∃ d l, dicts h !! _messages q = Some d ∧ d !! id = Some l
         ∧ records h !! l = Some r.
Proof.
  unfold stored. intros H.
  destruct (dicts h !! _messages q) as [d|] eqn:Hd; simpl in H; [|done].
  destruct (d !! id) as [l|] eqn:Hl; simpl in H; [|done].
  eauto.
Qed.

Lemma stored_intro q h id d l :
  dicts h !! _messages q = Some d → d !! id = Some l →
  stored q h id = records h !! l.
Proof. unfold stored. intros -> . simpl. by intros ->. Qed.

Lemma mem_terminal s :
  PyStr.mem s ["processed"; "discarded"] = true ↔ Spec.terminal s.
Proof.
  unfold PyStr.mem, Spec.terminal. simpl.
  rewrite !orb_true_iff, !String.eqb_eq. intuition congruence.
Qed.

Lemma updated_status s rm now r : msg_status (updated s rm now r) = s.
Proof.
  unfold updated.
  destruct (PyStr.mem s _); destruct rm as [m|]; try destruct (PyStr.nonempty m);
    reflexivity.
Qed.

Lemma updated_processed_at s rm now r :
  msg_processed_at (updated s rm now r)
  = if decide (Spec.terminal s) then Some now else msg_processed_at r.
Proof.
  unfold updated.
  destruct (PyStr.mem s _) eqn:E.
  - apply mem_terminal in E. rewrite decide_True by done.
    destruct rm as [m|]; try destruct (PyStr.nonempty m); reflexivity.
  - assert (¬ Spec.terminal s) by (rewrite <- mem_terminal; congruence).
    rewrite decide_False by done.
    destruct rm as [m|]; try destruct (PyStr.nonempty m); reflexivity.
Qed.

Lemma updated_result_message s rm now r :
  msg_result_message (updated s rm now r)
  = match rm with
    | Some m => if PyStr.nonempty m then Some m else msg_result_message r
    | None => msg_result_message r
    end.
Proof.
  unfold updated.
  destruct (PyStr.mem s _); destruct rm as [m|]; try destruct (PyStr.nonempty m);
    reflexivity.
Qed.

Lemma updated_frame s rm now r :
  msg_id (updated s rm now r) = msg_id r
  ∧ msg_raw_message (updated s rm now r) = msg_raw_message r
  ∧ msg_parsed_data (updated s rm now r) = msg_parsed_data r
  ∧ msg_received_at (updated s rm now r) = msg_received_at r.
Proof.
  unfold updated.
  destruct (PyStr.mem s _); destruct rm as [m|]; try destruct (PyStr.nonempty m);
    done.
Qed.

(** The call on a present id: the heap it leaves and what is stored. *)
Lemma update_status_present q h id r s rm now :
  stored q h id = Some r →
  ∃ h', update_status q id s rm now h = Some (true, h')
        ∧ stored q h' id = Some (updated s rm now r).
Proof.
  intros (d & l & Hd & Hl & Hr)%stored_inv.
  eexists. split.
  - unfold update_status. rewrite Hd. simpl. rewrite Hl, Hr. reflexivity.
  - rewrite (stored_intro _ _ _ d l) by done.
    simpl. apply lookup_insert_eq.
Qed.

Lemma update_status_absent q h id d s rm now :
  dicts h !! _messages q = Some d → d !! id = None →
  update_status q id s rm now h = Some (false, h).
Proof. intros Hd Hl. unfold update_status. rewrite Hd. simpl. by rewrite Hl. Qed.

(** The invariant [wf] holds after [__init__] and is kept by the methods
    that write. *)
Lemma wf_init h :
  ∃ q h', init h = Some (q, h') ∧ wf q h'.
Proof.
  eexists _, _. split; [reflexivity|].
  exists ∅. split; [simpl; apply lookup_insert_eq|].
  intros k l Hk. by rewrite lookup_empty in Hk.
Qed.

Lemma wf_add_message q h message_data parsed_data message_id now :
  wf q h →
  ∃ h', add_message q message_data parsed_data message_id now h
        = Some (message_id, h')
        ∧ wf q h'
        ∧ msg_status <$> stored q h' message_id = Some "pending".
Proof.
  intros (d & Hd & Hwf). eexists. split.
  { unfold add_message. rewrite Hd. reflexivity. }
  split.
  - eexists. split; [simpl; apply lookup_insert_eq|].
    intros k l. simpl. rewrite lookup_insert_Some.
    intros [[_ <-] | [_ Hk]].
    + rewrite lookup_insert_eq. by eexists.
    + apply lookup_insert_is_Some'. right. by apply (Hwf k).
  - unfold stored. simpl. rewrite lookup_insert_eq. simpl.
    rewrite lookup_insert_eq. simpl. by rewrite lookup_insert_eq.
Qed.

Lemma wf_update_status q h id s rm now b h' :
  wf q h → update_status q id s rm now h = Some (b, h') → wf q h'.
Proof.
  intros (d & Hd & Hwf) Hrun. unfold update_status in Hrun.
  rewrite Hd in Hrun. simpl in Hrun.
  destruct (d !! id) as [l|] eqn:Hl.
  - destruct (records h !! l) as [r|] eqn:Hr; simpl in Hrun; [|done].
    injection Hrun as <- <-. exists d. split; [done|].
    intros k l0 Hk. simpl. apply lookup_insert_is_Some'. right.
    by apply (Hwf k).
  - injection Hrun as <- <-. by exists d.
Qed.

Lemma final_status_cons c calls s0 :
  Spec.final_status (c :: calls) s0 = Spec.final_status calls (call_status c).
Proof.
  unfold Spec.final_status.
  destruct calls as [|c' calls]; [reflexivity|].
  rewrite last_cons. by destruct (last (c' :: calls)) eqn:E.
Qed.

Lemma final_stamp_is_Some calls p :
  is_Some p → is_Some (Spec.final_stamp calls p).
Proof.
  revert p. induction calls as [|c calls IH]; intros p Hp; [done|].
  simpl. apply IH. by case_decide.
Qed.

(** C10. [update_status] does not validate its [status] argument: on a
    present id the call returns [True] and stores the string as given,
    whatever it is; [processed_at] is stamped when the string is
    ['processed'] or ['discarded'], left as it was otherwise and never
    cleared, so a record set back to ['pending'] keeps its stamp. *)
Theorem update_status_stores_any_status q h id r s rm now :
  stored q h id = Some r →
  ∃ h' r',
    update_status q id s rm now h = Some (true, h')
    ∧ stored q h' id = Some r'
    ∧ msg_status r' = s
    ∧ (Spec.terminal s → msg_processed_at r' = Some now)
    ∧ (¬ Spec.terminal s → msg_processed_at r' = msg_processed_at r)
    ∧ (s = "pending" → msg_processed_at r' = msg_processed_at r)
    ∧ (is_Some (msg_processed_at r) → is_Some (msg_processed_at r')).
Proof.
  intros Hr.
  destruct (update_status_present q h id r s rm now Hr) as (h' & Hrun & Hst).
  exists h', (updated s rm now r).
  rewrite updated_status, updated_processed_at.
  repeat split; try done.
  - intros Ht. by rewrite decide_True.
  - intros Ht. by rewrite decide_False.
  - intros ->. rewrite decide_False; [done|]. by intros [?|?].
  - intros Hp. by case_decide.
Qed.

(** An unlisted status, ['archived'], on the sample record. *)
Lemma update_status_stores_any_status_witness :
  stored Sample.queue Sample.heap "id-1" = Some Sample.record
  ∧ ∃ h' r',
      update_status Sample.queue "id-1" "archived" None "t9" Sample.heap
      = Some (true, h')
      ∧ stored Sample.queue h' "id-1" = Some r'
      ∧ msg_status r' = "archived"
      ∧ (Spec.terminal "archived" → msg_processed_at r' = Some "t9")
      ∧ (¬ Spec.terminal "archived" →
         msg_processed_at r' = msg_processed_at Sample.record)
      ∧ ("archived" = "pending" →
         msg_processed_at r' = msg_processed_at Sample.record)
      ∧ (is_Some (msg_processed_at Sample.record) →
         is_Some (msg_processed_at r')).
Proof.
  split; [reflexivity|].
  apply (update_status_stores_any_status Sample.queue Sample.heap "id-1"
           Sample.record).
  reflexivity.
Defined.

(** C8, as the code has it. On an absent id [update_status] returns
    [False] and leaves the heap as it is. On a present id it returns
    [True], sets [status], stamps [processed_at] exactly when the new
    status is ['processed'] or ['discarded'], and records
    [result_message] when the argument is given and is not the empty
    string; an empty string, like an omitted argument, leaves the stored
    result as it was. The other fields keep their values. *)
Theorem update_status_contract q h id s rm now :
  wf q h →
  (stored q h id = None → update_status q id s rm now h = Some (false, h))
  ∧ (∀ r, stored q h id = Some r →
       ∃ h' r',
         update_status q id s rm now h = Some (true, h')
         ∧ stored q h' id = Some r'
         ∧ msg_status r' = s
         ∧ msg_processed_at r'
           = (if decide (Spec.terminal s) then Some now
              else msg_processed_at r)
         ∧ msg_result_message r'
           = match rm with
             | Some m =>
                 if PyStr.nonempty m then Some m else msg_result_message r
             | None => msg_result_message r
             end
         ∧ msg_id r' = msg_id r
         ∧ msg_raw_message r' = msg_raw_message r
         ∧ msg_parsed_data r' = msg_parsed_data r
         ∧ msg_received_at r' = msg_received_at r).
Proof.
  intros (d & Hd & Hwf). split.
  - intros Hnone. apply (update_status_absent q h id d); [done|].
    destruct (d !! id) as [l|] eqn:Hl; [|done].
    destruct (Hwf _ _ Hl) as [r Hr].
    rewrite (stored_intro _ _ _ d l) in Hnone by done. congruence.
  - intros r Hr.
    destruct (update_status_present q h id r s rm now Hr) as (h' & Hrun & Hst).
    exists h', (updated s rm now r).
    rewrite updated_status, updated_processed_at, updated_result_message.
    destruct (updated_frame s rm now r) as (? & ? & ? & ?).
    repeat split; done.
Qed.

Lemma sample_heap_wf : wf Sample.queue Sample.heap.
Proof.
  exists {[ "id-1" := 1%positive ]}. split; [reflexivity|].
  intros k l Hk. apply lookup_singleton_Some in Hk as [_ <-]. by eexists.
Qed.

(** The sample record processed with a result text. *)
Lemma update_status_contract_witness :
  wf Sample.queue Sample.heap
  ∧ (stored Sample.queue Sample.heap "id-9" = None →
     update_status Sample.queue "id-9" "processed" (Some "MSH|") "t1"
       Sample.heap = Some (false, Sample.heap))
  ∧ (∀ r, stored Sample.queue Sample.heap "id-1" = Some r →
       ∃ h' r',
         update_status Sample.queue "id-1" "processed" (Some "MSH|") "t1"
           Sample.heap = Some (true, h')
         ∧ stored Sample.queue h' "id-1" = Some r'
         ∧ msg_status r' = "processed"
         ∧ msg_processed_at r'
           = (if decide (Spec.terminal "processed") then Some "t1"
              else msg_processed_at r)
         ∧ msg_result_message r'
           = (if PyStr.nonempty "MSH|" then Some "MSH|"
              else msg_result_message r)
         ∧ msg_id r' = msg_id r
         ∧ msg_raw_message r' = msg_raw_message r
         ∧ msg_parsed_data r' = msg_parsed_data r
         ∧ msg_received_at r' = msg_received_at r).
Proof.
  split; [exact sample_heap_wf|]. split.
  - apply (update_status_contract Sample.queue Sample.heap "id-9" "processed"
             (Some "MSH|") "t1" sample_heap_wf).
  - apply (update_status_contract Sample.queue Sample.heap "id-1" "processed"
             (Some "MSH|") "t1" sample_heap_wf).
Defined.

(** C8, counterexample. A [result_message] argument is supplied, the empty
    string, and nothing is recorded: the stored result is still [None]. *)
Lemma update_status_drops_empty_result :
  update_status Sample.queue "id-1" "processed" (Some "") "t1" Sample.heap
  ≫= (λ x, msg_result_message <$> stored Sample.queue x.2 "id-1")
  = Some None.
Proof. vm_compute. reflexivity. Qed.

(** C2, counterexample. Record [id-1] is set to ['processed'] at [t1]. A
    later call sets it back to ['pending']; another later call sets
    ['discarded'] and moves [processed_at] to [t3]. *)
Lemma terminal_status_is_overwritten :
  Sample.after [mkCall "processed" None "t1"]
  = Some ("processed", Some "t1")
  ∧ Sample.after [mkCall "processed" None "t1"; mkCall "pending" None "t2"]
    = Some ("pending", Some "t1")
  ∧ Sample.after [mkCall "processed" None "t1"; mkCall "discarded" None "t3"]
    = Some ("discarded", Some "t3").
Proof. vm_compute. repeat split. Qed.

(** C2, as the code has it. [update_status] does not enforce
    monotonicity. After any sequence of calls on a present id, every call
    has returned [True], the status is the status argument of the last
    call, and [processed_at] is the time of the last call whose status
    was ['processed'] or ['discarded'] (the earlier value when there was
    none). So after a terminal status is set, a later call overwrites the
    status, ['pending'] included, and a later terminal call moves
    [processed_at]; the stamp is never cleared. *)
Theorem update_status_sequence q calls : ∀ h id r,
  stored q h id = Some r →
  ∃ h' r',
    update_all q id calls h = Some (replicate (length calls) true, h')
    ∧ stored q h' id = Some r'
    ∧ msg_status r' = Spec.final_status calls (msg_status r)
    ∧ msg_processed_at r' = Spec.final_stamp calls (msg_processed_at r)
    ∧ (is_Some (msg_processed_at r) → is_Some (msg_processed_at r')).
Proof.
  induction calls as [|c calls IH]; intros h id r Hr.
  - exists h, r. simpl. repeat split; done.
  - destruct (update_status_present q h id r (call_status c) (call_result c)
                (call_now c) Hr) as (h1 & Hrun & Hst).
    destruct (IH h1 id _ Hst) as (h' & r' & Hall & Hst' & Hs & Hp & _).
    exists h', r'. simpl update_all. rewrite Hrun. simpl. rewrite Hall. simpl.
    rewrite updated_status in Hs. rewrite updated_processed_at in Hp.
    rewrite final_status_cons.
    repeat split; try done.
    intros Hsome. rewrite Hp. apply final_stamp_is_Some. by case_decide.
Qed.

(** The sample record processed at [t1], then set back to ['pending']. *)
Lemma update_status_sequence_witness :
  stored Sample.queue Sample.heap "id-1" = Some Sample.record
  ∧ ∃ h' r',
      update_all Sample.queue "id-1"
        [mkCall "processed" None "t1"; mkCall "pending" None "t2"] Sample.heap
      = Some ([true; true], h')
      ∧ stored Sample.queue h' "id-1" = Some r'
      ∧ msg_status r' = "pending"
      ∧ msg_processed_at r' = Some "t1"
      ∧ (is_Some (msg_processed_at Sample.record) →
         is_Some (msg_processed_at r')).
Proof.
  split; [reflexivity|].
  apply (update_status_sequence Sample.queue
           [mkCall "processed" None "t1"; mkCall "pending" None "t2"]
           Sample.heap "id-1" Sample.record).
  reflexivity.
Defined.

End Store_facts.

(** ** References handed out by the read methods *)

Section Alias_facts.

Import MessageQueue.
Implicit Types (q : MessageQueue) (h : Heap) (r : StoredMessage).
Implicit Types (d : gmap string loc) (l : loc).

Lemma fresh_dict_ne q h d :
  dicts h !! _messages q = Some d → fresh (dom (dicts h)) ≠ _messages q.
Proof.
  intros Hd Heq.
  apply (is_fresh (dom (dicts h))). rewrite Heq.
  apply elem_of_dom. by eexists.
Qed.

(** A change to a dictionary other than [self._messages] is not seen by
    the queue. *)
Lemma stored_other_dict q h id
    (f : gmap loc (gmap string loc) → gmap loc (gmap string loc)) :
  f (dicts h) !! _messages q = dicts h !! _messages q →
  stored q (with_dicts f h) id = stored q h id.
Proof. unfold stored. simpl. by intros ->. Qed.

(** An assignment through a reference the queue holds is seen by the
    queue. *)
Lemma stored_record_assign q h d id l (f : StoredMessage → StoredMessage) :
  dicts h !! _messages q = Some d → d !! id = Some l →
  stored q (Caller.record_assign l f h) id = f <$> stored q h id.
Proof.
  intros Hd Hl.
  rewrite !(stored_intro _ _ _ d l) by done.
  simpl. apply lookup_alter_eq.
Qed.

(** C3, counterexample. [get_message] returns the reference the queue
    holds, and [get_all_messages] a dictionary holding the same
    reference; assigning ['status'] through it changes the record the
    queue stores. *)
Lemma returned_record_is_live :
  get_message Sample.queue "id-1" Sample.heap
  = Some (Some 1%positive, Sample.heap)
  ∧ (get_all_messages Sample.queue Sample.heap
     ≫= (λ x, dicts x.2 !! x.1 ≫= (.!! "id-1"))) = Some 1%positive
  ∧ msg_status <$> stored Sample.queue Sample.heap "id-1" = Some "pending"
  ∧ msg_status <$> stored Sample.queue
                     (Caller.record_assign 1 (set_status "tampered")
                        Sample.heap) "id-1"
    = Some "tampered".
Proof. vm_compute. repeat split. Qed.

(** C3, as the code has it. The read methods leave the queue as it is.
    [get_all_messages] and [get_pending_messages] return a new dictionary,
    so setting or deleting a key of the returned dictionary is not seen by
    the queue. The records are not copied: [get_message] returns the
    reference the queue holds, the new dictionaries hold the same
    references, and an assignment to a field of a returned record changes
    the record the queue stores. *)
Theorem reads_share_records q h d :
  dicts h !! _messages q = Some d →
  (∀ id, get_message q id h = Some (d !! id, h))
  ∧ (∀ id l f, d !! id = Some l →
       stored q (Caller.record_assign l f h) id = f <$> stored q h id)
  ∧ (∃ l' h',
       get_all_messages q h = Some (l', h')
       ∧ l' ≠ _messages q
       ∧ dicts h' !! l' = Some d
       ∧ (∀ id, stored q h' id = stored q h id)
       ∧ (∀ k v id, stored q (Caller.dict_setitem l' k v h') id
                    = stored q h id)
       ∧ (∀ k id, stored q (Caller.dict_delitem l' k h') id
                  = stored q h id))
  ∧ (∃ l' h' d',
       get_pending_messages q h = Some (l', h')
       ∧ l' ≠ _messages q
       ∧ dicts h' !! l' = Some d'
       ∧ (∀ id l, d' !! id = Some l
                  ↔ d !! id = Some l ∧ is_pending h l = true)
       ∧ (∀ id, stored q h' id = stored q h id)
       ∧ (∀ k v id, stored q (Caller.dict_setitem l' k v h') id
                    = stored q h id)
       ∧ (∀ k id, stored q (Caller.dict_delitem l' k h') id
                  = stored q h id)).
Proof.
  intros Hd.
  pose proof (fresh_dict_ne q h d Hd) as Hne.
  split; [|split; [|split]].
  - intros id. unfold get_message. by rewrite Hd.
  - intros id l f Hl. by apply (stored_record_assign q h d).
  - eexists _, _. split.
    { unfold get_all_messages. rewrite Hd. reflexivity. }
    split; [done|]. split; [simpl; apply lookup_insert_eq|].
    assert (∀ id, stored q (with_dicts <[fresh (dom (dicts h)) := d]> h) id
                  = stored q h id) as Hsame.
    { intros id. apply stored_other_dict. simpl. by apply lookup_insert_ne. }
    split; [done|]. split.
    + intros k v id. unfold Caller.dict_setitem. rewrite <- Hsame.
      apply stored_other_dict. simpl. by apply lookup_alter_ne.
    + intros k id. unfold Caller.dict_delitem. rewrite <- Hsame.
      apply stored_other_dict. simpl. by apply lookup_alter_ne.
  - eexists _, _, _. split.
    { unfold get_pending_messages. rewrite Hd. reflexivity. }
    split; [done|]. split; [simpl; apply lookup_insert_eq|].
    split.
    { intros id l. by rewrite map_lookup_filter_Some. }
    set (h1 := with_dicts _ h).
    assert (∀ id, stored q h1 id = stored q h id) as Hsame.
    { intros id. apply stored_other_dict. simpl. by apply lookup_insert_ne. }
    split; [done|]. split.
    + intros k v id. unfold Caller.dict_setitem. rewrite <- Hsame.
      apply stored_other_dict. simpl. by apply lookup_alter_ne.
    + intros k id. unfold Caller.dict_delitem. rewrite <- Hsame.
      apply stored_other_dict. simpl. by apply lookup_alter_ne.
Qed.

(** On the sample queue: the reference [get_message] returns, and an
    assignment through it. *)
Lemma reads_share_records_witness :
  dicts Sample.heap !! _messages Sample.queue
  = Some {[ "id-1" := 1%positive ]}
  ∧ get_message Sample.queue "id-1" Sample.heap
    = Some (Some 1%positive, Sample.heap)
  ∧ stored Sample.queue
      (Caller.record_assign 1 (set_status "tampered") Sample.heap) "id-1"
    = set_status "tampered" <$> stored Sample.queue Sample.heap "id-1".
Proof.
  split; [reflexivity|].
  destruct (reads_share_records Sample.queue Sample.heap
              {[ "id-1" := 1%positive ]} eq_refl) as (H1 & H2 & _).
  split; [exact (H1 "id-1") | exact (H2 "id-1" 1%positive _ eq_refl)].
Defined.

End Alias_facts.

(** ** Order extraction *)

Section Extraction_facts.

Import HL7.

Lemma names_existsb parsed names name :
  segment_names parsed = Some names →
  existsb (is_name name) names = existsb (named name) parsed.
Proof.
  unfold segment_names. rewrite mapM_Some.
  induction 1 as [|seg x parsed names Hx _ IH]; [reflexivity|].
  simpl. unfold named at 1. rewrite Hx. by rewrite IH.
Qed.

Lemma find_existsb {A} (f : A → bool) (l : list A) :
  existsb f l = match List.find f l with Some _ => true | None => false end.
Proof.
  induction l as [|a l IH]; [reflexivity|].
  simpl. destruct (f a); [reflexivity | exact IH].
Qed.

(** The conditional lookup of lines 184-188 yields the first segment of
    that name, or [None] when there is none. *)
Lemma segment_or_none_find parsed name o :
  segment_or_none parsed name = Some o →
  o = List.find (named name) parsed.
Proof.
  unfold segment_or_none, segment.
  destruct (segment_names parsed) as [names|] eqn:Hn; simpl; [|done].
  rewrite (names_existsb _ _ _ Hn), find_existsb.
  destruct (List.find (named name) parsed) as [seg|]; simpl; congruence.
Qed.

Lemma segment_or_none_total parsed name :
  is_Some (segment_names parsed) → is_Some (segment_or_none parsed name).
Proof.
  intros [names Hn]. unfold segment_or_none, segment. rewrite Hn. simpl.
  rewrite (names_existsb _ _ _ Hn), find_existsb.
  destruct (List.find (named name) parsed); simpl; eauto.
Qed.

Lemma named_nonempty name seg : named name seg = true → seg_truthy (Some seg) = true.
Proof.
  unfold named, segment_name. destruct seg as [|f seg]; simpl; [done|done].
Qed.

(** Reading field [i] under the guard [seg and len(seg) > i] is reading
    the field when it is there. *)
Lemma guarded_field parsed name i :
  let o := List.find (named name) parsed in
  (if has_field o i then Some (field_text o i) else None)
  = Spec.field_at parsed name i.
Proof.
  unfold Spec.field_at. simpl.
  destruct (List.find (named name) parsed) as [seg|] eqn:Hf; simpl; [|done].
  apply find_some in Hf as [_ Hnamed].
  unfold has_field. rewrite (named_nonempty _ _ Hnamed). simpl.
  destruct (i <? length seg)%nat eqn:Hlt.
  - apply Nat.ltb_lt in Hlt. apply lookup_lt_is_Some_2 in Hlt as [f Hfld].
    by rewrite Hfld.
  - apply Nat.ltb_ge in Hlt. by rewrite (lookup_ge_None_2 _ _ Hlt).
Qed.

Lemma absent_fallback parsed name i dflt :
  let o := List.find (named name) parsed in
  (if has_field o i then field_text o i else dflt)
  = Spec.or_if_absent dflt (Spec.field_at parsed name i).
Proof.
  simpl. rewrite <- guarded_field. simpl. by destruct (has_field _ _).
Qed.

Lemma empty_fallback parsed name i dflt :
  let o := List.find (named name) parsed in
  (if has_text o i then field_text o i else dflt)
  = Spec.or_if_empty dflt (Spec.field_at parsed name i).
Proof.
  simpl. rewrite <- guarded_field. simpl. unfold has_text.
  destruct (has_field _ _); simpl; [|done].
  by destruct (PyStr.nonempty _).
Qed.

Lemma first_text_fallback parsed n1 i n2 j dflt :
  first_text (List.find (named n1) parsed) i (List.find (named n2) parsed) j
    dflt
  = Spec.or_if_empty
      (Spec.or_if_empty dflt (Spec.field_at parsed n2 j))
      (Spec.field_at parsed n1 i).
Proof.
  unfold first_text.
  rewrite <- (empty_fallback parsed n2 j dflt). simpl.
  rewrite <- (empty_fallback parsed n1 i). simpl.
  reflexivity.
Qed.

Lemma split_head_is_Some sep s : is_Some (head (PyStr.split sep s)).
Proof.
  destruct s as [|c s]; simpl; [by eexists|].
  destruct (Ascii.eqb c sep); [by eexists|].
  destruct (PyStr.split sep s); by eexists.
Qed.

Lemma segment_or_none_eval parsed names name :
  segment_names parsed = Some names →
  segment_or_none parsed name = Some (List.find (named name) parsed).
Proof.
  intros Hn.
  destruct (segment_or_none_total parsed name) as [o Ho]; [by eexists|].
  rewrite Ho. f_equal. by apply segment_or_none_find.
Qed.

Lemma extract_order_no_names parsed rnd_msg rnd_filler :
  segment_names parsed = None → extract_order parsed rnd_msg rnd_filler = None.
Proof. intros Hn. unfold extract_order, segment_or_none. by rewrite Hn. Qed.

(** Without its test code an order is not extracted. *)
Lemma extract_order_lacking parsed rnd_msg rnd_filler :
  Spec.lacks_test_code parsed →
  extract_order parsed rnd_msg rnd_filler = None.
Proof.
  intros Hlack.
  destruct (segment_names parsed) as [names|] eqn:Hn;
    [|by apply extract_order_no_names].
  unfold extract_order.
  rewrite !(segment_or_none_eval _ _ _ Hn). simpl.
  assert (test_field (List.find (named "OBR") parsed)
          ≫= (λ obr4, required_test_id (PyStr.split "^" (field_str obr4)))
          = None) as Hnone.
  { unfold test_field.
    destruct Hlack as [Habs | [(obr & Hobr & Hfld) | (s & Hs & Hempty)]].
    - by rewrite Habs.
    - rewrite Hobr. simpl. rewrite Hfld. simpl. by destruct (_ && _).
    - unfold Spec.field_at in Hs.
      destruct (List.find (named "OBR") parsed) as [obr|]; simpl in Hs; [|done].
      destruct (obr !! 4%nat) as [f|] eqn:Hf; simpl in Hs; [|done].
      injection Hs as <-. simpl. rewrite Hf. simpl.
      destruct (_ && _); [|done].
      destruct (field_truthy f); simpl; [|done].
      unfold required_test_id.
      assert (head (PyStr.split "^" (field_str f)) = Some "") as Hhd.
      { destruct Hempty as [-> | Hfc]; [reflexivity|].
        unfold Spec.first_component in Hfc.
        destruct (split_head_is_Some "^" (field_str f)) as [c Hc].
        rewrite Hc in Hfc. simpl in Hfc. by subst c. }
      rewrite <- head_lookup, Hhd. reflexivity. }
  destruct (test_field _) as [obr4|]; simpl in *; [|done].
  by rewrite Hnone.
Qed.

Lemma nonempty_true s : s ≠ "" → PyStr.nonempty s = true.
Proof. by destruct s. Qed.

(** With the test code in place, and [seg[0][0]] defined on every segment,
    the order is extracted. *)
Lemma extract_order_succeeds parsed rnd_msg rnd_filler s :
  is_Some (segment_names parsed) →
  Spec.field_at parsed "OBR" 4 = Some s →
  Spec.first_component s ≠ "" →
  ∃ pd, extract_order parsed rnd_msg rnd_filler = Some pd
        ∧ test_id pd = Spec.first_component s.
Proof.
  intros [names Hn] Hs Hfc.
  unfold extract_order.
  rewrite !(segment_or_none_eval _ _ _ Hn). simpl.
  unfold Spec.field_at in Hs.
  destruct (List.find (named "OBR") parsed) as [obr|] eqn:Hfind;
    simpl in Hs; [|done].
  destruct (obr !! 4%nat) as [f|] eqn:Hf; simpl in Hs; [|done].
  injection Hs as <-.
  apply find_some in Hfind as [_ Hnamed].
  unfold test_field. rewrite (named_nonempty _ _ Hnamed). simpl.
  rewrite (proj2 (Nat.ltb_lt 4 (length obr)) (lookup_lt_Some _ _ _ Hf)).
  rewrite Hf. simpl.
  assert (field_truthy f = true) as Htruthy.
  { unfold field_truthy. destruct (field_items f) as [|x items] eqn:Hitems;
      [|done].
    exfalso. apply Hfc. unfold field_str. by rewrite Hitems. }
  rewrite Htruthy. simpl.
  unfold required_test_id, Spec.first_component in *.
  rewrite <- head_lookup.
  destruct (split_head_is_Some "^" (field_str f)) as [c Hc].
  rewrite Hc in *. simpl in *.
  rewrite (nonempty_true c Hfc). simpl. eauto.
Qed.

End Extraction_facts.

Section Sourcing_facts.

Import HL7.

(** C7, as the code has it. In an extracted order, each patient, visit
    and order field of the sourcing table is its source text when that is
    present and not empty, and the fallback otherwise (for the order
    fields: the order-control source, else the order-detail source, else
    the fallback). The three header fields take the fallback only when the
    header segment or the field is absent: a header field that is present
    and empty is extracted as the empty string. *)
Theorem extraction_sources parsed rnd_msg rnd_filler pd :
  extract_order parsed rnd_msg rnd_filler = Some pd →
  let src := Spec.field_at parsed in
  sending_application pd = Spec.or_if_absent "ORDER_SYSTEM" (src "MSH" 3)
  ∧ sending_facility pd = Spec.or_if_absent "HOSPITAL" (src "MSH" 4)
  ∧ message_control_id pd
    = Spec.or_if_absent ("MSG" +:+ PyStr.of_Z rnd_msg) (src "MSH" 10)
  ∧ patient_id pd = Spec.or_if_empty "UNKNOWN" (src "PID" 3)
  ∧ patient_name pd = Spec.or_if_empty "DOE^JOHN" (src "PID" 5)
  ∧ patient_dob pd = Spec.or_if_empty "" (src "PID" 7)
  ∧ patient_sex pd = Spec.or_if_empty "U" (src "PID" 8)
  ∧ patient_address pd = Spec.or_if_empty "" (src "PID" 11)
  ∧ patient_phone pd = Spec.or_if_empty "" (src "PID" 13)
  ∧ encounter_id pd = Spec.or_if_empty "" (src "PV1" 19)
  ∧ placer_order pd
    = Spec.or_if_empty (Spec.or_if_empty "ORDER123" (src "OBR" 2))
        (src "ORC" 2)
  ∧ filler_order pd
    = Spec.or_if_empty
        (Spec.or_if_empty ("FILLER" +:+ PyStr.of_Z rnd_filler) (src "OBR" 3))
        (src "ORC" 3)
  ∧ ordering_provider pd
    = Spec.or_if_empty (Spec.or_if_empty "" (src "OBR" 16)) (src "ORC" 12).
Proof.
  intros Hex src.
  destruct (segment_names parsed) as [names|] eqn:Hn;
    [|by rewrite extract_order_no_names in Hex].
  unfold extract_order in Hex.
  rewrite !(segment_or_none_eval _ _ _ Hn) in Hex. simpl in Hex.
  destruct (test_field _) as [obr4|]; simpl in Hex; [|done].
  destruct (required_test_id _) as [tid|]; simpl in Hex; [|done].
  injection Hex as <-. simpl. subst src.
  rewrite <- !first_text_fallback, <- !absent_fallback, <- !empty_fallback.
  simpl. repeat split.
Qed.

(** The order with the empty header fields: the control id comes from the
    header, the sex from the fallback. *)
Lemma extraction_sources_witness :
  extract_order Sample.parsed_empty_header 12345 6789
  = Some Sample.extracted_empty_header
  ∧ message_control_id Sample.extracted_empty_header
    = Spec.or_if_absent "MSG12345"
        (Spec.field_at Sample.parsed_empty_header "MSH" 10)
  ∧ patient_sex Sample.extracted_empty_header
    = Spec.or_if_empty "U" (Spec.field_at Sample.parsed_empty_header "PID" 8).
Proof.
  split; [reflexivity|].
  destruct (extraction_sources Sample.parsed_empty_header 12345 6789
              Sample.extracted_empty_header eq_refl)
    as (_ & _ & H3 & _ & _ & _ & H7 & _).
  split; [exact H3 | exact H7].
Defined.

(** C7, counterexample. The header of [Sample.order_empty_header] has
    fields 3, 4 and 10 present and empty. The order is extracted with an
    empty [message_control_id], not ["MSG12345"], and with empty
    [sending_application] and [sending_facility], not ["ORDER_SYSTEM"] and
    ["HOSPITAL"]. *)
Lemma empty_header_fields_get_no_fallback :
  Sample.simple_parse Sample.order_empty_header
  = Some Sample.parsed_empty_header
  ∧ Spec.field_at Sample.parsed_empty_header "MSH" 10 = Some ""
  ∧ message_control_id
      <$> extract_order Sample.parsed_empty_header 12345 6789
    = Some ""
  ∧ sending_application
      <$> extract_order Sample.parsed_empty_header 12345 6789
    = Some ""
  ∧ sending_facility
      <$> extract_order Sample.parsed_empty_header 12345 6789
    = Some "".
Proof. vm_compute. repeat split. Qed.

End Sourcing_facts.

Section Listener_facts.

Variable hl7_parse : string → option HL7.Message.

(** C4. An order message whose order-detail segment is absent, or lacks
    field 4, or has it empty, or has an empty first component in it, is not
    extracted ([parse_order_message] yields [None]), and [handle_client]
    leaves the message queue, and the whole heap, as it was. *)
Theorem order_without_test_code_is_dropped message parsed :
  hl7_parse (Utf8.decode_ignore message) = Some parsed →
  Spec.lacks_test_code parsed →
  (∀ rnd_msg rnd_filler,
     parse_order_message hl7_parse message rnd_msg rnd_filler = None)
  ∧ (∀ queue env h data,
       env_data env = Some data → unwrap_mllp data = message →
       (handle_client hl7_parse queue env h).2 = h).
Proof.
  intros Hparse Hlack.
  assert (∀ a b, parse_order_message hl7_parse message a b = None) as Hnone.
  { intros a b. unfold parse_order_message. rewrite Hparse. simpl.
    by apply extract_order_lacking. }
  split; [exact Hnone|].
  intros queue env h data Hdata Hmsg.
  unfold handle_client. rewrite Hdata.
  destruct data as [|b data]; [reflexivity|].
  rewrite Hmsg.
  destruct (ack_fields _ _ _) as [base_type msg_control_id].
  rewrite Hnone. by destruct (env_drained env).
Qed.

(** The other way round: an order that is extracted is stored, pending,
    under the new id. *)
Lemma extracted_order_is_stored queue env h data pd :
  MessageQueue.wf queue h →
  env_data env = Some data → data ≠ [] → env_drained env = true →
  parse_order_message hl7_parse (unwrap_mllp data) (env_rnd_msg env)
    (env_rnd_filler env) = Some pd →
  (λ r, (msg_status r, msg_parsed_data r))
    <$> MessageQueue.stored queue (handle_client hl7_parse queue env h).2
          (env_uuid env)
  = Some ("pending", pd).
Proof.
  intros Hwf Hdata Hne Hdrained Hparse.
  unfold handle_client. rewrite Hdata.
  destruct data as [|b data]; [done|].
  destruct (ack_fields _ _ _) as [base_type msg_control_id].
  rewrite Hdrained, Hparse.
  destruct (wf_add_message queue h
              (Utf8.decode_ignore (unwrap_mllp (b :: data))) pd
              (env_uuid env) (env_now env) Hwf) as (h' & Hadd & _ & _).
  rewrite Hadd. simpl.
  unfold MessageQueue.add_message in Hadd.
  destruct Hwf as (d & Hd & _). rewrite Hd in Hadd. simpl in Hadd.
  injection Hadd as <-.
  unfold MessageQueue.stored. simpl. rewrite lookup_insert_eq. simpl.
  rewrite lookup_insert_eq. simpl. by rewrite lookup_insert_eq.
Qed.

End Listener_facts.

(** A framed order with a test code is acknowledged and stored as a pending
    record under the new id. *)
Example valid_order_is_stored :
  let order :=
    Sample.header +:+ PyStr.CR +:+ "OBR|1|PL||BMP^Basic^LN" in
  let h := (handle_client Sample.simple_parse Sample.queue
              (Sample.env (Sample.frame order)) Sample.heap).2 in
  (λ r, (msg_status r, test_id (msg_parsed_data r),
         message_control_id (msg_parsed_data r)))
    <$> MessageQueue.stored Sample.queue h "id-2"
  = Some ("pending", "BMP", "CTRL-7").
Proof. vm_compute. reflexivity. Qed.

(** The order of [Sample.order_no_test], framed and handed to the listener:
    no record is extracted and the heap is untouched. *)
Lemma order_without_test_code_is_dropped_witness :
  Sample.simple_parse
    (Utf8.decode_ignore (list_byte_of_string Sample.order_no_test))
  = Some Sample.parsed_no_test
  ∧ Spec.lacks_test_code Sample.parsed_no_test
  ∧ parse_order_message Sample.simple_parse
      (list_byte_of_string Sample.order_no_test) 12345 6789 = None
  ∧ (handle_client Sample.simple_parse Sample.queue
       (Sample.env (Sample.frame Sample.order_no_test)) Sample.heap).2
    = Sample.heap.
Proof.
  assert (Sample.simple_parse
            (Utf8.decode_ignore (list_byte_of_string Sample.order_no_test))
          = Some Sample.parsed_no_test) as Hparse
    by (vm_compute; reflexivity).
  assert (Spec.lacks_test_code Sample.parsed_no_test) as Hlack
    by (right; left; eexists; split; vm_compute; reflexivity).
  destruct (order_without_test_code_is_dropped Sample.simple_parse
              (list_byte_of_string Sample.order_no_test)
              Sample.parsed_no_test Hparse Hlack) as [H1 H2].
  split; [exact Hparse|]. split; [exact Hlack|]. split; [apply H1|].
  apply (H2 _ _ _ (Sample.frame Sample.order_no_test));
    vm_compute; reflexivity.
Defined.

(** ** The [.2f] format *)

Section Format_facts.

Import Spec.

(** For a non-negative exponent the value is an integer. *)
Lemma hundredths_integer m e :
  (0 ≤ e)%Z → PyFloat.hundredths m e = (Npos m * 2 ^ Z.to_N e * 100)%N.
Proof.
  intros He. unfold PyFloat.hundredths.
  by rewrite (proj2 (Z.leb_le 0 e) He).
Qed.

(** For a negative exponent [hundredths] is within one half of
    [100 * m * 2^e], and even when exactly one half away. *)
Lemma hundredths_nearest m e :
  (e < 0)%Z →
  let num := (Npos m * 100)%N in
  let den := (2 ^ Z.to_N (- e))%N in
  let h := PyFloat.hundredths m e in
  (2 * (h * den) ≤ 2 * num + den)%N
  ∧ (2 * num ≤ 2 * (h * den) + den)%N
  ∧ ((2 * (h * den) = 2 * num + den ∨ 2 * num = 2 * (h * den) + den)%N →
     N.even h = true).
Proof.
  intros He. unfold PyFloat.hundredths.
  rewrite (proj2 (Z.leb_gt 0 e) He). cbv zeta.
  set (num := (Npos m * 100)%N). set (den := (2 ^ Z.to_N (- e))%N).
  assert (den ≠ 0)%N as Hden by (apply N.pow_nonzero; lia).
  pose proof (N.div_mod num den Hden) as Hdm.
  pose proof (N.mod_upper_bound num den Hden) as Hr.
  set (q := (num / den)%N) in *. set (r := (num mod den)%N) in *.
  clearbody q r num den.
  assert (q * den = den * q)%N as Hc by lia.
  assert ((q + 1) * den = den * q + den)%N as Hc1 by lia.
  destruct (2 * r ?= den)%N eqn:Hcmp.
  - apply N.compare_eq_iff in Hcmp.
    destruct (N.even q) eqn:Hev.
    + rewrite Hc. repeat split; [lia | lia | done].
    + rewrite Hc1. repeat split; [lia | lia |].
      intros _. rewrite N.add_1_r, N.even_succ, <- N.negb_even, Hev.
      reflexivity.
  - assert (2 * r < den)%N as Hlt by (by apply N.compare_lt_iff).
    rewrite Hc.
    repeat split; [lia | lia | intros [H|H]; exfalso; lia].
  - assert (den < 2 * r)%N as Hgt by (by apply N.compare_gt_iff).
    rewrite Hc1.
    repeat split; [lia | lia | intros [H|H]; exfalso; lia].
Qed.

Example format_half_to_even :
  PyFloat.format_2f (S754_finite false 1 (-3)) = "0.12"
  ∧ PyFloat.format_2f (S754_finite false 3 (-3)) = "0.38".
Proof. split; reflexivity. Qed.

(** [2.675] is the binary64 number [6023243873696358 * 2^-51], just below
    the decimal: it rounds down. *)
Example format_2_675 :
  PyFloat.format_2f (S754_finite false 6023243873696358 (-51)) = "2.67".
Proof. reflexivity. Qed.

Example format_signs :
  PyFloat.format_2f (S754_finite true 1 (-10)) = "-0.00"
  ∧ PyFloat.format_2f (S754_infinity true) = "-inf"
  ∧ PyFloat.format_2f PyFloat.zero = "0.00".
Proof. repeat split; reflexivity. Qed.

Lemma uint_digits (d : Decimal.uint) :
  all_digits (NilEmpty.string_of_uint d) = true.
Proof. induction d; simpl; auto. Qed.

Lemma of_N_digits n : all_digits (PyStr.of_N n) = true.
Proof.
  unfold PyStr.of_N, NilZero.string_of_uint.
  destruct (N.to_uint n); try reflexivity; apply uint_digits.
Qed.

Lemma of_N_nonempty n : PyStr.of_N n ≠ "".
Proof.
  unfold PyStr.of_N, NilZero.string_of_uint.
  destruct (N.to_uint n); simpl; discriminate.
Qed.

Lemma digit_is_digit k : (k < 10)%N → is_digit (PyFloat.digit k) = true.
Proof.
  intros Hk.
  assert (k ∈ [0; 1; 2; 3; 4; 5; 6; 7; 8; 9]%N) as Hin.
  { rewrite !elem_of_cons. lia. }
  rewrite !elem_of_cons in Hin.
  destruct Hin as [->|[->|[->|[->|[->|[->|[->|[->|[->|[->|Hin]]]]]]]]]];
    try reflexivity.
  by apply elem_of_nil in Hin.
Qed.

Lemma digit_not_minus c : is_digit c = true → Ascii.eqb c "-" = false.
Proof.
  intros Hc. apply Ascii.eqb_neq. intros ->. discriminate Hc.
Qed.

Lemma digits_then_point_two ds tail :
  ds ≠ "" → all_digits ds = true → point_two tail = true →
  digits_point_two (ds +:+ tail) = true.
Proof.
  induction ds as [|c ds IH]; intros Hne Hall Htail; [done|].
  simpl in Hall. apply andb_true_iff in Hall as [Hc Hds].
  change (digits_point_two (String c ds +:+ tail))
    with (is_digit c && (point_two (ds +:+ tail)
                         || digits_point_two (ds +:+ tail))).
  rewrite Hc. simpl.
  destruct ds as [|c' ds'].
  - change ("" +:+ tail) with tail. by rewrite Htail.
  - rewrite IH by done. apply orb_true_r.
Qed.

Lemma fixed2_shape h : digits_point_two (PyFloat.fixed2 h) = true.
Proof.
  unfold PyFloat.fixed2.
  apply digits_then_point_two.
  - apply of_N_nonempty.
  - apply of_N_digits.
  - simpl. rewrite !digit_is_digit; [reflexivity| |].
    + apply N.mod_upper_bound. lia.
    + apply N.Div0.div_lt_upper_bound.
      pose proof (N.mod_upper_bound h 100). lia.
Qed.

Lemma fixed2_two_decimals h : two_decimals (PyFloat.fixed2 h) = true.
Proof.
  pose proof (fixed2_shape h) as Hs.
  unfold two_decimals.
  destruct (PyFloat.fixed2 h) as [|c rest] eqn:E; [done|].
  simpl in Hs. apply andb_true_iff in Hs as [Hc Hrest].
  rewrite (digit_not_minus c Hc). simpl. by rewrite Hc, Hrest.
Qed.

(** Every finite value is printed with exactly two decimal places. *)
Lemma format_2f_finite x :
  PyFloat.is_finite x = true → two_decimals (PyFloat.format_2f x) = true.
Proof.
  destruct x as [s|s| |s m e]; try discriminate; intros _.
  - by destruct s.
  - simpl. destruct s; simpl.
    + apply fixed2_shape.
    + apply fixed2_two_decimals.
Qed.

(** The other values are not. *)
Lemma format_2f_not_finite x :
  PyFloat.is_finite x = false → two_decimals (PyFloat.format_2f x) = false.
Proof.
  destruct x as [s|s| |s m e]; try discriminate; intros _; [|reflexivity].
  by destruct s.
Qed.

End Format_facts.

(** ** Result composition *)

Section Composition_facts.

Implicit Types (values : gmap string spec_float).
Implicit Types (texts : gmap string string).

Lemma mem_true_iff x l : PyStr.mem x l = true ↔ x ∈ l.
Proof.
  unfold PyStr.mem. rewrite existsb_exists. split.
  - intros (y & Hin & Heq). apply String.eqb_eq in Heq. subst y.
    by apply list_elem_of_In.
  - intros Hin. exists x. split; [by apply list_elem_of_In|].
    apply String.eqb_refl.
Qed.

Example strip_examples :
  PyStr.strip "  BMP " = "BMP"
  ∧ PyStr.strip (PyStr.CR +:+ "1554-5" +:+ PyStr.CR) = "1554-5"
  ∧ PyStr.strip "NOT A TEST" = "NOT A TEST".
Proof. repeat split; reflexivity. Qed.

Example abnormal_flag_examples :
  abnormal_flag "High" = "H"
  ∧ abnormal_flag "hIgH" = "H"
  ∧ abnormal_flag "CRITICAL LOW" = "LL"
  ∧ abnormal_flag "Critical" = "HH"
  ∧ abnormal_flag " high" = "N"
  ∧ abnormal_flag "borderline" = "N".
Proof. repeat split; reflexivity. Qed.

(** The synonym lists do not overlap, so each of them decides the flag;
    a text in none of them is normal. *)
Lemma abnormal_flag_table i :
  let k := PyStr.lower i in
  (k ∈ ["normal"; "n"] → abnormal_flag i = "N")
  ∧ (k ∈ ["abnormal"; "a"] → abnormal_flag i = "A")
  ∧ (k ∈ ["high"; "h"] → abnormal_flag i = "H")
  ∧ (k ∈ ["low"; "l"] → abnormal_flag i = "L")
  ∧ (k ∈ ["critical"; "critical high"; "hh"] → abnormal_flag i = "HH")
  ∧ (k ∈ ["critical low"; "ll"] → abnormal_flag i = "LL")
  ∧ (k ∉ ["normal"; "n"; "abnormal"; "a"; "high"; "h"; "low"; "l";
           "critical"; "critical high"; "hh"; "critical low"; "ll"] →
     abnormal_flag i = "N").
Proof.
  unfold abnormal_flag. generalize (PyStr.lower i). intros k. cbv zeta.
  repeat split; intros Hk.
  1-6: repeat (apply elem_of_cons in Hk as [-> | Hk]; [reflexivity|]);
       by apply elem_of_nil in Hk.
  repeat match goal with
  | |- context [PyStr.mem k ?l] =>
      let E := fresh "E" in
      destruct (PyStr.mem k l) eqn:E;
      [ exfalso; apply mem_true_iff in E; apply Hk;
        repeat (apply elem_of_cons in E as [-> | E];
                [repeat (first [by apply list_elem_of_here
                               | apply list_elem_of_further])|]);
        by apply elem_of_nil in E
      | ]
  end.
  reflexivity.
Qed.

Lemma observation_segments_lookup values texts ts fields : ∀ idx k,
  observation_segments_from values texts ts idx fields !! k
  = observation_segment values texts ts (idx + k) <$> fields !! k.
Proof.
  induction fields as [|f fields IH]; intros idx k; [done|].
  destruct k as [|k]; simpl.
  - by rewrite Nat.add_0_r.
  - rewrite IH. by rewrite Nat.add_succ_r.
Qed.

Lemma observation_segments_length values texts ts fields : ∀ idx,
  length (observation_segments_from values texts ts idx fields)
  = length fields.
Proof. induction fields as [|f fields IH]; intros idx; simpl; auto. Qed.

(** C9, counterexample. A NaN in the values map is written as [nan], which
    has no decimal places: the one observation segment of the message
    composed for test code ["1554-5"] carries it. *)
Lemma nan_value_has_no_decimals :
  List.filter Spec.is_observation
    (PyStr.split "013"
       (create_result_message (Sample.order "1554-5")
          {[ "1554-5" := S754_nan ]} None Sample.stamp))
  = ["OBX|1|NM|1554-5^Glucose^http://loinc.org||nan|mg/dL|70-105"
     +:+ "|N|||F|||20250101120000||||||"]
  ∧ last (result_segments (Sample.order "1554-5") {[ "1554-5" := S754_nan ]}
            None Sample.stamp)
    = Some ("OBX|1|NM|1554-5^Glucose^http://loinc.org||nan|mg/dL|70-105"
            +:+ "|N|||F|||20250101120000||||||")
  ∧ Spec.two_decimals (PyFloat.format_2f S754_nan) = false.
Proof. vm_compute. repeat split; reflexivity. Qed.

Lemma string_app_assoc (a b c : string) : a +:+ b +:+ c = (a +:+ b) +:+ c.
Proof.
  induction a as [|x a IH]; [reflexivity|].
  change (String x (a +:+ b +:+ c) = String x ((a +:+ b) +:+ c)).
  by rewrite IH.
Qed.

(** A test code that is not a key of [test_fields] gives no observation
    segment, and the message is composed all the same. *)
Lemma unknown_code_no_observations pd values interps ts :
  dict_get test_fields (PyStr.strip (test_id pd)) = None →
  result_segments pd values interps ts = order_segments pd ts.
Proof.
  intros Hnone. unfold result_segments, get_observation_fields.
  rewrite Hnone. cbn [default observation_segments_from]. apply app_nil_r.
Qed.

(** C1, the code at test code ["NOT_A_TEST"]. [create_result_message]
    raises nothing: it returns the header, patient, order-control and
    order-detail segments, with no observation segment, whatever values
    and interpretations are supplied. *)
Theorem unknown_test_code_still_composes values interps ts :
  get_observation_fields "NOT_A_TEST" = []
  ∧ result_segments (Sample.order "NOT_A_TEST") values interps ts
    = order_segments (Sample.order "NOT_A_TEST") ts
  ∧ create_result_message (Sample.order "NOT_A_TEST") values interps ts
    = "MSH|^~\&|LAB_ANALYZER|DUMMY_LAB|APP|FAC|" +:+ ts
      +:+ "||ORU^R01|MC1_RESULT|P|2.5" +:+ PyStr.CR
      +:+ "PID|1||P1||DOE^JANE||19800101|F||||||||||||" +:+ PyStr.CR
      +:+ "ORC|RE|PL1|FL1||CM||||" +:+ ts +:+ "|||" +:+ PyStr.CR
      +:+ "OBR|1|PL1|FL1|NOT_A_TEST^Panel|||" +:+ ts +:+ "|||||||" +:+ ts
      +:+ "|||||||||||F".
Proof.
  split; [reflexivity|].
  assert (result_segments (Sample.order "NOT_A_TEST") values interps ts
          = order_segments (Sample.order "NOT_A_TEST") ts) as Hseg
    by (by apply unknown_code_no_observations).
  split; [exact Hseg|].
  unfold create_result_message. rewrite Hseg.
  unfold order_segments, PyStr.join. simpl.
  rewrite <- !string_app_assoc. reflexivity.
Qed.

End Composition_facts.

(** ** The outbound sender *)

Section Sender_facts.

(** [True] is returned exactly when the four awaited calls return. *)
Lemma send_result_true_iff peer message :
  (send_result peer message).1 = true
  ↔ (∃ ack, open_connection peer = Returned ()
            ∧ drain peer = Returned ()
            ∧ read_ack peer = Returned ack
            ∧ wait_closed peer = Returned ()).
Proof.
  unfold send_result. split.
  - destruct (open_connection peer) as [[]| |]; try discriminate.
    destruct (drain peer) as [[]| |]; try discriminate.
    destruct (read_ack peer) as [ack| |]; try discriminate.
    destruct (wait_closed peer) as [[]| |]; try discriminate.
    intros _. by exists ack.
  - intros (ack & -> & -> & -> & ->). reflexivity.
Qed.

(** A timeout, and an error of any awaited call, give [False]. *)
Lemma send_result_false peer message :
  open_connection peer ≠ Returned () ∨ drain peer ≠ Returned ()
  ∨ read_ack peer = RaisedTimeout ∨ read_ack peer = RaisedError
  ∨ wait_closed peer ≠ Returned () →
  (send_result peer message).1 = false.
Proof.
  intros H. apply not_true_is_false. rewrite send_result_true_iff.
  intros (ack & H1 & H2 & H3 & H4). rewrite H1, H2, H3, H4 in H.
  destruct H as [H|[H|[H|[H|H]]]]; congruence.
Qed.

(** One connection attempt is made, on every path. *)
Lemma send_result_one_attempt peer message :
  connects (send_result peer message).2 = 1.
Proof.
  unfold send_result.
  destruct (open_connection peer); try reflexivity.
  destruct (drain peer); try reflexivity.
  destruct (read_ack peer); try reflexivity.
  destruct (wait_closed peer); reflexivity.
Qed.

Example send_result_acknowledged message :
  send_result Sample.replying_peer message
  = (true, [Connect; Write (wrap_mllp message); ReadAck; Close]).
Proof. reflexivity. Qed.

(** C6, the code at a receiver that closes the stream without replying.
    The read returns [b''], no response byte was received, and
    [send_result] returns [True]. *)
Theorem send_result_true_without_ack message :
  read_ack Sample.silent_peer = Returned []
  ∧ send_result Sample.silent_peer message
    = (true, [Connect; Write (wrap_mllp message); ReadAck; Close]).
Proof. split; reflexivity. Qed.

End Sender_facts.


(** * Further properties of the code *)

(** ** The message queue: writers, snapshots and clearing *)

Section Store_more.

Import MessageQueue.
Implicit Types (q : MessageQueue) (h : Heap) (r : StoredMessage).
Implicit Types (d : gmap string loc) (l : loc).

Lemma stored_eq q h d id :
  dicts h !! _messages q = Some d →
  stored q h id = d !! id ≫= (records h !!.).
Proof. unfold stored. by intros ->. Qed.

Lemma ids_eq q h d : dicts h !! _messages q = Some d → ids q h = dom d.
Proof. unfold ids. by intros ->. Qed.

Lemma fresh_record h l : is_Some (records h !! l) → fresh (dom (records h)) ≠ l.
Proof.
  intros Hl Heq. apply (is_fresh (dom (records h))). rewrite Heq.
  by apply elem_of_dom.
Qed.

(** Deciding the invariants on a given heap. *)
Lemma wf_by_check q h d :
  dicts h !! _messages q = Some d →
  map_Forall (λ _ l, is_Some (records h !! l)) d → wf q h.
Proof. intros Hd Hall. exists d. split; [done|]. intros k l. apply Hall. Qed.

Lemma separate_by_check q h d :
  dicts h !! _messages q = Some d →
  map_Forall (λ k1 l1, map_Forall (λ k2 l2, l1 = l2 → k1 = k2) d) d →
  separate q h.
Proof.
  intros Hd Hall d' k1 k2 l Hd' H1 H2.
  rewrite Hd in Hd'. injection Hd' as <-.
  by apply (Hall k1 l H1 k2 l H2).
Qed.

Lemma sample_heap_separate : separate Sample.queue Sample.heap.
Proof.
  apply (separate_by_check _ _ {[ "id-1" := 1%positive ]}); [reflexivity|].
  apply (bool_decide_unpack _). vm_compute. exact I.
Qed.

Lemma sample_heap3_wf : wf Sample.queue Sample.heap3.
Proof.
  eapply wf_by_check; [reflexivity|].
  apply (bool_decide_unpack _). vm_compute. exact I.
Qed.

Lemma sample_heap3_separate : separate Sample.queue Sample.heap3.
Proof.
  eapply separate_by_check; [reflexivity|].
  apply (bool_decide_unpack _). vm_compute. exact I.
Qed.

Lemma add_message_effect q h message_data parsed_data message_id now :
  wf q h →
  ∃ h',
    add_message q message_data parsed_data message_id now h
    = Some (message_id, h')
    ∧ stored q h' message_id
      = Some (mkStoredMessage message_id message_data parsed_data "pending"
                now None None)
    ∧ (∀ id, id ≠ message_id → stored q h' id = stored q h id)
    ∧ ids q h' = {[message_id]} ∪ ids q h
    ∧ wf q h'
    ∧ (separate q h → separate q h').
Proof.
  intros (d & Hd & Hwf). eexists. split.
  { unfold add_message. rewrite Hd. reflexivity. }
  set (l := fresh (dom (records h))).
  assert (∀ k l0, d !! k = Some l0 → l ≠ l0) as Hfresh.
  { intros k l0 Hk. apply fresh_record. by apply (Hwf k). }
  assert (dicts (with_dicts <[_messages q := <[message_id := l]> d]>
                   (with_records <[l := mkStoredMessage message_id
                      message_data parsed_data "pending" now None None]> h))
          !! _messages q = Some (<[message_id := l]> d)) as Hd'
    by (simpl; apply lookup_insert_eq).
  split; [|split; [|split; [|split]]].
  - rewrite (stored_eq _ _ _ _ Hd'), lookup_insert_eq. simpl.
    apply lookup_insert_eq.
  - intros id Hne.
    rewrite (stored_eq _ _ _ _ Hd'), (stored_eq _ _ _ _ Hd).
    rewrite lookup_insert_ne by done.
    destruct (d !! id) as [l0|] eqn:Hl0; [|done].
    simpl. apply lookup_insert_ne. by apply (Hfresh id).
  - rewrite (ids_eq _ _ _ Hd'), (ids_eq _ _ _ Hd). apply dom_insert_L.
  - exists (<[message_id := l]> d). split; [done|].
    intros k l0. rewrite lookup_insert_Some. simpl.
    intros [[_ <-] | [_ Hk]].
    + rewrite lookup_insert_eq. by eexists.
    + apply lookup_insert_is_Some'. right. by apply (Hwf k).
  - intros Hsep d' k1 k2 l0 Hdd H1 H2.
    rewrite Hd' in Hdd. injection Hdd as <-.
    apply lookup_insert_Some in H1 as [[<- <-] | [Hn1 H1]];
      apply lookup_insert_Some in H2 as [[<- Heq] | [Hn2 H2]]; try done.
    + by destruct (Hfresh _ _ H2).
    + subst l0. by destruct (Hfresh _ _ H1).
    + by apply (Hsep d k1 k2 l0).
Qed.

(** X1. [add_message] followed by a lookup: the queue holds, under the new
    id, a pending record with the raw text, the extracted data and the
    clock value, no stamp and no result; the records under the other ids
    are as before; the id is added to the ids held; the invariants hold
    afterwards. *)
Theorem add_message_lookup q h message_data parsed_data message_id now :
  wf q h →
  ∃ h',
    add_message q message_data parsed_data message_id now h
    = Some (message_id, h')
    ∧ stored q h' message_id
      = Some (mkStoredMessage message_id message_data parsed_data "pending"
                now None None)
    ∧ (∀ id, id ≠ message_id → stored q h' id = stored q h id)
    ∧ ids q h' = {[message_id]} ∪ ids q h
    ∧ wf q h'
    ∧ (separate q h → separate q h').
Proof.
  intros Hwf.
  destruct (add_message_effect q h message_data parsed_data message_id now
              Hwf) as (h' & Hrun & Hnew & Hold & Hids & Hwf' & Hsep).
  exists h'. split; [exact Hrun|]. split; [exact Hnew|].
  split; [exact Hold|]. split; [exact Hids|]. split; [exact Hwf'|exact Hsep].
Qed.

(** A second order added to the sample queue. *)
Lemma add_message_lookup_witness :
  wf Sample.queue Sample.heap
  ∧ ∃ h',
      add_message Sample.queue "raw2" (Sample.order "1554-5") "id-2" "t5"
        Sample.heap = Some ("id-2", h')
      ∧ msg_status <$> stored Sample.queue h' "id-2" = Some "pending"
      ∧ stored Sample.queue h' "id-1" = Some Sample.record.
Proof.
  split; [exact sample_heap_wf|].
  destruct (add_message_lookup Sample.queue Sample.heap "raw2"
              (Sample.order "1554-5") "id-2" "t5" sample_heap_wf)
    as (h' & Hrun & Hnew & Hold & _).
  exists h'. split; [exact Hrun|]. split; [by rewrite Hnew|].
  by rewrite (Hold "id-1").
Defined.

(** X2. [update_status] on one id changes no other order: the records under
    the other ids, and the ids held, are as before, and [True] is returned
    exactly when the id is held. *)
Theorem update_status_other_ids q h id s rm now found h' :
  wf q h → separate q h →
  update_status q id s rm now h = Some (found, h') →
  (∀ id', id' ≠ id → stored q h' id' = stored q h id')
  ∧ ids q h' = ids q h
  ∧ (found = true ↔ id ∈ ids q h)
  ∧ separate q h'.
Proof.
  intros (d & Hd & Hwf) Hsep Hrun. unfold update_status in Hrun.
  rewrite Hd in Hrun. simpl in Hrun.
  rewrite (ids_eq _ _ _ Hd).
  destruct (d !! id) as [l|] eqn:Hl.
  - destruct (Hwf _ _ Hl) as [r Hr]. rewrite Hr in Hrun. simpl in Hrun.
    injection Hrun as <- <-.
    split; [|split; [|split]].
    + intros id' Hne.
      rewrite !(stored_eq _ _ d) by done.
      destruct (d !! id') as [l'|] eqn:Hl'; [|done].
      simpl. apply lookup_insert_ne. intros <-.
      apply Hne. by apply (Hsep d id' id l).
    + by rewrite (ids_eq _ _ d).
    + split; [intros _|done]. apply elem_of_dom. by eexists.
    + intros d' k1 k2 l0 Hd'. apply (Hsep d' k1 k2 l0). exact Hd'.
  - injection Hrun as <- <-.
    split; [done|]. split; [by rewrite (ids_eq _ _ d)|].
    split; [|done]. split; [done|].
    intros Hin. apply elem_of_dom in Hin as [l Hin]. congruence.
Qed.

Lemma update_status_other_ids_witness :
  wf Sample.queue Sample.heap3 ∧ separate Sample.queue Sample.heap3
  ∧ ∃ h',
      update_status Sample.queue "id-1" "discarded" None "t7" Sample.heap3
      = Some (true, h')
      ∧ msg_status <$> stored Sample.queue h' "id-2" = Some "processed"
      ∧ msg_status <$> stored Sample.queue h' "id-3" = Some "archived".
Proof.
  split; [exact sample_heap3_wf|]. split; [exact sample_heap3_separate|].
  eexists. split; [reflexivity|].
  destruct (update_status_other_ids Sample.queue Sample.heap3 "id-1"
              "discarded" None "t7" true _ sample_heap3_wf
              sample_heap3_separate eq_refl) as (Hother & _).
  split; [by rewrite (Hother "id-2") | by rewrite (Hother "id-3")].
Defined.

(** X3. [remove_message] returns [True] exactly when the id is held. After
    the call the id is not held, the other orders are as before, and the
    record objects themselves are untouched. On an id that is not held the
    heap is unchanged. *)
Theorem remove_message_contract q h id :
  wf q h →
  ∃ h',
    remove_message q id h = Some (bool_decide (id ∈ ids q h), h')
    ∧ stored q h' id = None
    ∧ (∀ id', id' ≠ id → stored q h' id' = stored q h id')
    ∧ ids q h' = ids q h ∖ {[id]}
    ∧ records h' = records h
    ∧ (id ∉ ids q h → h' = h)
    ∧ wf q h'
    ∧ (separate q h → separate q h').
Proof.
  intros (d & Hd & Hwf). unfold remove_message. rewrite Hd. simpl.
  rewrite (ids_eq _ _ _ Hd).
  destruct (d !! id) as [l|] eqn:Hl.
  - eexists. split.
    { rewrite bool_decide_eq_true_2; [reflexivity|].
      apply elem_of_dom. by eexists. }
    assert (dicts (with_dicts <[_messages q := delete id d]> h)
            !! _messages q = Some (delete id d)) as Hd'
      by (simpl; apply lookup_insert_eq).
    split; [|split; [|split; [|split; [|split; [|split]]]]].
    + by rewrite (stored_eq _ _ _ _ Hd'), lookup_delete_eq.
    + intros id' Hne.
      rewrite (stored_eq _ _ _ _ Hd'), (stored_eq _ _ _ _ Hd).
      by rewrite lookup_delete_ne.
    + rewrite (ids_eq _ _ _ Hd'). apply dom_delete_L.
    + reflexivity.
    + intros Hnot. exfalso. apply Hnot. apply elem_of_dom. by eexists.
    + exists (delete id d). split; [done|].
      intros k l0. rewrite lookup_delete_Some. intros [_ Hk]. by apply (Hwf k).
    + intros Hsep d' k1 k2 l0 Hdd. rewrite Hd' in Hdd. injection Hdd as <-.
      rewrite !lookup_delete_Some. intros [_ H1] [_ H2].
      by apply (Hsep d k1 k2 l0).
  - exists h. split.
    { rewrite bool_decide_eq_false_2; [reflexivity|].
      intros Hin. apply elem_of_dom in Hin as [l Hin]. congruence. }
    split; [by rewrite (stored_eq _ _ _ _ Hd), Hl|].
    split; [done|]. split.
    { rewrite (ids_eq _ _ _ Hd). apply not_elem_of_dom in Hl.
      symmetry. apply difference_disjoint_L. by apply disjoint_singleton_r. }
    split; [done|]. split; [done|]. split; [by exists d|done].
Qed.

Lemma remove_message_contract_witness :
  wf Sample.queue Sample.heap3
  ∧ ∃ h',
      remove_message Sample.queue "id-2" Sample.heap3 = Some (true, h')
      ∧ stored Sample.queue h' "id-2" = None
      ∧ msg_status <$> stored Sample.queue h' "id-1" = Some "pending".
Proof.
  split; [exact sample_heap3_wf|].
  destruct (remove_message_contract Sample.queue Sample.heap3 "id-2"
              sample_heap3_wf) as (h' & Hrun & Hgone & Hother & _).
  exists h'. split; [exact Hrun|]. split; [exact Hgone|].
  by rewrite (Hother "id-1").
Defined.

Lemma has_terminal_status_stored q h d id l r :
  dicts h !! _messages q = Some d → d !! id = Some l →
  records h !! l = Some r →
  has_terminal_status h l = true ↔ Spec.terminal (msg_status r).
Proof.
  intros _ _ Hr. unfold has_terminal_status. rewrite Hr. apply mem_terminal.
Qed.

(** The dictionary [clear_processed] leaves. *)
Lemma cleared_lookup h d id :
  (d ∖ filter (λ kv, has_terminal_status h kv.2 = true) d) !! id
  = l ← d !! id; if has_terminal_status h l then None else Some l.
Proof.
  rewrite lookup_difference.
  destruct (d !! id) as [l|] eqn:Hl; simpl.
  - destruct (has_terminal_status h l) eqn:Ht.
    + by rewrite (map_lookup_filter_Some_2 _ _ _ _ Hl Ht).
    + rewrite (proj2 (map_lookup_filter_None _ _ _)); [done|].
      right. intros x Hx. simpl. congruence.
  - rewrite (proj2 (map_lookup_filter_None _ _ _)); [done|]. by left.
Qed.

Lemma cleared_size h d :
  size (filter (λ kv, has_terminal_status h kv.2 = true) d)
  + size (d ∖ filter (λ kv, has_terminal_status h kv.2 = true) d)
  = size d.
Proof.
  set (P := λ kv : string * loc, has_terminal_status h kv.2 = true).
  assert (d ∖ filter P d = filter (λ kv, ¬ P kv) d) as ->.
  { apply map_eq. intros id. unfold P. rewrite cleared_lookup.
    destruct (d !! id) as [l|] eqn:Hl; simpl.
    - destruct (has_terminal_status h l) eqn:Ht; symmetry.
      + apply map_lookup_filter_None. right. intros x Hx. simpl.
        assert (x = l) as -> by congruence. by intros [].
      + apply map_lookup_filter_Some. split; [done|]. simpl. congruence.
    - symmetry. apply map_lookup_filter_None. by left. }
  rewrite <- map_size_disj_union by apply map_disjoint_filter_complement.
  by rewrite map_filter_union_complement.
Qed.

(** X4. [clear_processed] deletes exactly the orders whose status is
    ['processed'] or ['discarded'] and returns how many they were: every
    other order, whatever its status, is held as before. A second call
    right after finds nothing to delete, returns 0 and changes nothing. *)
Theorem clear_processed_contract q h :
  wf q h →
  ∃ n h',
    clear_processed q h = Some (n, h')
    ∧ (∀ id, stored q h' id
             = r ← stored q h id;
               if decide (Spec.terminal (msg_status r)) then None else Some r)
    ∧ ids q h' ⊆ ids q h
    ∧ n + size (ids q h') = size (ids q h)
    ∧ records h' = records h
    ∧ wf q h'
    ∧ clear_processed q h' = Some (0, h').
Proof.
  intros (d & Hd & Hwf). eexists _, _. split.
  { unfold clear_processed. rewrite Hd. reflexivity. }
  set (d' := d ∖ filter (λ kv, has_terminal_status h kv.2 = true) d).
  set (h' := with_dicts <[_messages q := d']> h).
  assert (dicts h' !! _messages q = Some d') as Hd'
    by (simpl; apply lookup_insert_eq).
  assert (∀ id l, d' !! id = Some l →
            d !! id = Some l ∧ has_terminal_status h l = false) as Hkept.
  { intros id l. unfold d'. rewrite cleared_lookup.
    destruct (d !! id) as [l0|]; simpl; [|done].
    destruct (has_terminal_status h l0) eqn:Ht; [done|].
    intros [= <-]. done. }
  split; [|split; [|split; [|split; [|split]]]].
  - intros id.
    rewrite (stored_eq _ _ _ _ Hd'), (stored_eq _ _ _ _ Hd).
    unfold d'. rewrite cleared_lookup.
    destruct (d !! id) as [l|] eqn:Hl; simpl; [|done].
    destruct (Hwf _ _ Hl) as [r Hr].
    pose proof (has_terminal_status_stored q h d id l r Hd Hl Hr) as Hiff.
    rewrite Hr. simpl.
    destruct (has_terminal_status h l).
    + rewrite decide_True; [done|]. by apply Hiff.
    + rewrite decide_False; [simpl; exact Hr|].
      intros Ht. apply Hiff in Ht. done.
  - rewrite (ids_eq _ _ _ Hd'), (ids_eq _ _ _ Hd).
    intros id. rewrite !elem_of_dom. intros [l Hl].
    destruct (Hkept _ _ Hl). by eexists.
  - rewrite (ids_eq _ _ _ Hd'), (ids_eq _ _ _ Hd), !size_dom.
    apply cleared_size.
  - reflexivity.
  - exists d'. split; [done|].
    intros k l Hk. destruct (Hkept _ _ Hk) as [Hk' _]. by apply (Hwf k).
  - unfold clear_processed. rewrite Hd'. simpl.
    assert (filter (λ kv, has_terminal_status h' kv.2 = true) d' = ∅)
      as ->.
    { apply map_empty. intros id. apply map_lookup_filter_None.
      destruct (d' !! id) as [l|] eqn:Hl; [right|by left].
      intros x [= <-]. simpl. destruct (Hkept _ _ Hl) as [_ Hf].
      unfold has_terminal_status in *. unfold h'. cbn [records with_dicts].
      by rewrite Hf. }
    rewrite map_size_empty, map_difference_empty.
    do 2 f_equal. unfold h', with_dicts. simpl.
    by rewrite insert_insert_eq.
Qed.

Lemma clear_processed_contract_witness :
  wf Sample.queue Sample.heap3
  ∧ ∃ h',
      clear_processed Sample.queue Sample.heap3 = Some (1, h')
      ∧ stored Sample.queue h' "id-2" = None
      ∧ msg_status <$> stored Sample.queue h' "id-1" = Some "pending"
      ∧ msg_status <$> stored Sample.queue h' "id-3" = Some "archived".
Proof.
  split; [exact sample_heap3_wf|].
  destruct (clear_processed_contract Sample.queue Sample.heap3
              sample_heap3_wf) as (n & h' & Hrun & Hst & _).
  exists h'.
  assert (n = 1) as ->.
  { assert (fst <$> clear_processed Sample.queue Sample.heap3 = Some 1) as H1
      by (vm_compute; reflexivity).
    rewrite Hrun in H1. by injection H1. }
  split; [exact Hrun|].
  rewrite (Hst "id-2"), (Hst "id-1"), (Hst "id-3").
  repeat split.
Defined.

(** X5. The dictionary [get_pending_messages] returns holds exactly the
    orders whose status is the string ['pending'], with the records the
    queue holds; the queue itself is as before. *)
Theorem pending_snapshot_exact q h :
  wf q h →
  ∃ l' h',
    get_pending_messages q h = Some (l', h')
    ∧ (∀ id, stored (mkMessageQueue l') h' id
             = r ← stored q h id;
               if decide (msg_status r = "pending") then Some r else None)
    ∧ (∀ id, stored q h' id = stored q h id)
    ∧ records h' = records h.
Proof.
  intros (d & Hd & Hwf). eexists _, _. split.
  { unfold get_pending_messages. rewrite Hd. reflexivity. }
  pose proof (fresh_dict_ne q h d Hd) as Hne.
  set (l' := fresh (dom (dicts h))) in *.
  set (d' := filter (λ kv, is_pending h kv.2 = true) d).
  assert (dicts (with_dicts <[l' := d']> h) !! _messages (mkMessageQueue l')
          = Some d') as Hd' by (simpl; apply lookup_insert_eq).
  split; [|split].
  - intros id.
    rewrite (stored_eq _ _ _ _ Hd'), (stored_eq _ _ _ _ Hd).
    cbn [records with_dicts].
    destruct (d !! id) as [l|] eqn:Hl.
    + destruct (Hwf _ _ Hl) as [r Hr]. cbn [mbind option_bind]. rewrite Hr.
      cbn [mbind option_bind].
      destruct (decide (msg_status r = "pending")) as [Hp|Hp].
      * unfold d'. rewrite (map_lookup_filter_Some_2 _ _ _ _ Hl).
        { cbn [mbind option_bind]. exact Hr. }
        cbn [snd]. unfold is_pending. rewrite Hr. by apply String.eqb_eq.
      * unfold d'. rewrite (proj2 (map_lookup_filter_None _ _ _)); [done|].
        right. intros x Hx. assert (x = l) as -> by congruence.
        cbn [snd]. unfold is_pending. rewrite Hr.
        intros Heq. by apply String.eqb_eq in Heq.
    + unfold d'. rewrite (proj2 (map_lookup_filter_None _ _ _)); [done|].
      by left.
  - intros id. apply stored_other_dict. simpl. by apply lookup_insert_ne.
  - reflexivity.
Qed.

Lemma pending_snapshot_exact_witness :
  wf Sample.queue Sample.heap3
  ∧ ∃ l' h',
      get_pending_messages Sample.queue Sample.heap3 = Some (l', h')
      ∧ msg_status <$> stored (mkMessageQueue l') h' "id-1" = Some "pending"
      ∧ stored (mkMessageQueue l') h' "id-2" = None
      ∧ stored (mkMessageQueue l') h' "id-3" = None.
Proof.
  split; [exact sample_heap3_wf|].
  destruct (pending_snapshot_exact Sample.queue Sample.heap3 sample_heap3_wf)
    as (l' & h' & Hrun & Hview & _).
  exists l', h'. split; [exact Hrun|].
  rewrite (Hview "id-1"), (Hview "id-2"), (Hview "id-3"). repeat split.
Defined.

(** X6. The dictionary [get_all_messages] returns is a snapshot of the ids
    only. Orders added later are not in it and orders removed later stay in
    it, but a later [update_status] is seen through it, because the records
    are shared with the queue. *)
Theorem snapshot_after_writes q h :
  wf q h →
  ∃ l' h1,
    get_all_messages q h = Some (l', h1)
    ∧ (∀ id, stored q h1 id = stored q h id)
    ∧ (∀ id, stored (mkMessageQueue l') h1 id = stored q h id)
    ∧ (∀ raw pd mid now h2 id,
         add_message q raw pd mid now h1 = Some (mid, h2) →
         stored (mkMessageQueue l') h2 id = stored q h id)
    ∧ (∀ rid found h2 id,
         remove_message q rid h1 = Some (found, h2) →
         stored (mkMessageQueue l') h2 id = stored q h id)
    ∧ (∀ id s rm now r h2,
         stored q h id = Some r →
         update_status q id s rm now h1 = Some (true, h2) →
         stored (mkMessageQueue l') h2 id = Some (updated s rm now r)).
Proof.
  intros (d & Hd & Hwf). eexists _, _. split.
  { unfold get_all_messages. rewrite Hd. reflexivity. }
  pose proof (fresh_dict_ne q h d Hd) as Hne.
  set (l' := fresh (dom (dicts h))) in *.
  set (h1 := with_dicts <[l' := d]> h).
  assert (dicts h1 !! _messages q = Some d) as Hd1
    by (simpl; by rewrite lookup_insert_ne).
  assert (dicts h1 !! l' = Some d) as Hs1 by (simpl; apply lookup_insert_eq).
  split; [|split; [|split; [|split]]].
  - intros id. by rewrite !(stored_eq q _ d).
  - intros id. by rewrite (stored_eq (mkMessageQueue l') _ d), (stored_eq q _ d).
  - intros raw pd mid now h2 id Hadd. unfold add_message in Hadd.
    rewrite Hd1 in Hadd. simpl in Hadd. injection Hadd as <-.
    rewrite (stored_eq (mkMessageQueue l') _ d), (stored_eq q _ d); [|done|].
    + destruct (d !! id) as [l0|] eqn:Hl0; [|done].
      simpl. apply lookup_insert_ne. apply fresh_record. by apply (Hwf id).
    + simpl. by rewrite lookup_insert_ne, lookup_insert_eq.
  - intros rid found h2 id Hrm. unfold remove_message in Hrm.
    rewrite Hd1 in Hrm. simpl in Hrm.
    assert (dicts h2 !! l' = Some d ∧ records h2 = records h) as [Hs2 Hr2].
    { destruct (d !! rid); injection Hrm as <- <-; [|done].
      split; [|done]. simpl. by rewrite lookup_insert_ne, lookup_insert_eq. }
    rewrite (stored_eq (mkMessageQueue l') _ d), (stored_eq q _ d) by done.
    by rewrite Hr2.
  - intros id s rm now r h2 Hr Hup.
    apply stored_inv in Hr as (d0 & l & Hd0 & Hl & Hr).
    rewrite Hd in Hd0. injection Hd0 as <-.
    unfold update_status in Hup. rewrite Hd1 in Hup. simpl in Hup.
    rewrite Hl in Hup. simpl in Hup. rewrite Hr in Hup. simpl in Hup.
    injection Hup as <-.
    rewrite (stored_eq (mkMessageQueue l') _ d) by done.
    rewrite Hl. simpl. apply lookup_insert_eq.
Qed.

Lemma snapshot_after_writes_witness :
  wf Sample.queue Sample.heap
  ∧ ∃ l' h1 h2,
      get_all_messages Sample.queue Sample.heap = Some (l', h1)
      ∧ update_status Sample.queue "id-1" "discarded" None "t3" h1
        = Some (true, h2)
      ∧ msg_status <$> stored (mkMessageQueue l') h2 "id-1" = Some "discarded".
Proof.
  split; [exact sample_heap_wf|].
  destruct (snapshot_after_writes Sample.queue Sample.heap sample_heap_wf)
    as (l' & h1 & Hrun & Hq & _ & _ & _ & Hup).
  destruct (update_status_present Sample.queue h1 "id-1" Sample.record
              "discarded" None "t3") as (h2 & Hrun2 & _).
  { by rewrite (Hq "id-1"). }
  exists l', h1, h2. split; [exact Hrun|]. split; [exact Hrun2|].
  by rewrite (Hup "id-1" "discarded" None "t3" Sample.record h2 eq_refl Hrun2).
Defined.

(** X7. A status outside ['pending'], ['processed'] and ['discarded'] leaves
    the order stuck: after [update_status] stores it, the order is missing
    from the pending dictionary and [clear_processed] does not delete it. *)
Theorem unlisted_status_is_stuck q h id r s rm now :
  wf q h → stored q h id = Some r →
  s ≠ "pending" → ¬ Spec.terminal s →
  ∃ h1,
    update_status q id s rm now h = Some (true, h1)
    ∧ (∃ l' h2, get_pending_messages q h1 = Some (l', h2)
                ∧ stored (mkMessageQueue l') h2 id = None)
    ∧ (∃ n h2, clear_processed q h1 = Some (n, h2)
               ∧ stored q h2 id = Some (updated s rm now r)).
Proof.
  intros Hwf Hr Hnp Hnt.
  apply stored_inv in Hr as (d & l & Hd & Hl & Hr).
  set (r' := updated s rm now r).
  set (h1 := with_records <[l := r']> h).
  exists h1. split.
  { unfold update_status. rewrite Hd. simpl. by rewrite Hl, Hr. }
  assert (dicts h1 !! _messages q = Some d) as Hd1 by exact Hd.
  assert (records h1 !! l = Some r') as Hr1 by (simpl; apply lookup_insert_eq).
  assert (msg_status r' = s) as Hs by apply updated_status.
  split.
  - eexists _, _. split.
    { unfold get_pending_messages. rewrite Hd1. reflexivity. }
    unfold stored. simpl. rewrite lookup_insert_eq. simpl.
    rewrite (proj2 (map_lookup_filter_None _ _ _)); [done|].
    right. intros x Hx. assert (x = l) as -> by congruence.
    unfold is_pending. cbn [snd]. rewrite Hr1, Hs.
    intros Heq. by apply String.eqb_eq in Heq.
  - eexists _, _. split.
    { unfold clear_processed. rewrite Hd1. reflexivity. }
    unfold stored. simpl. rewrite lookup_insert_eq. simpl.
    rewrite cleared_lookup, Hl. simpl.
    unfold has_terminal_status. rewrite Hr1, Hs.
    destruct (PyStr.mem s _) eqn:Hm; [|simpl; apply lookup_insert_eq].
    by apply mem_terminal in Hm.
Qed.

Lemma unlisted_status_is_stuck_witness :
  wf Sample.queue Sample.heap
  ∧ stored Sample.queue Sample.heap "id-1" = Some Sample.record
  ∧ ∃ h1 n h2,
      update_status Sample.queue "id-1" "archived" None "t9" Sample.heap
      = Some (true, h1)
      ∧ clear_processed Sample.queue h1 = Some (n, h2)
      ∧ msg_status <$> stored Sample.queue h2 "id-1" = Some "archived".
Proof.
  split; [exact sample_heap_wf|]. split; [reflexivity|].
  assert ("archived" ≠ "pending") as H1 by discriminate.
  assert (¬ Spec.terminal "archived") as H2 by (by intros [?|?]).
  destruct (unlisted_status_is_stuck Sample.queue Sample.heap "id-1"
              Sample.record "archived" None "t9" sample_heap_wf eq_refl H1 H2)
    as (h1 & Hup & _ & n & h2 & Hclear & Hst).
  exists h1, n, h2. split; [exact Hup|]. split; [exact Hclear|].
  by rewrite Hst.
Defined.

End Store_more.

(** ** Splitting and joining text *)

Section Text_facts.

Lemma append_cons c a b : String c a +:+ b = String c (a +:+ b).
Proof. reflexivity. Qed.

Lemma append_empty_l b : "" +:+ b = b.
Proof. reflexivity. Qed.

Lemma contains_app c a b :
  PyStr.contains c (a +:+ b) = PyStr.contains c a || PyStr.contains c b.
Proof.
  induction a as [|x a IH]; [reflexivity|].
  rewrite append_cons. simpl. rewrite IH. apply orb_assoc.
Qed.

Lemma split_cons_sep c s : PyStr.split c (String c s) = "" :: PyStr.split c s.
Proof. simpl. by rewrite Ascii.eqb_refl. Qed.

Lemma split_cons_other c x s h t :
  x ≠ c → PyStr.split c s = h :: t →
  PyStr.split c (String x s) = String x h :: t.
Proof.
  intros Hne Hs. simpl. rewrite (proj2 (Ascii.eqb_neq x c) Hne). by rewrite Hs.
Qed.

Lemma split_no_sep c s : PyStr.contains c s = false → PyStr.split c s = [s].
Proof.
  induction s as [|x s IH]; [reflexivity|]. simpl.
  intros [Hx Hs]%orb_false_iff. rewrite Hx. by rewrite (IH Hs).
Qed.

Lemma split_app c a b :
  PyStr.contains c a = false →
  PyStr.split c (a +:+ String c b) = a :: PyStr.split c b.
Proof.
  induction a as [|x a IH]; intros Ha.
  - rewrite append_empty_l. apply split_cons_sep.
  - simpl in Ha. apply orb_false_iff in Ha as [Hx Ha].
    rewrite append_cons. simpl. rewrite Hx. by rewrite (IH Ha).
Qed.

Lemma split_pieces c s :
  Forall (λ x, PyStr.contains c x = false) (PyStr.split c s).
Proof.
  induction s as [|x s IH]; [by repeat constructor|]. simpl.
  destruct (Ascii.eqb x c) eqn:Hx; [by constructor|].
  destruct (PyStr.split c s) as [|h t].
  { constructor; [simpl; by rewrite Hx | constructor]. }
  apply Forall_cons in IH as [Hh Ht]. constructor; [|done].
  simpl. by rewrite Hx, Hh.
Qed.

Lemma join_split c s :
  PyStr.join (String c "") (PyStr.split c s) = s.
Proof.
  unfold PyStr.join. induction s as [|x s IH]; [reflexivity|]. simpl.
  destruct (Ascii.eqb x c) eqn:Hx.
  - apply Ascii.eqb_eq in Hx as ->.
    destruct (PyStr.split c s) as [|h t] eqn:Hs.
    + by destruct (split_head_is_Some c s) as [y Hy]; rewrite Hs in Hy.
    + change (String.concat (String c "") ("" :: h :: t))
        with (String c (String.concat (String c "") (h :: t))).
      by rewrite IH.
  - destruct (PyStr.split c s) as [|h t] eqn:Hs.
    + by destruct (split_head_is_Some c s) as [y Hy]; rewrite Hs in Hy.
    + destruct t as [|h2 t].
      * simpl in IH. simpl. by rewrite IH.
      * change (String.concat (String c "") (String x h :: h2 :: t))
          with (String x (String.concat (String c "") (h :: h2 :: t))).
        by rewrite IH.
Qed.

Lemma split_join c l :
  l ≠ [] → Forall (λ x, PyStr.contains c x = false) l →
  PyStr.split c (PyStr.join (String c "") l) = l.
Proof.
  unfold PyStr.join. induction l as [|x l IH]; [done|]. intros _ Hall.
  apply Forall_cons in Hall as [Hx Hl].
  destruct l as [|y l].
  - simpl. by apply split_no_sep.
  - change (String.concat (String c "") (x :: y :: l))
      with (x +:+ String c (String.concat (String c "") (y :: l))).
    rewrite (split_app _ _ _ Hx). by rewrite IH.
Qed.

Lemma split_length c s :
  (PyStr.contains c s = false → length (PyStr.split c s) = 1)
  ∧ (PyStr.contains c s = true → 1 < length (PyStr.split c s)).
Proof.
  split.
  - intros H. by rewrite (split_no_sep _ _ H).
  - induction s as [|x s IH]; [done|]. simpl.
    destruct (Ascii.eqb x c) eqn:Hx; simpl.
    + intros _. destruct (split_head_is_Some c s) as [y Hy].
      destruct (PyStr.split c s); [done|]. simpl. lia.
    + intros Hs. specialize (IH Hs).
      destruct (PyStr.split c s) as [|h t]; simpl in *; lia.
Qed.

End Text_facts.

(** ** MLLP codec, continued *)

Section MLLP_more.

Lemma framed_shape data :
  Py.startswith data MLLP_START && Py.endswith data MLLP_END = true →
  ∃ p, data = MLLP_START ++ p ++ MLLP_END.
Proof.
  intros [Hs He]%andb_true_iff.
  unfold Py.startswith, Py.bytes_eqb, MLLP_START in Hs.
  apply bool_decide_eq_true in Hs.
  unfold Py.endswith, Py.bytes_eqb, MLLP_END in He.
  apply andb_true_iff in He as [Hlen He].
  apply bool_decide_eq_true in He. apply Nat.leb_le in Hlen. simpl in Hlen.
  destruct data as [|b rest]; [done|]. simpl in Hs. injection Hs as ->.
  pose proof (take_drop (length (x0b :: rest) - 2) (x0b :: rest)) as Hsplit.
  simpl length in *. rewrite He in Hsplit.
  destruct rest as [|b1 rest]; [simpl in Hlen; lia|].
  destruct rest as [|b2 rest].
  { simpl in He. by injection He. }
  exists (take (length rest) (b1 :: b2 :: rest)).
  rewrite <- Hsplit at 1. simpl.
  replace (length rest - 0) with (length rest) by lia. reflexivity.
Qed.

(** X8. [unwrap_mllp] strips a whole frame or nothing: the input is the
    frame of the output exactly when it begins with the start byte and ends
    with the two end bytes (the output is then three bytes shorter), and
    otherwise the output is the input. *)
Theorem unwrap_strips_frame_or_nothing data :
  (Py.startswith data MLLP_START && Py.endswith data MLLP_END = true
   ↔ data = wrap_mllp (MsgBytes (unwrap_mllp data)))
  ∧ (Py.startswith data MLLP_START && Py.endswith data MLLP_END = true →
     length (unwrap_mllp data) + 3 = length data)
  ∧ (Py.startswith data MLLP_START && Py.endswith data MLLP_END = false →
     unwrap_mllp data = data).
Proof.
  split; [split|split].
  - intros Hf. destruct (framed_shape data Hf) as [p ->].
    unfold unwrap_mllp. rewrite Hf. by rewrite slice_strip_frame.
  - intros ->. unfold wrap_mllp.
    by rewrite wrap_startswith, wrap_endswith.
  - intros Hf. destruct (framed_shape data Hf) as [p ->].
    unfold unwrap_mllp. rewrite Hf, slice_strip_frame.
    rewrite !length_app. simpl. lia.
  - intros Hf. unfold unwrap_mllp. by rewrite Hf.
Qed.

End MLLP_more.

(** ** The outbound sender, continued *)

Section Sender_more.

(** X9. [send_result] goes once through connect, write, read, close and
    stops at the first call that raises: the calls made are a prefix of that
    sequence starting with one connect, the frame written is the MLLP frame
    of the message, [True] is returned only after all four, and the writer
    is closed only when the read returned, so a timeout or an error leaves
    it open. *)
Theorem send_result_protocol peer message :
  let full := [Connect; Write (wrap_mllp message); ReadAck; Close] in
  let '(sent, trace) := send_result peer message in
  trace `prefix_of` full
  ∧ head trace = Some Connect
  ∧ connects trace = 1
  ∧ (sent = true → trace = full)
  ∧ (Write (wrap_mllp message) ∈ trace ↔ open_connection peer = Returned ())
  ∧ (Close ∈ trace
     ↔ open_connection peer = Returned () ∧ drain peer = Returned ()
       ∧ ∃ ack, read_ack peer = Returned ack)
  ∧ (sent = true
     ↔ (Close ∈ trace ∧ wait_closed peer = Returned ())).
Proof.
  unfold send_result.
  destruct (open_connection peer) as [[]| |] eqn:Ho;
    [destruct (drain peer) as [[]| |] eqn:Hd;
     [destruct (read_ack peer) as [ack| |] eqn:Hr;
      [destruct (wait_closed peer) as [[]| |] eqn:Hw|..]|..]|..];
    cbv zeta;
    (split; [try (by eexists []); try (by eexists [_]);
             try (by eexists [_; _]); by eexists [_; _; _]|]);
    (split; [reflexivity|]); (split; [reflexivity|]);
    (split; [done|]);
    repeat split; intros; try done;
    repeat match goal with
    | H : _ ∧ _ |- _ => destruct H
    | H : ∃ _, _ |- _ => destruct H
    | H : _ ∈ [] |- _ => by apply elem_of_nil in H
    | H : _ ∈ _ :: _ |- _ => apply elem_of_cons in H as [H|H]; try done
    | |- _ ∈ _ => by repeat constructor
    | |- ∃ _, _ => by eexists
    end.
Qed.

End Sender_more.

(** ** Configuration *)

Section Config_facts.

Variable py_int : string → option Z.

(** X10. [get_mllp_host_port] returns a host and a port exactly when the
    address is [host:port] with a single colon and [int] accepts the port
    text; an address with no colon, or with more than one, raises. *)
Theorem host_port_iff address host port :
  Config.get_mllp_host_port py_int address = Some (host, port)
  ↔ ∃ port_text,
      address = host +:+ ":" +:+ port_text
      ∧ PyStr.contains ":" host = false
      ∧ PyStr.contains ":" port_text = false
      ∧ py_int port_text = Some port.
Proof.
  unfold Config.get_mllp_host_port. split.
  - pose proof (join_split ":" address) as Hjoin.
    pose proof (split_pieces ":" address) as Hall.
    destruct (PyStr.split ":" address) as [|a [|b [|c l]]]; try done.
    destruct (py_int b) as [p|] eqn:Hp; simpl; [|done].
    intros [= <- <-]. exists b.
    apply Forall_cons in Hall as [Ha Hall].
    apply Forall_cons in Hall as [Hb _].
    split; [by rewrite <- Hjoin|done].
  - intros (port_text & -> & Hh & Hp & Hint).
    change (host +:+ ":" +:+ port_text)
      with (host +:+ String ":"%char port_text).
    rewrite (split_app _ _ _ Hh), (split_no_sep _ _ Hp).
    by rewrite Hint.
Qed.

End Config_facts.


(** ** Order extraction, continued *)

Section Extraction_more.

Import HL7.

Lemma find_skip {A} (f : A → bool) (before after : list A) x :
  f x = false →
  List.find f (before ++ x :: after) = List.find f (before ++ after).
Proof.
  intros Hx. induction before as [|a before IH]; simpl.
  - by rewrite Hx.
  - by rewrite IH.
Qed.

Lemma names_skip before seg after :
  is_Some (segment_name seg) →
  is_Some (segment_names (before ++ seg :: after))
  ↔ is_Some (segment_names (before ++ after)).
Proof.
  intros Hseg. unfold segment_names.
  rewrite !mapM_is_Some, !Forall_app, Forall_cons. simpl. tauto.
Qed.

(** The extraction reads the message through [seg[0][0]] of every segment
    and the first segment of each of the five names, and through nothing
    else. *)
Lemma extract_order_congr p1 p2 rnd_msg rnd_filler :
  (is_Some (segment_names p1) ↔ is_Some (segment_names p2)) →
  (∀ name, name ∈ ["MSH"; "PID"; "PV1"; "ORC"; "OBR"] →
           List.find (named name) p1 = List.find (named name) p2) →
  extract_order p1 rnd_msg rnd_filler = extract_order p2 rnd_msg rnd_filler.
Proof.
  intros Hnames Hfind.
  destruct (segment_names p1) as [n1|] eqn:H1;
    destruct (segment_names p2) as [n2|] eqn:H2.
  - unfold extract_order.
    rewrite !(segment_or_none_eval p1 n1 _ H1).
    rewrite !(segment_or_none_eval p2 n2 _ H2).
    rewrite (Hfind "MSH"), (Hfind "PID"), (Hfind "PV1"), (Hfind "ORC"),
      (Hfind "OBR"); [reflexivity|..]; by repeat constructor.
  - destruct (proj1 Hnames) as [? ?]; [by eexists|done].
  - destruct (proj2 Hnames) as [? ?]; [by eexists|done].
  - by rewrite !extract_order_no_names.
Qed.

(** X11. The extraction fails in two cases only: [seg[0][0]] is undefined
    on some segment of the parsed message, or the test code is lacking
    (no order-detail segment, no field 4 in it, or an empty first
    component). *)
Theorem extraction_succeeds_iff parsed rnd_msg rnd_filler :
  is_Some (extract_order parsed rnd_msg rnd_filler)
  ↔ is_Some (segment_names parsed) ∧ ¬ Spec.lacks_test_code parsed.
Proof.
  split.
  - intros [pd Hpd]. split.
    + destruct (segment_names parsed) eqn:Hn; [by eexists|].
      by rewrite extract_order_no_names in Hpd.
    + intros Hlack. by rewrite extract_order_lacking in Hpd.
  - intros [Hn Hlack].
    destruct (List.find (named "OBR") parsed) as [obr|] eqn:Hfind.
    2: { exfalso. apply Hlack. by left. }
    destruct (obr !! 4%nat) as [f|] eqn:Hf.
    2: { exfalso. apply Hlack. right. left. by exists obr. }
    assert (Spec.field_at parsed "OBR" 4 = Some (field_str f)) as Hat.
    { unfold Spec.field_at. rewrite Hfind. simpl. by rewrite Hf. }
    destruct (decide (Spec.first_component (field_str f) = "")) as [He|He].
    { exfalso. apply Hlack. right. right. exists (field_str f). auto. }
    destruct (extract_order_succeeds parsed rnd_msg rnd_filler _ Hn Hat He)
      as (pd & Hpd & _).
    by exists pd.
Qed.

Lemma extracted_components parsed rnd_msg rnd_filler pd :
  extract_order parsed rnd_msg rnd_filler = Some pd →
  ∃ s, Spec.field_at parsed "OBR" 4 = Some s
       ∧ test_id pd ≠ ""
       ∧ Some (test_id pd) = PyStr.split "^" s !! 0
       ∧ test_name pd = default "" (PyStr.split "^" s !! 1)
       ∧ test_system pd = default "" (PyStr.split "^" s !! 2)
       ∧ PyStr.contains "^" (test_id pd) = false
       ∧ PyStr.contains "^" (test_name pd) = false
       ∧ PyStr.contains "^" (test_system pd) = false.
Proof.
  intros Hex.
  destruct (segment_names parsed) as [names|] eqn:Hn;
    [|by rewrite extract_order_no_names in Hex].
  unfold extract_order in Hex.
  rewrite !(segment_or_none_eval _ _ _ Hn) in Hex. simpl in Hex.
  destruct (test_field _) as [obr4|] eqn:Htf; simpl in Hex; [|done].
  destruct (required_test_id _) as [tid|] eqn:Hid; simpl in Hex; [|done].
  injection Hex as <-. simpl.
  exists (field_str obr4).
  assert (Spec.field_at parsed "OBR" 4 = Some (field_str obr4)) as Hat.
  { unfold test_field in Htf. unfold Spec.field_at.
    destruct (List.find (named "OBR") parsed) as [obr|]; [|done].
    simpl in *. destruct (_ && _); [|done].
    destruct (obr !! 4%nat) as [f|]; simpl in *; [|done].
    destruct (field_truthy f); [|done]. by injection Htf as ->. }
  pose proof (split_pieces "^" (field_str obr4)) as Hall.
  unfold required_test_id in Hid.
  destruct (PyStr.split "^" (field_str obr4) !! 0%nat) as [c|] eqn:H0;
    simpl in Hid; [|done].
  destruct (PyStr.nonempty c) eqn:Hc; [|done]. injection Hid as <-.
  assert (∀ k, PyStr.contains "^"
                 (default "" (PyStr.split "^" (field_str obr4) !! k)) = false)
    as Hk.
  { intros k. destruct (_ !! k) as [x|] eqn:Hx; [|reflexivity].
    simpl. by apply (Forall_lookup_1 _ _ _ _ Hall Hx). }
  split; [done|]. split; [by destruct c|]. split; [done|].
  split; [done|]. split; [done|].
  split; [|split]; [|apply Hk..].
  by apply (Forall_lookup_1 _ _ _ _ Hall H0).
Qed.

(** X12. In an extracted order the test id is not empty, and the test id,
    name and coding system are the first three [^]-components of
    order-detail field 4 (empty when there are fewer), so none of them
    holds a [^]; further components are dropped. *)
Theorem extracted_test_fields parsed rnd_msg rnd_filler pd :
  extract_order parsed rnd_msg rnd_filler = Some pd →
  ∃ s, Spec.field_at parsed "OBR" 4 = Some s
       ∧ test_id pd ≠ ""
       ∧ Some (test_id pd) = PyStr.split "^" s !! 0
       ∧ test_name pd = default "" (PyStr.split "^" s !! 1)
       ∧ test_system pd = default "" (PyStr.split "^" s !! 2)
       ∧ PyStr.contains "^" (test_id pd) = false
       ∧ PyStr.contains "^" (test_name pd) = false
       ∧ PyStr.contains "^" (test_system pd) = false.
Proof.
  intros Hex.
  destruct (extracted_components parsed rnd_msg rnd_filler pd Hex)
    as (s & Hs & Hrest).
  exists s. split; [exact Hs | exact Hrest].
Qed.

Lemma extracted_test_fields_witness :
  extract_order Sample.parsed_empty_header 12345 6789
  = Some Sample.extracted_empty_header
  ∧ ∃ s, Spec.field_at Sample.parsed_empty_header "OBR" 4 = Some s
         ∧ test_id Sample.extracted_empty_header ≠ ""
         ∧ PyStr.contains "^" (test_name Sample.extracted_empty_header) = false.
Proof.
  split; [reflexivity|].
  destruct (extracted_test_fields Sample.parsed_empty_header 12345 6789
              Sample.extracted_empty_header eq_refl)
    as (s & Hs & Hid & _ & _ & _ & _ & Hname & _).
  exists s. split; [exact Hs|]. split; [exact Hid | exact Hname].
Defined.

(** X13. Segments the extraction does not name are ignored: a segment whose
    name is defined and is none of MSH, PID, PV1, ORC, OBR (an OBX or SPM
    segment of the order, say) can be put anywhere in the parsed message
    without changing what is extracted. *)
Theorem unrelated_segment_is_ignored before seg after x rnd_msg rnd_filler :
  segment_name seg = Some x →
  (∀ name, name ∈ ["MSH"; "PID"; "PV1"; "ORC"; "OBR"] →
           is_name name x = false) →
  extract_order (before ++ seg :: after) rnd_msg rnd_filler
  = extract_order (before ++ after) rnd_msg rnd_filler.
Proof.
  intros Hname Hother. apply extract_order_congr.
  - apply names_skip. by eexists.
  - intros name Hin. apply find_skip. unfold named. rewrite Hname.
    by apply Hother.
Qed.

Lemma unrelated_segment_is_ignored_witness :
  segment_name (Sample.seg ["OBX"; "1"; "NM"]) = Some (Text "OBX")
  ∧ extract_order
      (take 2 Sample.parsed_empty_header
       ++ Sample.seg ["OBX"; "1"; "NM"] :: drop 2 Sample.parsed_empty_header)
      12345 6789
    = Some Sample.extracted_empty_header.
Proof.
  split; [reflexivity|].
  rewrite (unrelated_segment_is_ignored (take 2 Sample.parsed_empty_header)
             (Sample.seg ["OBX"; "1"; "NM"])
             (drop 2 Sample.parsed_empty_header) (Text "OBX") 12345 6789
             eq_refl).
  - reflexivity.
  - intros name Hin.
    repeat (apply elem_of_cons in Hin as [-> | Hin]; [reflexivity|]).
    by apply elem_of_nil in Hin.
Defined.

End Extraction_more.


(** ** The inbound listener, continued *)

Section Listener_more.

Variable hl7_parse : string → option HL7.Message.

Import HL7.

Lemma keep_valid_ascii (l : list byte) : ∀ fuel : nat,
  (List.length l <= fuel)%nat → Forall (λ b, Utf8.between 0 127 b = true) l →
  Utf8.keep_valid fuel l = l.
Proof.
  induction l as [|b rest IH]; intros fuel Hlen Hall.
  - by destruct fuel.
  - destruct fuel as [|fuel]; [simpl in Hlen; lia|].
    apply Forall_cons in Hall as [Hb Hrest].
    assert (Utf8.seq_length (b :: rest) = 1) as Hseq.
    { unfold Utf8.seq_length.
      destruct rest as [|b2 [|b3 [|b4 r]]]; by rewrite Hb. }
    cbn [Utf8.keep_valid]. rewrite Hseq. simpl. f_equal.
    apply IH; [simpl in Hlen; lia | done].
Qed.

Lemma decode_ascii text :
  Spec.is_ascii text = true →
  Utf8.decode_ignore (Py.encode_utf8 text) = text.
Proof.
  intros Hascii. unfold Utf8.decode_ignore, Py.encode_utf8.
  rewrite keep_valid_ascii.
  - apply string_of_list_byte_of_string.
  - done.
  - apply Forall_forall. intros b Hb. unfold Spec.is_ascii in Hascii.
    rewrite forallb_forall in Hascii. apply Hascii.
    by apply list_elem_of_In.
Qed.

Lemma segment_truthy parsed name seg :
  segment parsed name = Some seg → seg_truthy (Some seg) = true.
Proof.
  unfold segment. destruct (segment_names parsed); simpl; [|done].
  intros Hfind. apply find_some in Hfind as [_ Hnamed].
  by apply (named_nonempty name).
Qed.

Lemma has_field_lookup seg i :
  seg_truthy (Some seg) = true →
  has_field (Some seg) i = bool_decide (is_Some (seg !! i)).
Proof.
  intros Ht. unfold has_field. rewrite Ht. simpl.
  destruct (seg !! i) as [f|] eqn:Hi.
  - rewrite bool_decide_eq_true_2 by by eexists.
    apply Nat.ltb_lt. by apply (lookup_lt_Some _ _ f).
  - rewrite bool_decide_eq_false_2 by by intros [? ?].
    apply Nat.ltb_ge. by apply lookup_ge_None.
Qed.

Lemma guarded_text seg i dflt :
  seg_truthy (Some seg) = true →
  (if has_field (Some seg) i then from_option field_str "" (seg !! i)
   else dflt)
  = from_option field_str dflt (seg !! i).
Proof.
  intros Ht. rewrite has_field_lookup by done.
  destruct (seg !! i) as [f|].
  - by rewrite bool_decide_eq_true_2 by by eexists.
  - by rewrite bool_decide_eq_false_2 by by intros [? ?].
Qed.

(** The [else] branch of line 303 is never taken: a text with a [^] splits
    in two parts at least. *)
Lemma base_type_total msg_type :
  (if PyStr.contains "^" msg_type
   then (if (1 <? length (PyStr.split "^" msg_type))%nat
         then PyStr.split "^" msg_type !! 1%nat
         else PyStr.split "^" msg_type !! 0%nat)
   else Some "O01")
  = Some (if PyStr.contains "^" msg_type
          then default "" (PyStr.split "^" msg_type !! 1%nat) else "O01").
Proof.
  destruct (PyStr.contains "^" msg_type) eqn:Hc; [|done].
  pose proof (proj2 (split_length "^" msg_type) Hc) as Hlen.
  rewrite (proj2 (Nat.ltb_lt _ _) Hlen).
  destruct (lookup_lt_is_Some_2 _ _ Hlen) as [y Hy]. by rewrite Hy.
Qed.

(** X14. The message type and the control id of the acknowledgement. When
    the text parses and has a header segment, the type is the second
    component of header field 9 if that field holds a [^], and [O01] if it
    does not or is absent; the control id is header field 10, echoed even
    when it is empty, and a random number only when the field is absent.
    When the text does not parse or has no header segment, the type is
    [O01] and the control id a random number. The type never holds a
    [^]. *)
Theorem ack_fields_cases decoded rnd_control :
  ack_fields hl7_parse decoded rnd_control
  = match hl7_parse decoded ≫= (λ parsed, segment parsed "MSH") with
    | Some msh =>
        (match msh !! 9%nat with
         | Some f =>
             if PyStr.contains "^" (field_str f)
             then default "" (PyStr.split "^" (field_str f) !! 1%nat)
             else "O01"
         | None => "O01"
         end,
         match msh !! 10%nat with
         | Some f => field_str f
         | None => PyStr.of_Z rnd_control
         end)
    | None => ("O01", PyStr.of_Z rnd_control)
    end
  ∧ PyStr.contains "^" (ack_fields hl7_parse decoded rnd_control).1 = false.
Proof.
  assert (∀ x, PyStr.contains "^" (default "" (PyStr.split "^" x !! 1%nat))
               = false) as Hpiece.
  { intros x. pose proof (split_pieces "^" x) as Hall.
    destruct (PyStr.split "^" x !! 1%nat) as [y|] eqn:Hy; [|reflexivity].
    by apply (Forall_lookup_1 _ _ _ _ Hall Hy). }
  unfold ack_fields.
  destruct (hl7_parse decoded) as [parsed|]; simpl; [|done].
  destruct (segment parsed "MSH") as [msh|] eqn:Hseg; simpl; [|done].
  pose proof (segment_truthy _ _ _ Hseg) as Ht.
  rewrite !(guarded_text _ _ _ Ht), base_type_total. simpl.
  destruct (msh !! 9%nat) as [f9|], (msh !! 10%nat) as [f10|]; simpl;
    (split; [reflexivity|]); try reflexivity;
    by destruct (PyStr.contains "^" (field_str f9)).
Qed.

(** X15. What one connection does. Every non-empty read is answered with
    one frame, the acknowledgement, built from the decoded text alone:
    whether the order can be extracted or not, the reply is the same
    [MSA|AA]. The queue gains one pending record, under the new id, with
    the decoded text and the extracted data, when the write was flushed and
    the extraction succeeded; otherwise the heap is as before. The records
    under the other ids are never touched. *)
Theorem handle_client_effect queue env h data :
  MessageQueue.wf queue h →
  env_data env = Some data → data ≠ [] →
  let decoded := Utf8.decode_ignore (unwrap_mllp data) in
  let fields := ack_fields hl7_parse decoded (env_rnd_control env) in
  let result := handle_client hl7_parse queue env h in
  result.1
  = [wrap_mllp (MsgStr (ack_message fields.1 fields.2 (env_ack_stamp env)
                          (env_rnd_ack env)))]
  ∧ MessageQueue.wf queue result.2
  ∧ (∀ id, id ≠ env_uuid env →
       MessageQueue.stored queue result.2 id = MessageQueue.stored queue h id)
  ∧ match (if env_drained env
           then parse_order_message hl7_parse (unwrap_mllp data)
                  (env_rnd_msg env) (env_rnd_filler env)
           else None) with
    | Some parsed_data =>
        MessageQueue.stored queue result.2 (env_uuid env)
        = Some (mkStoredMessage (env_uuid env) decoded parsed_data "pending"
                  (env_now env) None None)
    | None => result.2 = h
    end.
Proof.
  intros Hwf Hdata Hne. cbv zeta. unfold handle_client. rewrite Hdata.
  destruct data as [|b data]; [done|].
  destruct (ack_fields _ _ _) as [base_type msg_control_id].
  destruct (env_drained env); [|done].
  destruct (parse_order_message _ _ _ _) as [pd|]; [|done].
  destruct (add_message_effect queue h
              (Utf8.decode_ignore (unwrap_mllp (b :: data))) pd
              (env_uuid env) (env_now env) Hwf)
    as (h' & Hrun & Hnew & Hold & _ & Hwf' & _).
  rewrite Hrun. done.
Qed.

Lemma decode_ascii_bytes (u : list byte) :
  Forall (λ b, Utf8.between 0 127 b = true) u →
  Utf8.decode_ignore u = string_of_list_byte u.
Proof.
  intros Hu. unfold Utf8.decode_ignore.
  by rewrite (keep_valid_ascii u (List.length u) (le_n _) Hu).
Qed.

Lemma frame_ascii text :
  Spec.is_ascii text = true →
  Forall (λ b, Utf8.between 0 127 b = true) (wrap_mllp (MsgStr text)).
Proof.
  intros Hascii. unfold wrap_mllp, MLLP_START, MLLP_END, Py.encode_utf8.
  apply Forall_app. split; [by repeat constructor|].
  apply Forall_app. split; [|by repeat constructor].
  apply Forall_forall. intros b Hb. unfold Spec.is_ascii in Hascii.
  rewrite forallb_forall in Hascii. apply Hascii. by apply list_elem_of_In.
Qed.

Lemma encoded_length text :
  List.length (Py.encode_utf8 text) = String.length text.
Proof.
  unfold Py.encode_utf8, list_byte_of_string. rewrite length_map.
  induction text as [|c text IH]; simpl; congruence.
Qed.

Lemma frame_length text :
  List.length (wrap_mllp (MsgStr text)) = (String.length text + 3)%nat.
Proof.
  unfold wrap_mllp, MLLP_START, MLLP_END.
  rewrite !length_app, encoded_length. simpl. lia.
Qed.

(** [unwrap_mllp] returns its input or the inside of a frame. *)
Lemma unwrap_cases data :
  unwrap_mllp data = data
  ∨ ∃ p, data = MLLP_START ++ p ++ MLLP_END ∧ unwrap_mllp data = p.
Proof.
  unfold unwrap_mllp.
  destruct (Py.startswith data MLLP_START && Py.endswith data MLLP_END)
    eqn:Hf; [right|by left].
  destruct (framed_shape data Hf) as [p ->]. exists p. split; [done|].
  apply slice_strip_frame.
Qed.

(** X16. An ASCII order through the one read of the listener. The read
    returns at most 4096 bytes, the first ones of the frame that was sent.
    The record added, if the order is extracted, has the decoded text as its
    raw message. When the read returned the whole frame, which needs an
    order of at most 4093 bytes, that text is the text that was framed.
    For a longer order the read cannot return the whole frame, and
    whenever it returns a part only, the decoded text differs from the text
    that was framed (for a text that does not begin with the start byte, as
    no order does). *)
Theorem ascii_order_through_one_read queue env h text data :
  MessageQueue.wf queue h →
  Spec.is_ascii text = true →
  env_data env = Some data → data ≠ [] →
  data `prefix_of` wrap_mllp (MsgStr text) →
  (List.length data <= Spec.read_limit)%nat →
  env_drained env = true →
  let decoded := Utf8.decode_ignore (unwrap_mllp data) in
  (∀ pd,
     parse_order_message hl7_parse (unwrap_mllp data) (env_rnd_msg env)
       (env_rnd_filler env) = Some pd →
     MessageQueue.stored queue (handle_client hl7_parse queue env h).2
       (env_uuid env)
     = Some (mkStoredMessage (env_uuid env) decoded pd "pending"
               (env_now env) None None))
  ∧ (data = wrap_mllp (MsgStr text) →
     (String.length text <= 4093)%nat ∧ decoded = text)
  ∧ ((4093 < String.length text)%nat → data ≠ wrap_mllp (MsgStr text))
  ∧ (data ≠ wrap_mllp (MsgStr text) →
     head (Py.encode_utf8 text) ≠ Some x0b →
     decoded ≠ text).
Proof.
  intros Hwf Hascii Hdata Hne Hpre Hlen Hdrained decoded.
  assert (data = wrap_mllp (MsgStr text) →
          (String.length text <= 4093)%nat) as Hfits.
  { intros ->. rewrite frame_length in Hlen. unfold Spec.read_limit in Hlen.
    lia. }
  split; [|split; [|split]].
  - intros pd Hparse. unfold handle_client. rewrite Hdata.
    destruct data as [|b data]; [done|].
    destruct (ack_fields _ _ _) as [base_type msg_control_id].
    rewrite Hdrained, Hparse.
    destruct (add_message_effect queue h
                (Utf8.decode_ignore (unwrap_mllp (b :: data))) pd
                (env_uuid env) (env_now env) Hwf)
      as (h' & Hrun & Hnew & _).
    by rewrite Hrun.
  - intros Hwhole. split; [by apply Hfits|].
    unfold decoded. rewrite Hwhole, unwrap_wrap_str. by apply decode_ascii.
  - intros Hlong Hwhole. specialize (Hfits Hwhole). lia.
  - intros Hpart Hhead Hsame.
    assert (Forall (λ b, Utf8.between 0 127 b = true) data) as Hbytes.
    { destruct Hpre as [k Hk]. pose proof (frame_ascii text Hascii) as Hall.
      rewrite Hk in Hall. by apply Forall_app in Hall as [? _]. }
    assert (∀ u, Forall (λ b, Utf8.between 0 127 b = true) u →
                 Utf8.decode_ignore u = text → u = Py.encode_utf8 text)
      as Hinj.
    { intros u Hu Hdec. rewrite (decode_ascii_bytes u Hu) in Hdec.
      rewrite <- Hdec. unfold Py.encode_utf8.
      by rewrite list_byte_of_string_of_list_byte. }
    destruct (unwrap_cases data) as [Hu | (p & Hp & Hu)].
    + unfold decoded in Hsame. rewrite Hu in Hsame.
      apply (Hinj _ Hbytes) in Hsame.
      destruct data as [|b rest]; [done|].
      destruct Hpre as [k Hk]. unfold wrap_mllp, MLLP_START in Hk.
      simpl in Hk. injection Hk as <- _.
      apply Hhead. by rewrite <- Hsame.
    + unfold decoded in Hsame. rewrite Hu in Hsame.
      assert (Forall (λ b, Utf8.between 0 127 b = true) p) as Hp_bytes.
      { rewrite Hp in Hbytes. apply Forall_app in Hbytes as [_ Hrest].
        by apply Forall_app in Hrest as [? _]. }
      apply (Hinj _ Hp_bytes) in Hsame. apply Hpart.
      rewrite Hp, Hsame. reflexivity.
Qed.

End Listener_more.

Lemma handle_client_effect_witness :
  let result :=
    handle_client Sample.simple_parse Sample.queue
      (Sample.env (Sample.frame Sample.order_bmp)) Sample.heap in
  MessageQueue.wf Sample.queue Sample.heap
  ∧ length result.1 = 1
  ∧ (∃ pd, MessageQueue.stored Sample.queue result.2 "id-2"
           = Some (mkStoredMessage "id-2"
                     (Utf8.decode_ignore
                        (unwrap_mllp (Sample.frame Sample.order_bmp)))
                     pd "pending" "2025-01-01T12:00:00" None None))
  ∧ MessageQueue.stored Sample.queue result.2 "id-1" = Some Sample.record.
Proof.
  cbv zeta.
  destruct (handle_client_effect Sample.simple_parse Sample.queue
              (Sample.env (Sample.frame Sample.order_bmp))
              Sample.heap _ sample_heap_wf eq_refl)
    as (Hack & _ & Hother & Hnew); [done|].
  split; [exact sample_heap_wf|]. split; [by rewrite Hack|].
  split.
  - destruct (parse_order_message _ _ _ _) as [pd|] eqn:Hp.
    + exists pd. exact Hnew.
    + vm_compute in Hp. discriminate Hp.
  - rewrite (Hother "id-1"); [vm_compute; reflexivity|].
    intros Heq. discriminate Heq.
Defined.

Lemma ascii_order_through_one_read_witness :
  Spec.is_ascii Sample.order_bmp = true
  ∧ (List.length (Sample.frame Sample.order_bmp) <= Spec.read_limit)%nat
  ∧ MessageQueue.stored Sample.queue
      (handle_client Sample.simple_parse Sample.queue
         (Sample.env (Sample.frame Sample.order_bmp)) Sample.heap).2 "id-2"
    = Some (mkStoredMessage "id-2" Sample.order_bmp Sample.extracted_bmp
              "pending" "2025-01-01T12:00:00" None None).
Proof.
  assert (Spec.is_ascii Sample.order_bmp = true) as Hascii
    by (vm_compute; reflexivity).
  assert (List.length (Sample.frame Sample.order_bmp) <= Spec.read_limit)%nat
    as Hlen by (apply Nat.leb_le; vm_compute; reflexivity).
  assert (parse_order_message Sample.simple_parse
            (unwrap_mllp (Sample.frame Sample.order_bmp)) 33333 4444
          = Some Sample.extracted_bmp) as Hparse
    by (vm_compute; reflexivity).
  assert (Sample.frame Sample.order_bmp ≠ []) as Hne
    by (intros Heq; discriminate Heq).
  split; [exact Hascii|]. split; [exact Hlen|].
  destruct (ascii_order_through_one_read Sample.simple_parse Sample.queue
              (Sample.env (Sample.frame Sample.order_bmp)) Sample.heap
              Sample.order_bmp (Sample.frame Sample.order_bmp)
              sample_heap_wf Hascii eq_refl Hne (reflexivity _) Hlen eq_refl)
    as (Hst & Hwhole & _).
  destruct (Hwhole eq_refl) as [_ Hdec].
  exact (eq_trans (Hst _ Hparse)
           (f_equal (λ t, Some (mkStoredMessage "id-2" t Sample.extracted_bmp
                                  "pending" "2025-01-01T12:00:00" None None))
              Hdec)).
Defined.


(** ** Result composition, continued *)

Section Composition_more.

Implicit Types (values : gmap string spec_float).

Local Abbreviation no_cr := (λ x : string, PyStr.contains "013" x = false).

Lemma digit_no_cr c : Spec.is_digit c = true → Ascii.eqb c "013" = false.
Proof.
  intros Hd. destruct (Ascii.eqb c "013") eqn:E; [|done].
  apply Ascii.eqb_eq in E. by subst c.
Qed.

Lemma digits_no_cr s : Spec.all_digits s = true → no_cr s.
Proof.
  induction s as [|c s IH]; [done|]. simpl.
  intros [Hc Hs]%andb_true_iff. by rewrite (digit_no_cr _ Hc), (IH Hs).
Qed.

Lemma fixed2_no_cr h : no_cr (PyFloat.fixed2 h).
Proof.
  unfold PyFloat.fixed2. rewrite !contains_app.
  rewrite (digits_no_cr _ (of_N_digits _)). simpl.
  rewrite !digit_no_cr; [done|apply digit_is_digit..].
  - apply N.mod_lt. done.
  - apply N.Div0.div_lt_upper_bound.
    pose proof (N.mod_lt h 100). lia.
Qed.

Lemma format_2f_no_cr x : no_cr (PyFloat.format_2f x).
Proof.
  destruct x as [s|s| |s m e]; unfold PyFloat.format_2f; cbv beta;
    [by destruct s | by destruct s | done |].
  rewrite contains_app, fixed2_no_cr. by destruct s.
Qed.

Lemma abnormal_flag_no_cr i : no_cr (abnormal_flag i).
Proof.
  unfold abnormal_flag. cbv zeta.
  repeat match goal with
  | |- context [PyStr.mem ?k ?l] => destruct (PyStr.mem k l)
  end; reflexivity.
Qed.

Lemma dict_get_In {V} (d : list (string * V)) k v :
  dict_get d k = Some v → In (k, v) d.
Proof.
  induction d as [|[k' v'] d IH]; [done|]. simpl.
  destruct (String.eqb k' k) eqn:E.
  - apply String.eqb_eq in E as ->. intros [= ->]. by left.
  - intros H. right. by apply IH.
Qed.

(** No text of the table holds a carriage return. *)
Lemma table_no_cr test_id field :
  field ∈ get_observation_fields test_id →
  no_cr (fld_id field) ∧ no_cr (fld_name field) ∧ no_cr (fld_unit field)
  ∧ no_cr (fld_reference field).
Proof.
  unfold get_observation_fields.
  destruct (dict_get test_fields (PyStr.strip test_id)) as [fields|] eqn:Hg;
    simpl; [|by intros ?%elem_of_nil].
  apply dict_get_In in Hg. intros Hin%list_elem_of_In.
  assert (forallb (λ kv : string * list ObsField,
            forallb (λ f, negb (PyStr.contains "013"
                                  (fld_id f +:+ fld_name f +:+ fld_unit f
                                   +:+ fld_reference f))) kv.2)
            test_fields = true) as Hall by (vm_compute; reflexivity).
  rewrite forallb_forall in Hall. specialize (Hall _ Hg). simpl in Hall.
  rewrite forallb_forall in Hall. specialize (Hall _ Hin).
  apply negb_true_iff in Hall. rewrite !contains_app in Hall.
  repeat (apply orb_false_iff in Hall as [? Hall]). done.
Qed.

Lemma observation_segments_no_cr values texts ts test_id :
  no_cr ts → ∀ fields idx,
  (∀ f, f ∈ fields → f ∈ get_observation_fields test_id) →
  Forall no_cr (observation_segments_from values texts ts idx fields).
Proof.
  intros Hts. induction fields as [|f fields IH]; intros idx Hsub;
    [constructor|].
  simpl. constructor.
  - destruct (table_no_cr test_id f) as (H1 & H2 & H3 & H4).
    { apply Hsub. by left. }
    unfold observation_segment, obx_segment. cbv beta zeta.
    rewrite !contains_app.
    rewrite (digits_no_cr _ (of_N_digits _)), H1, H2, H3, H4, Hts.
    by rewrite format_2f_no_cr, abnormal_flag_no_cr.
  - apply IH. intros g Hg. apply Hsub. by right.
Qed.

Lemma order_segments_no_cr pd ts :
  Forall no_cr (ts :: Spec.order_texts pd) →
  Forall no_cr (order_segments pd ts).
Proof.
  intros Hall. unfold Spec.order_texts in Hall.
  repeat (apply Forall_cons in Hall as [? Hall]).
  unfold order_segments.
  destruct (PyStr.nonempty (encounter_id pd));
    destruct (PyStr.nonempty (test_system pd)); simpl;
    repeat constructor; cbv beta; rewrite !contains_app;
    repeat match goal with
    | H : PyStr.contains _ ?x = false |- context [PyStr.contains _ ?x] =>
        rewrite H
    end; reflexivity.
Qed.

Lemma order_segments_length pd ts :
  length (order_segments pd ts)
  = 4 + (if PyStr.nonempty (encounter_id pd) then 1 else 0).
Proof.
  unfold order_segments. by destruct (PyStr.nonempty (encounter_id pd)).
Qed.

(** X17. When the timestamp and the texts of the order hold no carriage
    return, the composed message splits at the carriage returns into
    exactly the segments it was joined from: header, patient, the visit
    segment when there is an encounter id, order control, order detail,
    and one observation segment per table entry. No value, flag or table
    text adds a segment. *)
Theorem result_message_splits pd values interps ts :
  Forall (λ x, PyStr.contains "013" x = false) (ts :: Spec.order_texts pd) →
  PyStr.split "013" (create_result_message pd values interps ts)
  = result_segments pd values interps ts
  ∧ length (result_segments pd values interps ts)
    = 4 + (if PyStr.nonempty (encounter_id pd) then 1 else 0)
      + length (get_observation_fields (test_id pd)).
Proof.
  intros Hall. split.
  - unfold create_result_message. apply split_join.
    + unfold result_segments, order_segments. done.
    + unfold result_segments. apply Forall_app. split.
      * by apply order_segments_no_cr.
      * apply (observation_segments_no_cr _ _ _ (test_id pd)); [|done].
        by apply Forall_cons in Hall as [? _].
  - unfold result_segments.
    by rewrite length_app, order_segments_length,
      observation_segments_length.
Qed.

Lemma result_message_splits_witness :
  Forall (λ x, PyStr.contains "013" x = false)
    (Sample.stamp :: Spec.order_texts (Sample.order "BMP"))
  ∧ length (PyStr.split "013"
              (create_result_message (Sample.order "BMP") Sample.values
                 (Some Sample.texts) Sample.stamp)) = 9.
Proof.
  assert (Forall (λ x, PyStr.contains "013" x = false)
            (Sample.stamp :: Spec.order_texts (Sample.order "BMP"))) as Hall
    by (by repeat constructor).
  split; [exact Hall|].
  destruct (result_message_splits (Sample.order "BMP") Sample.values
              (Some Sample.texts) Sample.stamp Hall) as [Hsplit Hlen].
  rewrite Hsplit, Hlen. reflexivity.
Defined.

Lemma order_detail_segment pd ts :
  last (order_segments pd ts)
  = Some ("OBR|1|" +:+ placer_order pd +:+ "|" +:+ filler_order pd +:+ "|"
          +:+ Spec.test_code_text pd +:+ "|||" +:+ ts +:+ "|||||||" +:+ ts
          +:+ "|||" +:+ ordering_provider pd +:+ "||||||||F").
Proof.
  unfold order_segments, Spec.test_code_text.
  destruct (PyStr.nonempty (encounter_id pd));
    destruct (PyStr.nonempty (test_system pd)); simpl; f_equal;
    rewrite <- !string_app_assoc; reflexivity.
Qed.

Lemma test_code_text_split pd :
  PyStr.contains "^" (test_id pd) = false →
  PyStr.contains "^" (test_name pd) = false →
  PyStr.contains "^" (test_system pd) = false →
  PyStr.split "^" (Spec.test_code_text pd)
  = test_id pd :: test_name pd
    :: (if PyStr.nonempty (test_system pd) then [test_system pd] else []).
Proof.
  intros Hid Hname Hsys. unfold Spec.test_code_text.
  change (test_id pd +:+ "^" +:+ ?x) with (test_id pd +:+ String "^" x).
  rewrite (split_app _ _ _ Hid).
  destruct (PyStr.nonempty (test_system pd)).
  - change (test_name pd +:+ "^" +:+ ?x) with (test_name pd +:+ String "^" x).
    rewrite (split_app _ _ _ Hname). by rewrite (split_no_sep _ _ Hsys).
  - assert (∀ x : string, x +:+ "" = x) as Hnil.
    { induction x as [|c x IH]; [done|]. rewrite append_cons. by rewrite IH. }
    rewrite Hnil. by rewrite (split_no_sep _ _ Hname).
Qed.

Lemma order_segments_not_observations pd ts :
  List.filter Spec.is_observation (order_segments pd ts) = [].
Proof.
  unfold order_segments.
  destruct (PyStr.nonempty (encounter_id pd));
    destruct (PyStr.nonempty (test_system pd)); reflexivity.
Qed.

Lemma prefix_app p s : String.prefix p (p +:+ s) = true.
Proof.
  induction p as [|a p IH]; [by destruct s|].
  rewrite append_cons. simpl. by destruct (ascii_dec a a).
Qed.

Lemma observation_segments_observations values texts ts fields : ∀ idx,
  List.filter Spec.is_observation
    (observation_segments_from values texts ts idx fields)
  = observation_segments_from values texts ts idx fields.
Proof.
  induction fields as [|f fields IH]; intros idx; [done|].
  cbn [observation_segments_from List.filter].
  assert (Spec.is_observation (observation_segment values texts ts idx f)
          = true) as ->.
  { unfold Spec.is_observation, observation_segment, obx_segment.
    apply prefix_app. }
  by rewrite IH.
Qed.

(** The composed message is the join of the order segments and the
    observation segments of the table entries; without a carriage return in
    the order texts, these are the segments it splits into, and the
    observation segments among them are those of the table entries. *)
Lemma observations_in_message pd values interps ts :
  let obx :=
    observation_segments_from values (default ∅ interps) ts 1
      (get_observation_fields (test_id pd)) in
  create_result_message pd values interps ts
  = PyStr.join PyStr.CR (order_segments pd ts ++ obx)
  ∧ (Forall no_cr (ts :: Spec.order_texts pd) →
     PyStr.split "013" (create_result_message pd values interps ts)
     = order_segments pd ts ++ obx
     ∧ List.filter Spec.is_observation
         (PyStr.split "013" (create_result_message pd values interps ts))
       = obx).
Proof.
  cbv zeta. split; [reflexivity|]. intros Hall.
  assert (PyStr.split "013" (create_result_message pd values interps ts)
          = order_segments pd ts
            ++ observation_segments_from values (default ∅ interps) ts 1
                 (get_observation_fields (test_id pd))) as Hsplit.
  { unfold create_result_message, result_segments. apply split_join.
    - unfold order_segments. done.
    - apply Forall_app. split.
      + by apply order_segments_no_cr.
      + apply (observation_segments_no_cr _ _ _ (test_id pd)); [|done].
        by apply Forall_cons in Hall as [? _]. }
  split; [exact Hsplit|].
  rewrite Hsplit, List.filter_app, order_segments_not_observations.
  apply observation_segments_observations.
Qed.

(** C9, as the code has it. For a known test code the composed message is
    the carriage-return join of the order segments and one observation
    segment per table entry, in table order, numbered from 1; when the
    timestamp and the texts of the order hold no carriage return, these are
    exactly the observation segments the message splits into. Each carries
    the value of the values map ([0.0] when absent) in the [.2f] format,
    which has exactly two decimal places for every finite value and is
    [nan], [inf] or [-inf] for the others, and the flag of the
    interpretation text (['Normal'] when absent), matched in lower case
    against the synonym lists, [N] when it is in none. For test code
    ["1554-5"] there is one observation segment. *)
Theorem composed_observations pd values interps ts fields :
  dict_get test_fields (PyStr.strip (test_id pd)) = Some fields →
  ∃ obx,
    create_result_message pd values interps ts
    = PyStr.join PyStr.CR (order_segments pd ts ++ obx)
    ∧ (Forall (λ x, PyStr.contains "013" x = false)
         (ts :: Spec.order_texts pd) →
       List.filter Spec.is_observation
         (PyStr.split "013" (create_result_message pd values interps ts))
       = obx)
    ∧ length obx = length fields
    ∧ (∀ k field, fields !! k = Some field →
         let value := default PyFloat.zero (values !! fld_id field) in
         let interpretation :=
           default "Normal" (default ∅ interps !! fld_id field) in
         obx !! k
         = Some ("OBX|" +:+ PyStr.of_N (N.of_nat (S k)) +:+ "|NM|"
                 +:+ fld_id field +:+ "^" +:+ fld_name field
                 +:+ "^http://loinc.org||" +:+ PyFloat.format_2f value
                 +:+ "|" +:+ fld_unit field +:+ "|" +:+ fld_reference field
                 +:+ "|" +:+ abnormal_flag interpretation
                 +:+ "|||F|||" +:+ ts +:+ "||||||"))
    ∧ (∀ x, PyFloat.is_finite x = true →
            Spec.two_decimals (PyFloat.format_2f x) = true)
    ∧ (∀ x, PyFloat.is_finite x = false →
            PyFloat.format_2f x ∈ ["nan"; "inf"; "-inf"]
            ∧ Spec.two_decimals (PyFloat.format_2f x) = false)
    ∧ (∀ i, let k := PyStr.lower i in
            (k ∈ ["normal"; "n"] → abnormal_flag i = "N")
            ∧ (k ∈ ["abnormal"; "a"] → abnormal_flag i = "A")
            ∧ (k ∈ ["high"; "h"] → abnormal_flag i = "H")
            ∧ (k ∈ ["low"; "l"] → abnormal_flag i = "L")
            ∧ (k ∈ ["critical"; "critical high"; "hh"] →
               abnormal_flag i = "HH")
            ∧ (k ∈ ["critical low"; "ll"] → abnormal_flag i = "LL")
            ∧ (k ∉ ["normal"; "n"; "abnormal"; "a"; "high"; "h"; "low";
                     "l"; "critical"; "critical high"; "hh";
                     "critical low"; "ll"] →
               abnormal_flag i = "N"))
    ∧ (PyStr.strip (test_id pd) = "1554-5" → length obx = 1).
Proof.
  intros Hfields.
  assert (get_observation_fields (test_id pd) = fields) as Hget
    by (unfold get_observation_fields; by rewrite Hfields).
  destruct (observations_in_message pd values interps ts) as [Hjoin Hsplit].
  rewrite Hget in Hjoin, Hsplit.
  exists (observation_segments_from values (default ∅ interps) ts 1 fields).
  split; [exact Hjoin|]. split; [intros Hall; by apply Hsplit|].
  split; [apply observation_segments_length|].
  split; [|split; [|split; [|split]]].
  - intros k field Hk. simpl.
    rewrite observation_segments_lookup, Hk. reflexivity.
  - apply format_2f_finite.
  - intros x Hx. split; [|by apply format_2f_not_finite].
    destruct x as [s|s| |s m e]; try discriminate Hx.
    + destruct s; simpl; by repeat constructor.
    + simpl. by repeat constructor.
  - apply abnormal_flag_table.
  - intros Hcode. rewrite Hcode in Hfields. injection Hfields as <-.
    reflexivity.
Qed.

(** The basic metabolic panel with one value and one interpretation
    supplied. *)
Lemma composed_observations_witness :
  is_Some (dict_get test_fields (PyStr.strip (test_id (Sample.order " BMP"))))
  ∧ ∃ obx,
      create_result_message (Sample.order " BMP") Sample.values
        (Some Sample.texts) Sample.stamp
      = PyStr.join PyStr.CR
          (order_segments (Sample.order " BMP") Sample.stamp ++ obx)
      ∧ List.filter Spec.is_observation
          (PyStr.split "013"
             (create_result_message (Sample.order " BMP") Sample.values
                (Some Sample.texts) Sample.stamp))
        = obx
      ∧ length obx = 5
      ∧ obx !! 0
        = Some ("OBX|1|NM|2345-7^Glucose^http://loinc.org||92.50|mg/dL|70-100"
                +:+ "|H|||F|||20250101120000||||||")
      ∧ obx !! 4
        = Some ("OBX|5|NM|2823-3^Potassium^http://loinc.org||0.00|mmol/L"
                +:+ "|3.5-5.0|N|||F|||20250101120000||||||").
Proof.
  split; [by eexists|].
  destruct (composed_observations (Sample.order " BMP") Sample.values
              (Some Sample.texts) Sample.stamp _ eq_refl)
    as (obx & H1 & H2 & H3 & H4 & _).
  exists obx. split; [exact H1|].
  split; [apply H2; by repeat constructor|]. split; [exact H3|].
  split; [exact (H4 0 _ eq_refl) | exact (H4 4 _ eq_refl)].
Defined.

(** Why the order texts must hold no carriage return: one in the patient
    name, followed by [OBX|], gives the message of test code ["1554-5"] two
    observation segments. *)
Example carriage_return_adds_a_segment :
  let pd :=
    mkParsedData "APP" "FAC" "MC1" "P1" ("DOE" +:+ PyStr.CR +:+ "OBX|9|ST|x")
      "" "F" "" "" "" "PL1" "FL1" "" "1554-5" "Glucose" "" in
  length (get_observation_fields (test_id pd)) = 1
  ∧ length (List.filter Spec.is_observation
              (PyStr.split "013"
                 (create_result_message pd ∅ None Sample.stamp))) = 2.
Proof. vm_compute. split; reflexivity. Qed.

End Composition_more.


(** ** From an order to its result and back *)

Section Round_trip.

Import HL7.

(** X18. The test identification survives the trip through a result
    message. For an extracted order, the order-detail segment composed for
    the result carries the test id, name and coding system in field 4, and
    an extraction from any message whose order-detail field 4 holds that
    text yields the same three values. *)
Theorem test_code_round_trip parsed pd parsed' pd' rm rf rm' rf' :
  extract_order parsed rm rf = Some pd →
  Spec.field_at parsed' "OBR" 4 = Some (Spec.test_code_text pd) →
  extract_order parsed' rm' rf' = Some pd' →
  (∀ ts,
     last (order_segments pd ts)
     = Some ("OBR|1|" +:+ placer_order pd +:+ "|" +:+ filler_order pd
             +:+ "|" +:+ Spec.test_code_text pd +:+ "|||" +:+ ts
             +:+ "|||||||" +:+ ts +:+ "|||" +:+ ordering_provider pd
             +:+ "||||||||F"))
  ∧ test_id pd' = test_id pd
  ∧ test_name pd' = test_name pd
  ∧ test_system pd' = test_system pd.
Proof.
  intros Hex Hfield Hex'.
  split; [intros ts; apply order_detail_segment|].
  destruct (extracted_components _ _ _ _ Hex)
    as (s & _ & _ & _ & _ & _ & Hid & Hname & Hsys).
  destruct (extracted_components _ _ _ _ Hex')
    as (s' & Hs' & _ & Hid' & Hname' & Hsys' & _).
  rewrite Hfield in Hs'. injection Hs' as <-.
  rewrite (test_code_text_split _ Hid Hname Hsys) in Hid', Hname', Hsys'.
  simpl in Hid', Hname'. injection Hid' as ->.
  split; [done|]. split; [done|]. rewrite Hsys'.
  destruct (test_system pd); reflexivity.
Qed.

Lemma test_code_round_trip_witness :
  extract_order Sample.parsed_empty_header 12345 6789
  = Some Sample.extracted_empty_header
  ∧ ∃ pd',
      extract_order [Sample.seg ["OBR"; "9"; ""; ""; "BMP^Basic"]] 1 2
      = Some pd'
      ∧ test_id pd' = "BMP" ∧ test_name pd' = "Basic" ∧ test_system pd' = "".
Proof.
  split; [reflexivity|].
  destruct (extract_order [Sample.seg ["OBR"; "9"; ""; ""; "BMP^Basic"]] 1 2)
    as [pd'|] eqn:Hex'.
  - exists pd'. split; [reflexivity|].
    exact (proj2 (test_code_round_trip Sample.parsed_empty_header
                    Sample.extracted_empty_header
                    [Sample.seg ["OBR"; "9"; ""; ""; "BMP^Basic"]] pd'
                    12345 6789 1 2 eq_refl eq_refl Hex')).
  - vm_compute in Hex'. discriminate Hex'.
Defined.

End Round_trip.

(** ** The review routes *)

Section Routes_facts.

Variable py_float : string → option spec_float.

Import MessageQueue.
Implicit Types (q : MessageQueue) (h : Heap) (r : StoredMessage).
Implicit Types (values : gmap string spec_float).

Lemma wf_lookup q h id :
  wf q h →
  ∃ d, dicts h !! _messages q = Some d
       ∧ match d !! id with
         | Some l => ∃ r, records h !! l = Some r ∧ stored q h id = Some r
         | None => stored q h id = None
         end.
Proof.
  intros (d & Hd & Hwf). exists d. split; [done|].
  rewrite (stored_eq _ _ _ _ Hd).
  destruct (d !! id) as [l|] eqn:Hl; [|done].
  destruct (Hwf _ _ Hl) as [r Hr]. by exists r.
Qed.

Lemma update_status_others q h id s rm now found h' :
  wf q h → separate q h →
  update_status q id s rm now h = Some (found, h') →
  ∀ id', id' ≠ id → stored q h' id' = stored q h id'.
Proof.
  intros (d & Hd & Hwf) Hsep Hrun id' Hne. unfold update_status in Hrun.
  rewrite Hd in Hrun. simpl in Hrun.
  destruct (d !! id) as [l|] eqn:Hl.
  - destruct (Hwf _ _ Hl) as [r Hr]. rewrite Hr in Hrun. simpl in Hrun.
    injection Hrun as <- <-.
    rewrite !(stored_eq _ _ d) by done.
    destruct (d !! id') as [l'|] eqn:Hl'; [|done].
    simpl. apply lookup_insert_ne. intros <-.
    apply Hne. by apply (Hsep d id' id l).
  - by injection Hrun as <- <-.
Qed.

Lemma update_status_no_result q h id s now found h' :
  Spec.no_result q h →
  update_status q id s None now h = Some (found, h') →
  Spec.no_result q h'.
Proof.
  intros Hinv Hrun id' r' Hst. unfold update_status in Hrun.
  destruct (dicts h !! _messages q) as [d|] eqn:Hd; simpl in Hrun; [|done].
  destruct (d !! id) as [l|] eqn:Hl.
  - destruct (records h !! l) as [r|] eqn:Hr; simpl in Hrun; [|done].
    injection Hrun as <- <-.
    destruct (stored_inv _ _ _ _ Hst) as (d' & l' & Hd' & Hl' & Hr').
    simpl in Hd', Hr'. rewrite Hd in Hd'. injection Hd' as <-.
    destruct (decide (l' = l)) as [->|Hne].
    + rewrite lookup_insert_eq in Hr'. injection Hr' as Heq.
      rewrite <- Heq.
      change (msg_result_message (updated s None now r) = None).
      rewrite updated_result_message.
      apply (Hinv id). by rewrite (stored_intro _ _ _ d l).
    + rewrite lookup_insert_ne in Hr' by done.
      apply (Hinv id'). by rewrite (stored_intro _ _ _ d l').
  - injection Hrun as <- <-. by apply (Hinv id').
Qed.

Lemma clear_processed_stored q h n h' :
  clear_processed q h = Some (n, h') →
  ∀ id r, stored q h' id = Some r → stored q h id = Some r.
Proof.
  unfold clear_processed.
  destruct (dicts h !! _messages q) as [d|] eqn:Hd; simpl; [|done].
  intros [= <- <-] id r Hst.
  destruct (stored_inv _ _ _ _ Hst) as (d' & l & Hd' & Hl & Hr).
  simpl in Hd', Hr. rewrite lookup_insert_eq in Hd'. injection Hd' as <-.
  rewrite cleared_lookup in Hl.
  destruct (d !! id) as [l0|] eqn:Hl0; simpl in Hl; [|done].
  destruct (has_terminal_status h l0); [done|]. injection Hl as ->.
  by rewrite (stored_intro _ _ _ d l).
Qed.

Lemma submit_not_pending q id form ts peer now h :
  wf q h →
  (∀ r, stored q h id = Some r → msg_status r ≠ "pending") →
  process_message_submit py_float q id form ts peer now h
  = Some (match stored q h id with
          | Some _ =>
              mkRedirect "Message has already been processed or discarded"
                "warning" Index
          | None => mkRedirect "Message not found" "error" Index
          end, [], h).
Proof.
  intros Hwf Hnp. destruct (wf_lookup q h id Hwf) as (d & Hd & Hl).
  unfold process_message_submit, get_message. rewrite Hd.
  cbn [mbind option_bind].
  destruct (d !! id) as [l|].
  - destruct Hl as (r & Hr & Hst). rewrite Hr, Hst. cbn [mbind option_bind].
    destruct (String.eqb_spec (msg_status r) "pending") as [Heq|Hne];
      [by destruct (Hnp r Hst) | done].
  - by rewrite Hl.
Qed.

Lemma submit_pending q id form ts peer now h r :
  stored q h id = Some r → msg_status r = "pending" →
  process_message_submit py_float q id form ts peer now h
  = match collect_values py_float form
            (get_observation_fields (test_id (msg_parsed_data r))) ∅ with
    | inr field =>
        Some (mkRedirect ("Invalid value for " +:+ fld_name field) "error"
                (ProcessForm id), [], h)
    | inl values =>
        let sent :=
          send_result peer
            (MsgStr (create_result_message (msg_parsed_data r) values None
                       ts)) in
        if sent.1
        then
          '(_, h') ← update_status q id "processed" None now h;
          Some (mkRedirect "Message processed and sent successfully!"
                  "success" Index, sent.2, h')
        else
          Some (mkRedirect "Failed to send message to MLLP server" "error"
                  Index, sent.2, h)
    end.
Proof.
  intros Hst Hp. destruct (stored_inv _ _ _ _ Hst) as (d & l & Hd & Hl & Hr).
  unfold process_message_submit, get_message. rewrite Hd.
  cbn [mbind option_bind]. rewrite Hl, Hr. cbn [mbind option_bind].
  rewrite Hp. change (negb ("pending" =? "pending")%string) with false.
  cbv iota.
  destruct (collect_values _ _ _ _) as [values|field]; [|reflexivity].
  cbv zeta. by destruct (send_result _ _) as [[] trace].
Qed.

(** X19. [process_message_submit] acts on pending orders only. For an id
    that is not held, or whose record has any other status, nothing is sent
    downstream, the heap is unchanged and the reply is a redirect to the
    index with an error or a warning. *)
Theorem submit_needs_pending q id form ts peer now h :
  wf q h →
  (∀ r, stored q h id = Some r → msg_status r ≠ "pending") →
  ∃ red,
    process_message_submit py_float q id form ts peer now h
    = Some (red, [], h)
    ∧ target red = Index
    ∧ flash_category red
      = match stored q h id with Some _ => "warning" | None => "error" end.
Proof.
  intros Hwf Hnp. eexists. split; [by apply submit_not_pending|].
  by destruct (stored q h id).
Qed.

(** X20. A value that [float] rejects stops the submission before anything
    is composed or sent: the heap is unchanged, so the order stays pending,
    and the reply leads back to the form, naming the field. *)
Theorem submit_invalid_value q id form ts peer now h r field :
  stored q h id = Some r → msg_status r = "pending" →
  collect_values py_float form
    (get_observation_fields (test_id (msg_parsed_data r))) ∅ = inr field →
  process_message_submit py_float q id form ts peer now h
  = Some (mkRedirect ("Invalid value for " +:+ fld_name field) "error"
            (ProcessForm id), [], h).
Proof.
  intros Hst Hp Hbad. rewrite (submit_pending _ _ _ _ _ _ _ _ Hst Hp).
  by rewrite Hbad.
Qed.

(** X21. When [send_result] returns [False] (the connection failed, the
    acknowledgement timed out, or another call raised), the order is left
    as it was: the heap is unchanged and the record is still pending, so
    the submission can be repeated. One connection attempt was made. *)
Theorem submit_failed_send q id form ts peer now h r values :
  stored q h id = Some r → msg_status r = "pending" →
  collect_values py_float form
    (get_observation_fields (test_id (msg_parsed_data r))) ∅ = inl values →
  (send_result peer
     (MsgStr (create_result_message (msg_parsed_data r) values None ts))).1
  = false →
  ∃ trace,
    process_message_submit py_float q id form ts peer now h
    = Some (mkRedirect "Failed to send message to MLLP server" "error" Index,
            trace, h)
    ∧ connects trace = 1
    ∧ msg_status <$> stored q h id = Some "pending".
Proof.
  intros Hst Hp Hval Hsent. rewrite (submit_pending _ _ _ _ _ _ _ _ Hst Hp).
  rewrite Hval. cbv zeta. rewrite Hsent. eexists. split; [reflexivity|].
  split; [apply send_result_one_attempt|]. by rewrite Hst, <- Hp.
Qed.

(** X22. When [send_result] returns [True], the order is marked processed
    and stamped with the clock value; the result text is not recorded (the
    record's result stays what it was); the frame handed to the sender is
    the MLLP frame of the composed message, with no interpretations; the
    other orders are untouched; and a second submission for the same id
    sends nothing. *)
Theorem submit_sent_marks_processed q id form ts peer now h r values :
  wf q h →
  stored q h id = Some r → msg_status r = "pending" →
  collect_values py_float form
    (get_observation_fields (test_id (msg_parsed_data r))) ∅ = inl values →
  let message :=
    create_result_message (msg_parsed_data r) values None ts in
  (send_result peer (MsgStr message)).1 = true →
  ∃ h',
    process_message_submit py_float q id form ts peer now h
    = Some (mkRedirect "Message processed and sent successfully!" "success"
              Index,
            [Connect; Write (wrap_mllp (MsgStr message)); ReadAck; Close], h')
    ∧ stored q h' id
      = Some (set_processed_at (Some now) (set_status "processed" r))
    ∧ wf q h'
    ∧ (separate q h → ∀ id', id' ≠ id → stored q h' id' = stored q h id')
    ∧ (∀ form' ts' peer' now',
         process_message_submit py_float q id form' ts' peer' now' h'
         = Some (mkRedirect
                   "Message has already been processed or discarded"
                   "warning" Index, [], h')).
Proof.
  intros Hwf Hst Hp Hval message Hsent.
  destruct (update_status_present q h id r "processed" None now Hst)
    as (h' & Hrun & Hst').
  assert (wf q h') as Hwf' by (by apply (wf_update_status _ _ _ _ _ _ _ _ Hwf Hrun)).
  exists h'. split; [|split; [exact Hst'|split; [exact Hwf'|split]]].
  - rewrite (submit_pending _ _ _ _ _ _ _ _ Hst Hp), Hval. cbv zeta.
    fold message. rewrite Hsent, Hrun. cbn [mbind option_bind].
    do 3 f_equal.
    pose proof Hsent as Hfull. unfold send_result in Hfull |- *.
    destruct (open_connection peer) as [[]| |]; try done.
    destruct (drain peer) as [[]| |]; try done.
    destruct (read_ack peer) as [ack| |]; try done.
    by destruct (wait_closed peer) as [[]| |].
  - intros Hsep. by apply (update_status_others _ _ _ _ _ _ _ _ Hwf Hsep Hrun).
  - intros form' ts' peer' now'.
    rewrite submit_not_pending; [by rewrite Hst'|done|].
    intros r' Hr'. rewrite Hst' in Hr'. by injection Hr' as <-.
Qed.

(** X23. [discard_message] has no guard on the status: an order that is
    held, pending or not, becomes discarded and is stamped with the clock
    value, a processed one included; an id that is not held gives
    ["Message not found"] and changes nothing. Afterwards a submission for
    that id sends nothing. *)
Theorem discard_message_effect q id now h :
  wf q h →
  ∃ red h',
    discard_message q id now h = Some (red, h')
    ∧ target red = Index
    ∧ wf q h'
    ∧ match stored q h id with
      | Some r =>
          red = mkRedirect "Message discarded successfully" "success" Index
          ∧ stored q h' id
            = Some (set_processed_at (Some now) (set_status "discarded" r))
      | None =>
          red = mkRedirect "Message not found" "error" Index ∧ h' = h
      end
    ∧ (∀ form ts peer now',
         ∃ red',
           process_message_submit py_float q id form ts peer now' h'
           = Some (red', [], h')).
Proof.
  intros Hwf. unfold discard_message.
  destruct (stored q h id) as [r|] eqn:Hst.
  - destruct (update_status_present q h id r "discarded" None now Hst)
      as (h' & Hrun & Hst').
    assert (wf q h') as Hwf'
      by (by apply (wf_update_status _ _ _ _ _ _ _ _ Hwf Hrun)).
    exists (mkRedirect "Message discarded successfully" "success" Index), h'.
    rewrite Hrun. split; [done|]. split; [done|]. split; [done|].
    split; [by split|].
    intros form ts peer now'. eexists. apply submit_not_pending; [done|].
    intros r' Hr'. rewrite Hst' in Hr'. by injection Hr' as <-.
  - destruct (wf_lookup q h id Hwf) as (d & Hd & Hl).
    destruct (d !! id) as [l|] eqn:Hdl.
    { destruct Hl as (r & _ & Hr). congruence. }
    rewrite (update_status_absent _ _ _ _ _ _ _ Hd Hdl).
    exists (mkRedirect "Message not found" "error" Index), h.
    split; [done|]. split; [done|]. split; [done|]. split; [done|].
    intros form ts peer now'. eexists. apply submit_not_pending; [done|].
    intros r'. by rewrite Hst.
Qed.

(** X24. [process_message_form] shows the form exactly for a pending
    order. The page gets the record itself, the table entries of the
    order's test code and the code; for any other id the reply is a
    redirect to the index. The heap is never changed. *)
Theorem form_shown_iff_pending q id h :
  wf q h →
  ∃ reply,
    process_message_form q id h = Some (reply, h)
    ∧ match reply with
      | FormPage l obs_fields shown =>
          ∃ r, records h !! l = Some r ∧ stored q h id = Some r
               ∧ msg_status r = "pending"
               ∧ shown = test_id (msg_parsed_data r)
               ∧ obs_fields = get_observation_fields shown
      | FormRedirect red =>
          target red = Index
          ∧ flash_category red
            = match stored q h id with
              | Some _ => "warning"
              | None => "error"
              end
          ∧ ∀ r, stored q h id = Some r → msg_status r ≠ "pending"
      end.
Proof.
  intros Hwf. destruct (wf_lookup q h id Hwf) as (d & Hd & Hl).
  unfold process_message_form, get_message. rewrite Hd.
  cbn [mbind option_bind].
  destruct (d !! id) as [l|].
  - destruct Hl as (r & Hr & Hst). rewrite Hr, Hst. cbn [mbind option_bind].
    destruct (String.eqb_spec (msg_status r) "pending") as [Heq|Hne].
    + eexists. split; [reflexivity|]. by exists r.
    + eexists. split; [reflexivity|]. split; [done|]. split; [done|].
      by intros r' [= <-].
  - rewrite Hl. eexists. split; [reflexivity|]. done.
Qed.

Lemma collect_values_cons form field rest acc :
  collect_values py_float form (field :: rest) acc
  = match Spec.entered form (fld_id field) with
    | Some v =>
        match py_float v with
        | Some x => collect_values py_float form rest (<[fld_id field := x]> acc)
        | None => inr field
        end
    | None => collect_values py_float form rest acc
    end.
Proof.
  simpl. unfold Spec.entered.
  destruct (form !! ("obs_" +:+ fld_id field)) as [v|]; simpl; [|done].
  by destruct (PyStr.nonempty v).
Qed.

Lemma collect_values_inl form : ∀ fields acc values,
  collect_values py_float form fields acc = inl values →
  (∀ f v, f ∈ fields → Spec.entered form (fld_id f) = Some v →
          is_Some (py_float v))
  ∧ ∀ k, values !! k
         = if bool_decide (k ∈ fld_id <$> fields)
           then match Spec.entered form k with
                | Some v => py_float v
                | None => acc !! k
                end
           else acc !! k.
Proof.
  induction fields as [|f fields IH]; intros acc values.
  - intros [= <-]. split; [by intros f v Hin%elem_of_nil|].
    intros k. rewrite bool_decide_eq_false_2; [done|]. apply not_elem_of_nil.
  - rewrite collect_values_cons.
    assert (∀ k, k ≠ fld_id f →
              bool_decide (k ∈ fld_id <$> f :: fields)
              = bool_decide (k ∈ fld_id <$> fields)) as Hother.
    { intros k Hne. apply bool_decide_ext. rewrite fmap_cons, elem_of_cons.
      intuition congruence. }
    assert (bool_decide (fld_id f ∈ fld_id <$> f :: fields) = true) as Hhere.
    { apply bool_decide_eq_true_2. rewrite fmap_cons. by left. }
    destruct (Spec.entered form (fld_id f)) as [v|] eqn:He;
      [destruct (py_float v) as [x|] eqn:Hx; [|done]|];
      intros [Hall Hval]%IH; split.
    + intros g w [->|Hin]%elem_of_cons Hg; [|by apply (Hall g w)].
      assert (w = v) as -> by congruence. rewrite Hx. by eexists.
    + intros k. rewrite Hval. destruct (decide (k = fld_id f)) as [->|Hne].
      * rewrite Hhere, He.
        destruct (bool_decide (fld_id f ∈ fld_id <$> fields)); [done|].
        by rewrite lookup_insert_eq.
      * rewrite (Hother k Hne), lookup_insert_ne by done. done.
    + intros g w [->|Hin]%elem_of_cons Hg; [congruence|by apply (Hall g w)].
    + intros k. rewrite Hval. destruct (decide (k = fld_id f)) as [->|Hne].
      * rewrite Hhere, He.
        by destruct (bool_decide (fld_id f ∈ fld_id <$> fields)).
      * by rewrite (Hother k Hne).
Qed.

Lemma collect_values_inr form : ∀ fields acc field,
  collect_values py_float form fields acc = inr field →
  ∃ before after v,
    fields = before ++ field :: after
    ∧ Spec.entered form (fld_id field) = Some v ∧ py_float v = None
    ∧ ∀ g w, g ∈ before → Spec.entered form (fld_id g) = Some w →
             is_Some (py_float w).
Proof.
  induction fields as [|f fields IH]; intros acc field; [done|].
  rewrite collect_values_cons.
  destruct (Spec.entered form (fld_id f)) as [v|] eqn:He;
    [destruct (py_float v) as [x|] eqn:Hx|].
  - intros (before & after & w & -> & Hw & Hnone & Hall)%IH.
    exists (f :: before), after, w. split; [done|]. split; [done|].
    split; [done|].
    intros g u [->|Hin]%elem_of_cons Hg; [|by apply (Hall g u)].
    assert (u = v) as -> by congruence. rewrite Hx. by eexists.
  - intros [= <-]. exists [], fields, v. split; [done|]. split; [done|].
    split; [done|]. by intros g w Hin%elem_of_nil.
  - intros (before & after & w & -> & Hw & Hnone & Hall)%IH.
    exists (f :: before), after, w. split; [done|]. split; [done|].
    split; [done|].
    intros g u [->|Hin]%elem_of_cons Hg; [congruence|by apply (Hall g u)].
Qed.

(** X25. The values read from the form (lines 101-109). The loop returns
    early at the first table entry, in table order, whose entered text
    [float] rejects. Otherwise every entered text was accepted, and the
    values map holds, for each table entry with an entered text, the number
    read from it; entries left blank or missing from the form get no
    value, and form keys outside the table are ignored. *)
Theorem collect_values_spec form fields :
  match collect_values py_float form fields ∅ with
  | inl values =>
      (∀ f v, f ∈ fields → Spec.entered form (fld_id f) = Some v →
              is_Some (py_float v))
      ∧ ∀ k, values !! k
             = if bool_decide (k ∈ fld_id <$> fields)
               then Spec.entered form k ≫= py_float
               else None
  | inr field =>
      ∃ before after v,
        fields = before ++ field :: after
        ∧ Spec.entered form (fld_id field) = Some v ∧ py_float v = None
        ∧ ∀ g w, g ∈ before → Spec.entered form (fld_id g) = Some w →
                 is_Some (py_float w)
  end.
Proof.
  destruct (collect_values py_float form fields ∅) as [values|field] eqn:Hc.
  - destruct (collect_values_inl _ _ _ _ Hc) as [Hall Hval].
    split; [exact Hall|]. intros k. rewrite Hval.
    case_bool_decide; [|apply lookup_empty].
    destruct (Spec.entered form k); [done|apply lookup_empty].
  - by apply (collect_values_inr _ _ ∅).
Qed.

Lemma send_result_writes peer message :
  open_connection peer = Returned () →
  (send_result peer message).2 !! 1%nat = Some (Write (wrap_mllp message)).
Proof.
  intros Ho. unfold send_result. rewrite Ho.
  destruct (drain peer) as [[]| |]; try reflexivity.
  destruct (read_ack peer) as [ack| |]; try reflexivity.
  by destruct (wait_closed peer) as [[]| |].
Qed.

(** X26. What a submission reports. For a pending order whose entered
    values [float] accepts, [process_message_submit] hands the sender the
    message of [create_result_message] for the values read from the form,
    with no interpretations, and when the connection opens that message is
    written, framed, as the second call. The message is the join of the
    order segments and one observation segment per table entry of the
    order's test code, numbered from 1; without a carriage return in the
    order texts these are exactly the observation segments it splits into.
    Each carries the number read from the entered text, or [0.00] when the
    entry was left blank, and the abnormal flag [N]. *)
Theorem submitted_observations q id form ts peer now h r values :
  stored q h id = Some r → msg_status r = "pending" →
  collect_values py_float form
    (get_observation_fields (test_id (msg_parsed_data r))) ∅ = inl values →
  open_connection peer = Returned () →
  let pd := msg_parsed_data r in
  let message := create_result_message pd values None ts in
  ∃ red trace h' obx,
    process_message_submit py_float q id form ts peer now h
    = Some (red, trace, h')
    ∧ trace = (send_result peer (MsgStr message)).2
    ∧ trace !! 1%nat = Some (Write (wrap_mllp (MsgStr message)))
    ∧ message = PyStr.join PyStr.CR (order_segments pd ts ++ obx)
    ∧ (Forall (λ x, PyStr.contains "013" x = false)
         (ts :: Spec.order_texts pd) →
       List.filter Spec.is_observation (PyStr.split "013" message) = obx)
    ∧ length obx = length (get_observation_fields (test_id pd))
    ∧ ∀ k field,
        get_observation_fields (test_id pd) !! k = Some field →
        obx !! k
        = Some (obx_segment (S k) field
                  (default PyFloat.zero
                     (Spec.entered form (fld_id field) ≫= py_float))
                  "N" ts)
        ∧ (Spec.entered form (fld_id field) = None →
           PyFloat.format_2f
             (default PyFloat.zero
                (Spec.entered form (fld_id field) ≫= py_float)) = "0.00").
Proof.
  intros Hst Hp Hc Ho pd message.
  destruct (collect_values_inl _ _ _ _ Hc) as [_ Hval].
  destruct (observations_in_message pd values None ts) as [Hjoin Hsplit].
  assert (∃ red h',
            process_message_submit py_float q id form ts peer now h
            = Some (red, (send_result peer (MsgStr message)).2, h'))
    as (red & h' & Hrun).
  { rewrite (submit_pending _ _ _ _ _ _ _ _ Hst Hp), Hc. cbv zeta.
    fold pd. fold message.
    destruct (send_result peer (MsgStr message)).1; [|by eexists _, _].
    destruct (update_status_present q h id r "processed" None now Hst)
      as (h1 & Hup & _).
    rewrite Hup. by eexists _, _. }
  exists red, (send_result peer (MsgStr message)).2, h',
    (observation_segments_from values ∅ ts 1
       (get_observation_fields (test_id pd))).
  split; [exact Hrun|]. split; [reflexivity|].
  split; [by apply send_result_writes|]. split; [exact Hjoin|].
  split; [intros Hall; by apply Hsplit|].
  split; [apply observation_segments_length|].
  intros k field Hk. split; [|by intros ->].
  rewrite observation_segments_lookup, Hk. simpl.
  unfold observation_segment. rewrite lookup_empty, Hval.
  rewrite bool_decide_eq_true_2.
  - destruct (Spec.entered form (fld_id field)); [done|].
    by rewrite lookup_empty.
  - apply list_elem_of_fmap_2. by apply (list_elem_of_lookup_2 _ k).
Qed.

End Routes_facts.

(** ** The application as a whole *)

Section Application_facts.

Variable py_float : string → option spec_float.
Variable hl7_parse : string → option HL7.Message.

Import MessageQueue.
Implicit Types (q : MessageQueue) (h : Heap) (r : StoredMessage).

(** X27. No operation of the running application records a result text:
    if no record of the queue holds one, none does after a connection
    handled by the listener, a discard, a submission, or a clearing. *)
Theorem result_text_is_never_recorded q h :
  wf q h → Spec.no_result q h →
  (∀ env, Spec.no_result q (handle_client hl7_parse q env h).2)
  ∧ (∀ id now red h',
       discard_message q id now h = Some (red, h') → Spec.no_result q h')
  ∧ (∀ id form ts peer now red trace h',
       process_message_submit py_float q id form ts peer now h
       = Some (red, trace, h') →
       Spec.no_result q h')
  ∧ (∀ red h',
       clear_processed_route q h = Some (red, h') → Spec.no_result q h').
Proof.
  intros Hwf Hinv. split; [|split; [|split]].
  - intros env. unfold handle_client.
    destruct (env_data env) as [[|b data]|]; try done.
    destruct (ack_fields _ _ _) as [base_type msg_control_id].
    destruct (env_drained env); [|done].
    destruct (parse_order_message _ _ _ _) as [pd|]; [|done].
    destruct (add_message_effect q h
                (Utf8.decode_ignore (unwrap_mllp (b :: data))) pd
                (env_uuid env) (env_now env) Hwf)
      as (h' & Hrun & Hnew & Hold & _).
    rewrite Hrun. simpl. intros id r Hst.
    destruct (decide (id = env_uuid env)) as [->|Hne].
    + rewrite Hnew in Hst. by injection Hst as <-.
    + rewrite (Hold id Hne) in Hst. by apply (Hinv id).
  - intros id now red h'. unfold discard_message.
    destruct (update_status q id "discarded" None now h) as [[found h1]|]
      eqn:Hrun; simpl; [|done].
    intros [= _ <-]. by apply (update_status_no_result _ _ _ _ _ _ _ Hinv Hrun).
  - intros id form ts peer now red trace h' Hrun.
    destruct (stored q h id) as [r|] eqn:Hst.
    + destruct (decide (msg_status r = "pending")) as [Hp|Hp].
      * rewrite (submit_pending py_float _ _ _ _ _ _ _ _ Hst Hp) in Hrun.
        destruct (collect_values _ _ _ _) as [values|field];
          [|by injection Hrun as _ _ <-].
        cbv zeta in Hrun.
        destruct (send_result _ _).1; [|by injection Hrun as _ _ <-].
        destruct (update_status q id "processed" None now h)
          as [[found h1]|] eqn:Hup; simpl in Hrun; [|done].
        injection Hrun as _ _ <-.
        by apply (update_status_no_result _ _ _ _ _ _ _ Hinv Hup).
      * rewrite submit_not_pending in Hrun; [by injection Hrun as _ _ <-|done|].
        intros r'. rewrite Hst. by intros [= <-].
    + rewrite submit_not_pending in Hrun; [by injection Hrun as _ _ <-|done|].
      intros r'. by rewrite Hst.
  - intros red h'. unfold clear_processed_route.
    destruct (clear_processed q h) as [[n h1]|] eqn:Hrun; simpl; [|done].
    intros [= _ <-] id r Hst. apply (Hinv id).
    by apply (clear_processed_stored _ _ _ _ Hrun).
Qed.

End Application_facts.

Lemma sample_heap_no_result : Spec.no_result Sample.queue Sample.heap.
Proof.
  intros id r Hst.
  destruct (stored_inv _ _ _ _ Hst) as (d & l & Hd & Hl & Hr).
  assert (dicts Sample.heap !! _messages Sample.queue
          = Some {[ "id-1" := 1%positive ]}) as Hd' by reflexivity.
  rewrite Hd' in Hd. injection Hd as <-.
  apply lookup_singleton_Some in Hl as [_ <-].
  assert (records Sample.heap !! 1%positive = Some Sample.record) as Hr'
    by reflexivity.
  rewrite Hr' in Hr. by injection Hr as <-.
Qed.

Lemma sample_record_stored :
  MessageQueue.stored Sample.queue Sample.heap "id-1" = Some Sample.record.
Proof. vm_compute. reflexivity. Qed.

Lemma sample_form_values :
  collect_values Sample.simple_float Sample.form
    (get_observation_fields (test_id (msg_parsed_data Sample.record))) ∅
  = inl Sample.values.
Proof. vm_compute. reflexivity. Qed.

Lemma submit_needs_pending_witness :
  MessageQueue.wf Sample.queue Sample.heap3
  ∧ ∃ red,
      process_message_submit Sample.simple_float Sample.queue "id-2"
        Sample.form Sample.stamp Sample.replying_peer "t9" Sample.heap3
      = Some (red, [], Sample.heap3)
      ∧ flash_category red = "warning".
Proof.
  split; [exact sample_heap3_wf|].
  destruct (submit_needs_pending Sample.simple_float Sample.queue "id-2"
              Sample.form Sample.stamp Sample.replying_peer "t9"
              Sample.heap3 sample_heap3_wf) as (red & Hrun & _ & Hcat).
  - intros r Hr. vm_compute in Hr. injection Hr as <-.
    intros Heq. discriminate Heq.
  - exists red. split; [exact Hrun|]. rewrite Hcat. vm_compute. reflexivity.
Defined.

Lemma submit_invalid_value_witness :
  collect_values Sample.simple_float Sample.bad_form
    (get_observation_fields (test_id (msg_parsed_data Sample.record))) ∅
  = inr (mkObsField "3094-0" "Blood Urea Nitrogen" "mg/dL" "7-20" "15"
           "Normal")
  ∧ process_message_submit Sample.simple_float Sample.queue "id-1"
      Sample.bad_form Sample.stamp Sample.replying_peer "t9" Sample.heap
    = Some (mkRedirect "Invalid value for Blood Urea Nitrogen" "error"
              (ProcessForm "id-1"), [], Sample.heap).
Proof.
  assert (collect_values Sample.simple_float Sample.bad_form
            (get_observation_fields (test_id (msg_parsed_data Sample.record)))
            ∅
          = inr (mkObsField "3094-0" "Blood Urea Nitrogen" "mg/dL" "7-20"
                   "15" "Normal")) as Hbad by (vm_compute; reflexivity).
  split; [exact Hbad|].
  exact (submit_invalid_value Sample.simple_float Sample.queue "id-1"
           Sample.bad_form Sample.stamp Sample.replying_peer "t9" Sample.heap
           Sample.record _ sample_record_stored eq_refl Hbad).
Defined.

Lemma submit_failed_send_witness :
  (send_result Sample.timed_out_peer
     (MsgStr (create_result_message (msg_parsed_data Sample.record)
                Sample.values None Sample.stamp))).1 = false
  ∧ ∃ trace,
      process_message_submit Sample.simple_float Sample.queue "id-1"
        Sample.form Sample.stamp Sample.timed_out_peer "t9" Sample.heap
      = Some (mkRedirect "Failed to send message to MLLP server" "error"
                Index, trace, Sample.heap)
      ∧ connects trace = 1.
Proof.
  split; [reflexivity|].
  destruct (submit_failed_send Sample.simple_float Sample.queue "id-1"
              Sample.form Sample.stamp Sample.timed_out_peer "t9" Sample.heap
              Sample.record Sample.values sample_record_stored eq_refl
              sample_form_values eq_refl) as (trace & Hrun & Hone & _).
  exists trace. split; [exact Hrun | exact Hone].
Defined.

Lemma submit_sent_marks_processed_witness :
  MessageQueue.wf Sample.queue Sample.heap
  ∧ ∃ trace h',
      process_message_submit Sample.simple_float Sample.queue "id-1"
        Sample.form Sample.stamp Sample.replying_peer "t9" Sample.heap
      = Some (mkRedirect "Message processed and sent successfully!"
                "success" Index, trace, h')
      ∧ MessageQueue.stored Sample.queue h' "id-1"
        = Some (mkStoredMessage "id-1" "raw" (Sample.order "BMP") "processed"
                  "2025-01-01T00:00:00" (Some "t9") None).
Proof.
  split; [exact sample_heap_wf|].
  destruct (submit_sent_marks_processed Sample.simple_float Sample.queue
              "id-1" Sample.form Sample.stamp Sample.replying_peer "t9"
              Sample.heap Sample.record Sample.values sample_heap_wf
              sample_record_stored eq_refl sample_form_values eq_refl)
    as (h' & Hrun & Hst & _).
  eexists _, h'. split; [exact Hrun | exact Hst].
Defined.

Lemma discard_message_effect_witness :
  MessageQueue.wf Sample.queue Sample.heap3
  ∧ ∃ h',
      discard_message Sample.queue "id-2" "t9" Sample.heap3
      = Some (mkRedirect "Message discarded successfully" "success" Index, h')
      ∧ MessageQueue.stored Sample.queue h' "id-2"
        = Some (mkStoredMessage "id-2" "raw2" (Sample.order "1554-5")
                  "discarded" "2025-01-01T00:00:01" (Some "t9") None).
Proof.
  split; [exact sample_heap3_wf|].
  destruct (discard_message_effect Sample.simple_float Sample.queue "id-2"
              "t9" Sample.heap3 sample_heap3_wf)
    as (red & h' & Hrun & _ & _ & Hm & _).
  assert (MessageQueue.stored Sample.queue Sample.heap3 "id-2"
          = Some (mkStoredMessage "id-2" "raw2" (Sample.order "1554-5")
                    "processed" "2025-01-01T00:00:01"
                    (Some "2025-01-01T00:05:00") None)) as Hst
    by (vm_compute; reflexivity).
  rewrite Hst in Hm. destruct Hm as [Hred Hst'].
  exists h'. split; [by rewrite <- Hred | exact Hst'].
Defined.

Lemma form_shown_iff_pending_witness :
  MessageQueue.wf Sample.queue Sample.heap
  ∧ ∃ l obs_fields,
      process_message_form Sample.queue "id-1" Sample.heap
      = Some (FormPage l obs_fields "BMP", Sample.heap)
      ∧ obs_fields = get_observation_fields "BMP".
Proof.
  split; [exact sample_heap_wf|].
  destruct (form_shown_iff_pending Sample.queue "id-1" Sample.heap
              sample_heap_wf) as ([red|l obs_fields shown] & Hrun & Hreply).
  - destruct Hreply as (_ & _ & Hnp).
    by destruct (Hnp Sample.record sample_record_stored).
  - destruct Hreply as (r & _ & Hst & _ & Hshown & Hfields).
    rewrite sample_record_stored in Hst. injection Hst as <-.
    exists l, obs_fields. split; [by rewrite Hrun, Hshown|].
    by rewrite Hfields, Hshown.
Defined.

Lemma submitted_observations_witness :
  MessageQueue.stored Sample.queue Sample.heap "id-1" = Some Sample.record
  ∧ ∃ red trace h' obx,
      process_message_submit Sample.simple_float Sample.queue "id-1"
        Sample.form Sample.stamp Sample.replying_peer "t9" Sample.heap
      = Some (red, trace, h')
      ∧ trace !! 1%nat
        = Some (Write (wrap_mllp
                         (MsgStr (create_result_message (Sample.order "BMP")
                                    Sample.values None Sample.stamp))))
      ∧ List.filter Spec.is_observation
          (PyStr.split "013"
             (create_result_message (Sample.order "BMP") Sample.values None
                Sample.stamp))
        = obx
      ∧ obx !! 0
        = Some ("OBX|1|NM|2345-7^Glucose^http://loinc.org||92.50|mg/dL|70-100"
                +:+ "|N|||F|||20250101120000||||||")
      ∧ obx !! 1
        = Some ("OBX|2|NM|3094-0^Blood Urea Nitrogen^http://loinc.org||0.00"
                +:+ "|mg/dL|7-20|N|||F|||20250101120000||||||").
Proof.
  split; [exact sample_record_stored|].
  destruct (submitted_observations Sample.simple_float Sample.queue "id-1"
              Sample.form Sample.stamp Sample.replying_peer "t9" Sample.heap
              Sample.record Sample.values sample_record_stored eq_refl
              sample_form_values eq_refl)
    as (red & trace & h' & obx & Hrun & _ & Hwrite & _ & Hsplit & _ & Hobx).
  exists red, trace, h', obx. split; [exact Hrun|]. split; [exact Hwrite|].
  split; [apply Hsplit; by repeat constructor|]. split.
  - destruct (Hobx 0 _ eq_refl) as [H0 _]. rewrite H0.
    vm_compute. reflexivity.
  - destruct (Hobx 1 _ eq_refl) as [H1 _]. rewrite H1.
    vm_compute. reflexivity.
Defined.

Lemma result_text_is_never_recorded_witness :
  MessageQueue.wf Sample.queue Sample.heap
  ∧ Spec.no_result Sample.queue Sample.heap
  ∧ Spec.no_result Sample.queue
      (handle_client Sample.simple_parse Sample.queue
         (Sample.env (Sample.frame Sample.order_bmp)) Sample.heap).2.
Proof.
  split; [exact sample_heap_wf|]. split; [exact sample_heap_no_result|].
  destruct (result_text_is_never_recorded Sample.simple_float
              Sample.simple_parse Sample.queue Sample.heap sample_heap_wf
              sample_heap_no_result) as [Hlisten _].
  apply Hlisten.
Defined.
